(** * SunPath: the solar-position series generator and its binary writer

    A shallow embedding of [generate_solar_data.py]: the construction of the
    one-minute time index of a calendar year in a time zone
    ([compute_solar_positions]), and the writer of the fixed-layout binary
    file ([write_binary]).  The astronomical routine of pvlib is a parameter
    of the development; pandas' time index, Python's [struct], [calendar] and
    [os.path] functions and numpy's float32 conversion are written out as far
    as the script relies on them. *)

From Stdlib Require Import ZArith List Lia Bool Ascii String Sorted.
From Stdlib Require Import Floats.PrimFloat Floats.SpecFloat Floats.FloatOps.
From stdpp Require Import gmap strings list list_numbers pretty.
Import ListNotations.
Local Open Scope Z_scope.
Set Warnings "-inexact-float".

(* ===================================================================== *)
(** ** Exceptions and the state-and-exception monad *)
(* ===================================================================== *)

(** The exceptions the modelled statements can raise. *)
Inductive exn : Type :=
| struct_error             (* struct.pack: argument out of range *)
| NonExistentTimeError     (* pandas: wall-clock time skipped by the zone *)
| AmbiguousTimeError       (* pandas: wall-clock time repeated by the zone *)
| FileNotFoundError        (* os.makedirs on the empty path *)
| LibraryError (code : Z). (* anything raised inside pvlib *)

Inductive result (A : Type) : Type :=
| Ok (a : A)
| Raise (e : exn).
Arguments Ok {A} a.
Arguments Raise {A} e.

Definition is_Ok {A} (r : result A) : bool :=
  match r with Ok _ => true | Raise _ => false end.

(** A computation over a state [S] that returns or raises.  The state reached
    when an exception is raised is kept: what a statement did before it
    failed stays done. *)
Definition SE (S A : Type) : Type := S -> result A * S.

Definition se_ret {S A} (a : A) : SE S A := fun s => (Ok a, s).
Definition se_bind {S A B} (m : SE S A) (k : A -> SE S B) : SE S B :=
  fun s => match m s with
           | (Ok a, s') => k a s'
           | (Raise e, s') => (Raise e, s')
           end.
Definition se_lift {S A} (r : result A) : SE S A := fun s => (r, s).

Declare Scope py_scope.
Delimit Scope py_scope with py.
Notation "x <- m ;; k" := (se_bind m (fun x => k))
  (at level 100, m at next level, right associativity) : py_scope.
Notation "m ;;; k" := (se_bind m (fun _ => k))
  (at level 100, right associativity) : py_scope.

(** [mapM]: apply a fallible function along a list, stopping at the first
    exception. *)
Fixpoint mapM {A B} (f : A -> result B) (l : list A) : result (list B) :=
  match l with
  | [] => Ok []
  | a :: l' =>
      match f a with
      | Raise e => Raise e
      | Ok b => match mapM f l' with
                | Raise e => Raise e
                | Ok bs => Ok (b :: bs)
                end
      end
  end.

(* ===================================================================== *)
(** ** Bytes, [struct.pack] *)
(* ===================================================================== *)

(** A byte is an integer in [0, 256). *)
Definition bytes := list Z.

Definition bytes_of_string (s : string) : bytes :=
  map (fun c => Z.of_N (N_of_ascii c)) (list_ascii_of_string s).

(** [z.to_bytes(n, 'little')] on the residue of [z] modulo [256^n]: for a
    negative [z] these are the bytes of its two's complement. *)
Fixpoint to_bytes_le (n : nat) (z : Z) : bytes :=
  match n with
  | O => []
  | S n' => z mod 256 :: to_bytes_le n' (z / 256)
  end.

(** [struct.pack("<h", x)]: two bytes, little-endian, signed; raises
    [struct.error] outside the int16 range. *)
Definition struct_pack_h (x : Z) : result bytes :=
  if (-32768 <=? x) && (x <=? 32767) then Ok (to_bytes_le 2 x)
  else Raise struct_error.

(** [struct.pack("<i", x)]: four bytes, little-endian, signed. *)
Definition struct_pack_i (x : Z) : result bytes :=
  if (-2147483648 <=? x) && (x <=? 2147483647) then Ok (to_bytes_le 4 x)
  else Raise struct_error.

(** Reading side of the format: the unsigned and the signed value of a
    little-endian byte string. *)
Fixpoint from_bytes_le (bs : bytes) : Z :=
  match bs with
  | [] => 0
  | b :: bs' => b + 256 * from_bytes_le bs'
  end.

Definition int_from_bytes_le (bs : bytes) : Z :=
  let u := from_bytes_le bs in
  let w := 256 ^ Z.of_nat (length bs) in
  if 2 * u <? w then u else u - w.

(** The bytes at offsets [i, j) of a byte string. *)
Definition slice (i j : nat) (bs : bytes) : bytes := take (j - i) (drop i bs).

(* ===================================================================== *)
(** ** Binary format constants *)
(* ===================================================================== *)

Definition MAGIC : bytes := bytes_of_string "SLRD".
Definition VERSION : Z := 1.
Definition MINUTES_PER_DAY : Z := 1440.

(* ===================================================================== *)
(** ** Calendar *)
(* ===================================================================== *)

(** [calendar.isleap]. *)
Definition isleap (year : Z) : bool :=
  (year mod 4 =? 0) && (negb (year mod 100 =? 0) || (year mod 400 =? 0)).

(** The number of days of a year, as [write_binary] computes it. *)
Definition days_in_year (year : Z) : Z := if isleap year then 366 else 365.

(** Days before 1 January of [year] in the proleptic Gregorian calendar,
    counted from 1 January of year 1. *)
Definition days_before_year (year : Z) : Z :=
  let y := year - 1 in y * 365 + y / 4 - y / 100 + y / 400.

Definition days_before_month (year month : Z) : Z :=
  let feb := if isleap year then 1 else 0 in
  match month with
  | 1 => 0 | 2 => 31 | 3 => 59 + feb | 4 => 90 + feb | 5 => 120 + feb
  | 6 => 151 + feb | 7 => 181 + feb | 8 => 212 + feb | 9 => 243 + feb
  | 10 => 273 + feb | 11 => 304 + feb | _ => 334 + feb
  end.

(** Ordinal of a date, 1 January of year 1 being day 1. *)
Definition ymd2ord (year month day : Z) : Z :=
  days_before_year year + days_before_month year month + day.

(** Ordinal of 1970-01-01. *)
Definition EPOCH_ORD : Z := 719163.

(** A time of day on a date, in minutes since 1970-01-01 00:00 on the same
    clock.  Read on the UTC clock it is an absolute instant, read on a local
    clock a wall-clock time. *)
Definition minutes_of (year month day hour minute : Z) : Z :=
  (ymd2ord year month day - EPOCH_ORD) * MINUTES_PER_DAY + hour * 60 + minute.

(** The naive wall-clock times the two f-strings of the script denote,
    ["{year}-01-01"] and ["{year}-12-31 23:59:00"], for a year written with
    four digits; what pandas makes of the text of another year is not
    modelled. *)
Definition year_start (year : Z) : Z := minutes_of year 1 1 0 0.
Definition year_end (year : Z) : Z := minutes_of year 12 31 23 59.

(** The index of the format for a wall-clock time [w] of [year]:
    [(dayOfYear - 1) * 1440 + minuteOfDay], with the 1-based day of the year
    and the 0-based minute since local midnight. *)
Definition dayOfYear (year w : Z) : Z :=
  w / MINUTES_PER_DAY + EPOCH_ORD - days_before_year year.
Definition minuteOfDay (w : Z) : Z := w mod MINUTES_PER_DAY.
Definition sample_index (year w : Z) : Z :=
  (dayOfYear year w - 1) * MINUTES_PER_DAY + minuteOfDay w.

(* ===================================================================== *)
(** ** Time zones and the pandas time index *)
(* ===================================================================== *)

(** A time zone rule as the zone database resolves a zone name: the UTC
    offset in force before the first transition, and the transitions in
    ascending order, each an instant with the offset in force from it on.
    Instants and offsets are in minutes: the model covers the zones whose
    offsets are whole numbers of minutes over the period looked at, as the
    offsets of standard and daylight-saving time are.  An offset with
    seconds, such as the local mean time a zone kept before its standard
    time (-4:56:02 in New York until 1883), is outside the model; there the
    first instant of the year is not on a whole minute and the last step of
    the index stops short of the end. *)
Record tzinfo : Type := TzInfo {
  tz_first : Z;
  tz_transitions : list (Z * Z)
}.

Fixpoint offset_from (ts : list (Z * Z)) (o : Z) (u : Z) : Z :=
  match ts with
  | [] => o
  | (t, o') :: ts' => if u <? t then o else offset_from ts' o' u
  end.

(** UTC offset of the zone at the absolute instant [u]. *)
Definition utcoffset (tz : tzinfo) (u : Z) : Z :=
  offset_from (tz_transitions tz) (tz_first tz) u.

(** Wall-clock reading of the instant [u] in the zone. *)
Definition wall_clock (tz : tzinfo) (u : Z) : Z := u + utcoffset tz u.

(** The instants whose wall-clock reading is [w]. *)
Definition instants_of_wall (tz : tzinfo) (w : Z) : list Z :=
  filter (fun u => wall_clock tz u = w)
         (map (fun o => w - o)
              (remove_dups (tz_first tz :: map snd (tz_transitions tz)))).

(** [pd.Timestamp(text, tz=zone)]: the naive time is localised with the
    defaults of pandas, which raise on a wall-clock time that the zone skips
    or repeats.  The zone name is taken as resolved: an unknown name is not
    modelled. *)
Definition Timestamp (w : Z) (tz : tzinfo) : result Z :=
  match instants_of_wall tz w with
  | [] => Raise NonExistentTimeError
  | [u] => Ok u
  | _ => Raise AmbiguousTimeError
  end.

(** [pd.date_range(start, end, freq="1min")] between two zone-aware
    timestamps: the instants from [start] on in steps of one minute of
    absolute time, up to [end] included. *)
Definition date_range (start end_ : Z) : list Z := seqZ start (end_ - start + 1).
Arguments date_range : simpl never.

(* ===================================================================== *)
(** ** numpy float32 *)
(* ===================================================================== *)

(** A float64 is a primitive binary64 float.  A float32 is kept as its IEEE
    binary32 bit pattern, an integer in [0, 2^32): sign bit, 8 exponent
    bits, 23 fraction bits. *)
Definition float32 : Type := Z.

Definition sign_bit (s : bool) : Z := if s then 2 ^ 31 else 0.

(** Bit pattern of a binary32 datum given as sign, mantissa and exponent.
    A NaN is given the pattern of the quiet NaN [0x7FC00000].  Primitive
    floats do not tell the NaNs apart, whereas the conversion of numpy hands
    the sign and the leading payload bits of a float64 NaN on to the float32
    NaN ([0xFFC00000] for a NaN with the sign set): of the pattern of a
    converted NaN only [float32_is_nan] is meant, and the statements say no
    more about it. *)
Definition bits_of_binary32 (x : spec_float) : float32 :=
  match x with
  | S754_zero s => sign_bit s
  | S754_infinity s => sign_bit s + 255 * 2 ^ 23
  | S754_nan => 255 * 2 ^ 23 + 2 ^ 22
  | S754_finite s m e =>
      if Z.pos m <? 2 ^ 23
      then sign_bit s + Z.pos m                       (* subnormal *)
      else sign_bit s + ((e + 150) mod 256) * 2 ^ 23 + (Z.pos m - 2 ^ 23) mod 2 ^ 23
  end.

(** [values.astype(np.float32)] on one element: rounding to the nearest
    binary32 value, ties to even, overflowing to infinity. *)
Definition astype_float32 (x : float) : float32 :=
  bits_of_binary32
    match Prim2SF x with
    | S754_finite s m e => binary_round 24 128 s m e
    | sf => sf
    end.

(** The float32 patterns that are NaNs: all exponent bits set and a fraction
    that is not zero, whatever the sign. *)
Definition float32_is_nan (b : float32) : bool :=
  ((b / 2 ^ 23) mod 256 =? 255) && negb (b mod 2 ^ 23 =? 0).

(** [bits] is what the conversion makes of [x]: the rounded value of a
    number or an infinity, some NaN of a NaN. *)
Definition converted (x : float) (bits : float32) : Prop :=
  match Prim2SF x with
  | S754_nan => float32_is_nan bits = true
  | _ => bits = astype_float32 x
  end.

(** [ndarray.tobytes()] of a float32 array on a little-endian machine. *)
Definition tobytes (a : list float32) : bytes :=
  concat (map (to_bytes_le 4) a).

(** The array the writer fills through the two strided assignments
    [interleaved[0::2] = azimuths] and [interleaved[1::2] = elevations]. *)
Fixpoint interleave {A} (xs ys : list A) : list A :=
  match xs, ys with
  | x :: xs', y :: ys' => x :: y :: interleave xs' ys'
  | _, _ => []
  end.

(* ===================================================================== *)
(** ** The data frame of samples *)
(* ===================================================================== *)

(** One row of the frame: its index entry, the absolute instant in minutes
    since the epoch (the zone is that of the whole index), and the two
    columns the script keeps. *)
Record row : Type := Row {
  time : Z;
  azimuth : float;
  apparent_elevation : float
}.

Abbreviation DataFrame := (list row).

Definition len (df : DataFrame) : Z := Z.of_nat (length df).

(* ===================================================================== *)
(** ** The world: files, directories, standard output *)
(* ===================================================================== *)

Inductive message : Type :=
| msg_computing (n : Z)                 (* "Computing {n:,} sun positions ..." *)
| msg_done                              (* "done in {elapsed:.1f}s" *)
| msg_row_mismatch (expected count : Z) (* "Expected {e:,} rows but got {c:,}. File may be incomplete." *)
| msg_binary (n : Z) (path : string) (size : Z). (* "Binary: {n:,} entries -> {path} ({size_mb:.1f} MB)" *)

(** [files] maps a path to the content of the file there; [fs_log] lists the
    successive contents of the file store, one entry for every change made
    to it, oldest first: what another process could have seen. *)
Record world : Type := World {
  files : gmap string bytes;
  dirs : gset string;
  stdout : list message;
  fs_log : list (gmap string bytes)
}.

Definition print (m : message) : SE world unit :=
  fun w => (Ok tt, World (files w) (dirs w) (stdout w ++ [m]) (fs_log w)).

Definition set_file (path : string) (content : bytes) (w : world) : world :=
  let fs := <[path := content]> (files w) in
  World fs (dirs w) (stdout w) (fs_log w ++ [fs]).

(** [os.path.dirname] (posixpath): everything up to the last slash, with the
    trailing slashes removed unless nothing else is left. *)
Definition is_slash (c : ascii) : bool := Ascii.eqb c "/"%char.

Fixpoint drop_while {A} (p : A -> bool) (l : list A) : list A :=
  match l with
  | [] => []
  | a :: l' => if p a then drop_while p l' else l
  end.

Definition os_path_dirname (p : string) : string :=
  let head := drop_while (fun c => negb (is_slash c)) (rev (list_ascii_of_string p)) in
  let head' := if forallb is_slash head then head else drop_while is_slash head in
  string_of_list_ascii (rev head').

(** [os.makedirs(d, exist_ok=True)]: raises on the empty path, otherwise the
    directory exists afterwards.  Failures that depend on the machine
    (permissions, a full disk, a file standing where a directory is wanted)
    are outside the model, here and in [with_open_wb]. *)
Definition os_makedirs (d : string) : SE world unit :=
  fun w => if String.eqb d "" then (Raise FileNotFoundError, w)
           else (Ok tt, World (files w) ({[ d ]} ∪ dirs w) (stdout w) (fs_log w)).

(** [os.path.getsize]. *)
Definition os_path_getsize (path : string) (w : world) : Z :=
  match files w !! path with
  | Some bs => Z.of_nat (length bs)
  | None => 0
  end.

(** The file object that [open(path, "wb")] returns, a buffered writer: the
    size of its buffer, the chunks handed to the operating system so far,
    oldest first, and the bytes that wait in the buffer. *)
Record file_object : Type := FileObject {
  buffer_size : Z;
  raw_writes : list bytes;
  buffer : bytes
}.

(** The size of the buffer of a file opened without a [buffering] argument,
    [io.DEFAULT_BUFFER_SIZE]; Python takes the block size of the file system
    where the system reports one, 4096 bytes on many. *)
Definition DEFAULT_BUFFER_SIZE : Z := 8192.

(** Flushing hands the bytes of the buffer, if there are any, to the
    operating system in one chunk. *)
Definition flush (f : file_object) : file_object :=
  match buffer f with
  | [] => f
  | _ :: _ => FileObject (buffer_size f) (raw_writes f ++ [buffer f]) []
  end.

(** [f.write(bs)] on a buffered writer.  Bytes that fit into the free space
    of the buffer are kept there.  Otherwise the buffer is flushed first;
    then [bs] goes to the operating system at once if it is larger than the
    buffer, and into the buffer if it is not. *)
Definition f_write (bs : bytes) : SE file_object unit :=
  fun f =>
    let n := Z.of_nat (length bs) in
    if n <=? buffer_size f - Z.of_nat (length (buffer f))
    then (Ok tt, FileObject (buffer_size f) (raw_writes f) (buffer f ++ bs))
    else
      let f' := flush f in
      if buffer_size f <? n
      then (Ok tt, FileObject (buffer_size f) (raw_writes f' ++ [bs]) [])
      else (Ok tt, FileObject (buffer_size f) (raw_writes f') bs).

(** The chunks reach the file at [path] one after the other, each appended
    to the [content] that is there. *)
Fixpoint raw_write (path : string) (content : bytes) (chunks : list bytes) (w : world)
  : world :=
  match chunks with
  | [] => w
  | c :: chunks' => raw_write path (content ++ c) chunks' (set_file path (content ++ c) w)
  end.

(** [with open(path, "wb") as f: body].  Opening creates the file or
    truncates the one that is there; the block is left through the closing
    of [f] on every path, also when [body] raises, and closing flushes the
    buffer.  The path is taken to name a regular file or nothing yet: a path
    that names a directory (one that ends in a slash, in [.] or in [..], or
    one where a directory stands) makes [open] raise [IsADirectoryError],
    which is outside the model. *)
Definition with_open_wb {A} (path : string) (body : SE file_object A) : SE world A :=
  fun w =>
    let w1 := set_file path [] w in
    let '(r, f) := body (FileObject DEFAULT_BUFFER_SIZE [] []) in
    (r, raw_write path [] (raw_writes (flush f)) w1).

(* ===================================================================== *)
(** ** Core: solar positions for an entire year at one-minute resolution *)
(* ===================================================================== *)

Section Generator.

(** The collaborator, [pvlib.solarposition.get_solarposition] with the
    method ["nrel_numpy"], seen at one instant: from the absolute instant,
    the latitude, the longitude and the altitude to the azimuth and the
    apparent elevation, or an exception. *)
Variable solar_position : Z -> float -> float -> float -> result (float * float).

(** The vectorised call over a time index: one row per instant, in the
    order of the index; an exception anywhere fails the whole call.  Of
    the columns pvlib returns, the two that are selected at the end of
    [compute_solar_positions] are kept. *)
Definition get_solarposition (times : list Z) (latitude longitude altitude : float)
  : result DataFrame :=
  mapM (fun t => match solar_position t latitude longitude altitude with
                 | Ok (az, el) => Ok (Row t az el)
                 | Raise e => Raise e
                 end) times.

Definition compute_solar_positions (latitude longitude altitude : float)
    (timezone : tzinfo) (year : Z) : SE world DataFrame :=
  (start <- se_lift (Timestamp (year_start year) timezone) ;;
   end_ <- se_lift (Timestamp (year_end year) timezone) ;;
   let times := date_range start end_ in
   print (msg_computing (Z.of_nat (length times))) ;;;
   solpos <- se_lift (get_solarposition times latitude longitude altitude) ;;
   print msg_done ;;;
   se_ret solpos)%py.

End Generator.

(* ===================================================================== *)
(** ** Binary writer *)
(* ===================================================================== *)

Definition write_binary (df : DataFrame) (path : string) (year : Z) : SE world Z :=
  let is_leap := isleap year in
  let expected_minutes := (if is_leap then 366 else 365) * MINUTES_PER_DAY in
  (os_makedirs (os_path_dirname path) ;;;
   with_open_wb path
     ((* header, 16 bytes *)
      f_write MAGIC ;;;
      version <- se_lift (struct_pack_h VERSION) ;; f_write version ;;;
      yr <- se_lift (struct_pack_h year) ;; f_write yr ;;;
      total <- se_lift (struct_pack_i expected_minutes) ;; f_write total ;;;
      reserved <- se_lift (struct_pack_i 0) ;; f_write reserved ;;;
      (* data: azimuth(f32) + elevation(f32) per minute *)
      let azimuths := map astype_float32 (map azimuth df) in
      let elevations := map astype_float32 (map apparent_elevation df) in
      let interleaved := interleave azimuths elevations in
      f_write (tobytes interleaved)) ;;;
   let count := len df in
   (if negb (count =? expected_minutes)
    then print (msg_row_mismatch expected_minutes count)
    else se_ret tt) ;;;
   se_ret count)%py.

(* ===================================================================== *)
(** ** Main: one (city, year) job *)
(* ===================================================================== *)

(** An entry of the [Cities] table, its zone name resolved. *)
Record city : Type := City {
  latitude : float;
  longitude : float;
  altitude : float;
  timezone : tzinfo
}.

(** [os.path.join] (posixpath) of two components. *)
Definition os_path_join (a b : string) : string :=
  match list_ascii_of_string b with
  | c :: _ => if is_slash c then b
              else match rev (list_ascii_of_string a) with
                   | [] => b
                   | d :: _ => if is_slash d then a +:+ b else a +:+ "/" +:+ b
                   end
  | [] => match rev (list_ascii_of_string a) with
          | [] => b
          | d :: _ => if is_slash d then a +:+ b else a +:+ "/" +:+ b
          end
  end.

(** [STREAMING_DIR], from the directory of the script. *)
Definition STREAMING_DIR (script_dir : string) : string :=
  os_path_join (os_path_join (os_path_join script_dir "Assets") "StreamingAssets") "SolarData".

Definition bin_path (script_dir city_name : string) (year : Z) : string :=
  os_path_join (os_path_join (STREAMING_DIR script_dir) city_name)
               ("sun_pos_" +:+ pretty year +:+ ".bin").

(** The body of the two loops of [main] for one city and one year, without
    the optional CSV export. *)
Definition main_job (solar_position : Z -> float -> float -> float -> result (float * float))
    (script_dir city_name : string) (info : city) (year : Z) : SE world unit :=
  (df <- compute_solar_positions solar_position
           (latitude info) (longitude info) (altitude info) (timezone info) year ;;
   let p := bin_path script_dir city_name year in
   n <- write_binary df p year ;;
   size <- (fun w => (Ok (os_path_getsize p w), w)) ;;
   print (msg_binary n p size))%py.

(** The [Cities] table of the script; the zone ["America/New_York"] with its
    transitions of 2024: standard time (UTC-5) until 10 March 07:00 UTC,
    daylight time (UTC-4) until 3 November 06:00 UTC, standard time after. *)
Definition America_New_York : tzinfo :=
  TzInfo (-300) [ (minutes_of 2024 3 10 7 0, -240); (minutes_of 2024 11 3 6 0, -300) ].

Definition Manhattan : city :=
  City 40.7826%float (-73.9656)%float 33%float America_New_York.

(** The zone ["Europe/Istanbul"] in 2016: UTC+2 until 27 March 01:00 UTC and
    UTC+3 from then on, the return to UTC+2 having been cancelled. *)
Definition Europe_Istanbul : tzinfo :=
  TzInfo 120 [ (minutes_of 2016 3 27 1 0, 180) ].

(* ===================================================================== *)
(** ** The reader of the format *)
(* ===================================================================== *)

Inductive decode_error : Type := BadMagic | UnsupportedVersion | TruncatedFile.

Record header : Type := Header {
  h_version : Z;
  h_year : Z;
  h_totalSampleCount : Z;
  h_reserved : Z
}.

Definition HEADER_SIZE : nat := 16.

(** The payload cut into 8-byte records, each two little-endian float32. *)
Fixpoint records (payload : bytes) : list (float32 * float32) :=
  match payload with
  | a0 :: a1 :: a2 :: a3 :: e0 :: e1 :: e2 :: e3 :: rest =>
      (from_bytes_le [a0; a1; a2; a3], from_bytes_le [e0; e1; e2; e3]) :: records rest
  | _ => []
  end.

(** Modelled from the spec: the decoder of the format (the loader that reads
    the files is not part of the sources).  It fails with [BadMagic] when the
    first four bytes are not the magic, with [UnsupportedVersion] when the
    version is not 1, with [TruncatedFile] when the bytes after the header are
    not a multiple of 8 or not [totalSampleCount * 8]; a stream too short for
    a header is reported truncated; the reserved field is read and not
    checked. *)
Definition decode (stream : bytes) : decode_error + (header * list (float32 * float32)) :=
  if negb (bool_decide (slice 0 4 stream = MAGIC)) then inl BadMagic
  else if (length stream <? HEADER_SIZE)%nat then inl TruncatedFile
  else
    let hd := Header (int_from_bytes_le (slice 4 6 stream))
                     (int_from_bytes_le (slice 6 8 stream))
                     (int_from_bytes_le (slice 8 12 stream))
                     (int_from_bytes_le (slice 12 16 stream)) in
    let payload := drop HEADER_SIZE stream in
    if negb (h_version hd =? VERSION) then inl UnsupportedVersion
    else if negb (Z.of_nat (length payload) mod 8 =? 0) then inl TruncatedFile
    else if negb (Z.of_nat (length payload) =? h_totalSampleCount hd * 8) then inl TruncatedFile
    else inr (hd, records payload).

(** Modelled from the spec: the record of index [i], read at the byte offset
    [headerSize + i * 8]. *)
Definition read_sample (stream : bytes) (i : nat) : option (float32 * float32) :=
  match slice (HEADER_SIZE + i * 8) (HEADER_SIZE + i * 8 + 8) stream with
  | [a0; a1; a2; a3; e0; e1; e2; e3] =>
      Some (from_bytes_le [a0; a1; a2; a3], from_bytes_le [e0; e1; e2; e3])
  | _ => None
  end.

(** The initial world: no file, nothing printed. *)
Definition empty_world : world := World ∅ ∅ [] [].

(* ===================================================================== *)
(** ** Vocabulary of the statements *)
(* ===================================================================== *)

Definition is_byte (b : Z) : Prop := 0 <= b < 256.

(** The sixteen bytes of the header of the format for [year]. *)
Definition header_bytes (year : Z) : bytes :=
  MAGIC ++ to_bytes_le 2 VERSION ++ to_bytes_le 2 year
        ++ to_bytes_le 4 (days_in_year year * MINUTES_PER_DAY) ++ to_bytes_le 4 0.

(** The two float32 values of a row, and the payload of a frame. *)
Definition sample_bits (r : row) : float32 * float32 :=
  (astype_float32 (azimuth r), astype_float32 (apparent_elevation r)).

Definition payload_bytes (df : DataFrame) : bytes :=
  tobytes (interleave (map astype_float32 (map azimuth df))
                      (map astype_float32 (map apparent_elevation df))).

(** The index entries of a frame whose wall-clock reading falls on the
    [d]-th day of [year]. *)
Definition samples_on_day (tz : tzinfo) (year d : Z) (df : DataFrame) : list Z :=
  filter (fun u => dayOfYear year (wall_clock tz u) = d) (map time df).

(** The index entries of a frame whose wall-clock reading is [w]. *)
Definition samples_at_wall (tz : tzinfo) (w : Z) (df : DataFrame) : list Z :=
  filter (fun u => wall_clock tz u = w) (map time df).

(** Stand-ins for the collaborator: one that returns the same pair at every
    instant, one that returns the latitude and the altitude it was called
    with, one that fails from an instant on. *)
Definition constant_position (az el : float)
  : Z -> float -> float -> float -> result (float * float) :=
  fun _ _ _ _ => Ok (az, el).

Definition echo_position : Z -> float -> float -> float -> result (float * float) :=
  fun _ lat _ alt => Ok (lat, alt).

Definition failing_from (t0 : Z) (code : Z)
  : Z -> float -> float -> float -> result (float * float) :=
  fun t _ _ _ => if t <? t0 then Ok (0%float, 0%float) else Raise (LibraryError code).

(** A sample input of the writer: a frame of two rows. *)
Definition two_rows : DataFrame :=
  [ Row 0 180.5%float (-3.25)%float; Row 1 0.1%float 90%float ].

(** The years whose two boundary texts are four-digit ISO dates inside the
    bounds of pandas timestamps at nanosecond resolution (1677-09-21 to
    2262-04-11), whatever the version of pandas: the statements about the
    time index are made for these years. *)
Definition supported_year (year : Z) : Prop := 1678 <= year <= 2261.

(** A zone without transitions, ["Asia/Kolkata"] (UTC+5:30 all year), and a
    frame whose float64 values differ from those of [two_rows] by less than
    float32 can tell. *)
Definition Asia_Kolkata : tzinfo := TzInfo 330 [].

Definition two_rows_nearby : DataFrame :=
  [ Row 7 180.5%float (-3.25)%float; Row 9 0.1000000001%float 90%float ].

(** A path has a directory part when it contains a slash. *)
Definition has_slash (p : string) : bool := existsb is_slash (list_ascii_of_string p).

(* ===================================================================== *)
(** ** Command line: the selection of the cities and the main loop *)
(* ===================================================================== *)

(** The lines that [resolve_cities] and [main] print themselves, and, under
    [line_of], the lines of the functions they call. *)
Inductive line : Type :=
| line_unknown_city (name : string) (available : list string)
                                   (* "Unknown city '{name}'. Available: {', '.join(...)}" *)
| line_cities (names : list string)    (* "Cities : {', '.join(cities.keys())}" *)
| line_years (years : list Z)          (* "Years  : {', '.join(str(y) for y in years)}" *)
| line_output_binary (dir : string)    (* "Output : binary -> {STREAMING_DIR}" *)
| line_output_csv (dir : string)       (* "         csv    -> {RESOURCES_DIR}" *)
| line_blank                           (* print() *)
| line_job (city_name : string) (year : Z)   (* "  [{city_name} {year}]" *)
| line_csv (path : string) (size : Z)  (* "    CSV:    {csv_path}  ({csv_mb:.1f} MB)" *)
| line_done (total_files : Z)          (* "Done. Generated {total_files} binary file(s)." *)
| line_of (m : message).

(** The state of a run of the script: the file store and its history as in
    [world], and everything printed so far in the order of printing. *)
Record session : Type := Session {
  s_files : gmap string bytes;
  s_dirs : gset string;
  terminal : list line;
  s_log : list (gmap string bytes)
}.

(** How a run ends: normally, through [sys.exit], or with an exception that
    nothing catches. *)
Inductive outcome (A : Type) : Type :=
| Return (a : A)
| SystemExit (code : Z)
| Uncaught (x : exn).
Arguments Return {A} a.
Arguments SystemExit {A} code.
Arguments Uncaught {A} x.

Definition CLI (A : Type) : Type := session -> outcome A * session.

Definition cli_ret {A} (a : A) : CLI A := fun s => (Return a, s).
Definition cli_bind {A B} (m : CLI A) (k : A -> CLI B) : CLI B :=
  fun s => match m s with
           | (Return a, s') => k a s'
           | (SystemExit code, s') => (SystemExit code, s')
           | (Uncaught x, s') => (Uncaught x, s')
           end.

Declare Scope cli_scope.
Delimit Scope cli_scope with cli.
Notation "x <- m ;; k" := (cli_bind m (fun x => k))
  (at level 100, m at next level, right associativity) : cli_scope.
Notation "m ;;; k" := (cli_bind m (fun _ => k))
  (at level 100, right associativity) : cli_scope.

Definition echo (l : line) : CLI unit :=
  fun s => (Return tt, Session (s_files s) (s_dirs s) (terminal s ++ [l]) (s_log s)).

Definition sys_exit {A} (code : Z) : CLI A := fun s => (SystemExit code, s).

(** A call of one of the functions above from the script: it works on the
    file store of the session, its lines go to the terminal after those
    already there, and its exception, if any, is not caught. *)
Definition call {A} (m : SE world A) : CLI A :=
  fun s =>
    let '(r, w') := m (World (s_files s) (s_dirs s) [] (s_log s)) in
    (match r with Ok a => Return a | Raise x => Uncaught x end,
     Session (files w') (dirs w') (terminal s ++ map line_of (stdout w')) (fs_log w')).

(** A [for] loop whose body updates the local variables [acc]. *)
Fixpoint for_each {A B} (l : list A) (body : B -> A -> CLI B) (acc : B) : CLI B :=
  match l with
  | [] => cli_ret acc
  | a :: l' => (acc' <- body acc a ;; for_each l' body acc')%cli
  end.

(** A [dict] in insertion order.  [d[k] = v] keeps the place of a key that
    is there and appends a new one; [d.update(m)] does so for the items of
    [m] in their order. *)
Fixpoint dict_set {V} (k : string) (v : V) (d : list (string * V)) : list (string * V) :=
  match d with
  | [] => [(k, v)]
  | (k', v') :: d' =>
      if String.eqb k' k then (k', v) :: d' else (k', v') :: dict_set k v d'
  end.

Definition dict_update {V} (d m : list (string * V)) : list (string * V) :=
  fold_left (fun acc kv => dict_set (fst kv) (snd kv) acc) m d.

(** [write_csv]; the text that [df.to_csv] produces is left to the caller. *)
Definition write_csv (to_csv : DataFrame -> bytes) (df : DataFrame) (path : string)
  : SE world unit :=
  (os_makedirs (os_path_dirname path) ;;;
   with_open_wb path (f_write (to_csv df)))%py.

Definition RESOURCES_DIR (script_dir : string) : string :=
  os_path_join (os_path_join (os_path_join script_dir "Assets") "Resources") "SolarData".

Definition csv_path (script_dir city_name : string) (year : Z) : string :=
  os_path_join (os_path_join (RESOURCES_DIR script_dir) city_name)
               ("sun_pos_" +:+ pretty year +:+ ".csv").

(** The arguments as [parse_args] returns them. *)
Record Namespace : Type := Args {
  args_cities : list string;
  args_years : list Z;
  args_csv : bool
}.

Section CommandLine.
Variable lower : string -> string.                  (* [str.lower] *)
Variable Cities : list (string * city).             (* the table [Cities] *)
Variable solar_position : Z -> float -> float -> float -> result (float * float).
Variable to_csv : DataFrame -> bytes.
Variable script_dir : string.                       (* [SCRIPT_DIR] *)

Definition resolve_cities (requested : list string) : CLI (list (string * city)) :=
  if existsb (String.eqb "all") (map lower requested) then cli_ret Cities
  else
    for_each requested
      (fun selected name =>
         let matched :=
           List.filter (fun kv => String.eqb (lower (fst kv)) (lower name)) Cities in
         match matched with
         | [] => (echo (line_unknown_city name (map fst Cities)) ;;; sys_exit 1)%cli
         | _ :: _ => cli_ret (dict_update selected matched)
         end)
      [].

Definition main (args : Namespace) : CLI unit :=
  (cities <- resolve_cities (args_cities args) ;;
   let years := args_years args in
   echo (line_cities (map fst cities)) ;;;
   echo (line_years years) ;;;
   echo (line_output_binary (STREAMING_DIR script_dir)) ;;;
   (if args_csv args then echo (line_output_csv (RESOURCES_DIR script_dir))
    else cli_ret tt) ;;;
   echo line_blank ;;;
   total_files <-
     for_each cities
       (fun total_files '(city_name, info) =>
          for_each years
            (fun total_files year =>
               echo (line_job city_name year) ;;;
               df <- call (compute_solar_positions solar_position
                             (latitude info) (longitude info) (altitude info)
                             (timezone info) year) ;;
               let p := bin_path script_dir city_name year in
               n <- call (write_binary df p year) ;;
               size <- call (fun w => (Ok (os_path_getsize p w), w)) ;;
               echo (line_of (msg_binary n p size)) ;;;
               (if args_csv args then
                  let c := csv_path script_dir city_name year in
                  call (write_csv to_csv df c) ;;;
                  csv_size <- call (fun w => (Ok (os_path_getsize c w), w)) ;;
                  echo (line_csv c csv_size)
                else cli_ret tt) ;;;
               cli_ret (total_files + 1))
            total_files)
       0 ;;
   echo (line_done total_files))%cli.

End CommandLine.

(** [str.lower] on strings of ASCII characters, and the table of the
    script. *)
Definition ascii_lower (c : ascii) : ascii :=
  let n := N_of_ascii c in
  if ((65 <=? n) && (n <=? 90))%N then ascii_of_N (n + 32) else c.

Fixpoint lower_ascii (s : string) : string :=
  match s with
  | EmptyString => EmptyString
  | String c s' => String (ascii_lower c) (lower_ascii s')
  end.

Definition script_Cities : list (string * city) := [ ("Manhattan"%string, Manhattan) ].

Definition empty_session : session := Session ∅ ∅ [] [].

(** A requested name is known when it equals a key of the table up to
    letter case; a job can be done when its year is supported, the
    boundaries of the year resolve and the position function returns at every
    instant between them; a session grows when no file disappears. *)
Definition known (lower : string -> string) (Cities : list (string * city))
    (name : string) : Prop :=
  exists kv, In kv Cities /\ lower (fst kv) = lower name.

Definition job_ready (sp : Z -> float -> float -> float -> result (float * float))
    (info : city) (year : Z) : Prop :=
  supported_year year /\
  exists s e,
    Timestamp (year_start year) (timezone info) = Ok s /\
    Timestamp (year_end year) (timezone info) = Ok e /\
    forall t, s <= t <= e ->
      is_Ok (sp t (latitude info) (longitude info) (altitude info)) = true.

Definition grows (s s' : session) : Prop :=
  forall p, is_Some (s_files s !! p) -> is_Some (s_files s' !! p).


(** The states of the file store that a successful call of the writer goes
    through: the file opened and empty, the header alone if the payload does
    not fit into the buffer beside it, the complete file. *)
Definition write_states (path : string) (year : Z) (df : DataFrame)
    (fs : gmap string bytes) : list (gmap string bytes) :=
  [<[path := []]> fs]
  ++ (if Z.of_nat (length (payload_bytes df)) <=? DEFAULT_BUFFER_SIZE - 16 then []
      else [<[path := header_bytes year]> fs])
  ++ [<[path := header_bytes year ++ payload_bytes df]> fs].

(** [os.path.basename] (posixpath): what follows the last slash.  The last
    component of a path can be the name of a file when it is not empty and
    not [.] or [..], which name directories. *)
Fixpoint take_while {A} (p : A -> bool) (l : list A) : list A :=
  match l with
  | [] => []
  | a :: l' => if p a then a :: take_while p l' else []
  end.

Definition os_path_basename (p : string) : string :=
  string_of_list_ascii
    (rev (take_while (fun c => negb (is_slash c)) (rev (list_ascii_of_string p)))).

Definition names_file (path : string) : Prop :=
  os_path_basename path <> ""%string /\ os_path_basename path <> "."%string /\
  os_path_basename path <> ".."%string.

(* ===================================================================== *)
(** * Properties *)
(* ===================================================================== *)

(** ** Little-endian bytes *)

Lemma to_bytes_le_length n z : length (to_bytes_le n z) = n.
Proof. revert z; induction n as [|n IH]; intros z; simpl; [reflexivity|]. now rewrite IH. Qed.

Lemma to_bytes_le_is_byte n z : Forall is_byte (to_bytes_le n z).
Proof.
  revert z; induction n as [|n IH]; intros z; simpl; constructor; [|apply IH].
  unfold is_byte. apply Z.mod_pos_bound. lia.
Qed.

Lemma from_to_bytes_le n z :
  from_bytes_le (to_bytes_le n z) = z mod 256 ^ Z.of_nat n.
Proof.
  revert z; induction n as [|n IH]; intros z.
  - simpl. now rewrite Z.mod_1_r.
  - cbn [to_bytes_le from_bytes_le]. rewrite IH.
    rewrite Nat2Z.inj_succ, Z.pow_succ_r by lia.
    assert (Hp : 0 < 256 ^ Z.of_nat n) by (apply Z.pow_pos_nonneg; lia).
    rewrite Z.rem_mul_r by lia. reflexivity.
Qed.

Lemma to_from_bytes_le bs :
  Forall is_byte bs -> to_bytes_le (length bs) (from_bytes_le bs) = bs.
Proof.
  induction 1 as [|b bs Hb _ IH]; [reflexivity|].
  cbn [length to_bytes_le from_bytes_le]. unfold is_byte in Hb.
  set (X := from_bytes_le bs) in *.
  assert (Hm : (b + 256 * X) mod 256 = b) by (Z.div_mod_to_equations; lia).
  assert (Hd : (b + 256 * X) / 256 = X) by (Z.div_mod_to_equations; lia).
  now rewrite Hm, Hd, IH.
Qed.

Lemma int_from_to_bytes_le_2 x :
  -32768 <= x <= 32767 -> int_from_bytes_le (to_bytes_le 2 x) = x.
Proof.
  intros Hx. unfold int_from_bytes_le. rewrite to_bytes_le_length, from_to_bytes_le.
  change (256 ^ Z.of_nat 2) with 65536.
  destruct (Z.ltb_spec (2 * (x mod 65536)) 65536);
    Z.div_mod_to_equations; lia.
Qed.

Lemma int_from_to_bytes_le_4 x :
  -2147483648 <= x <= 2147483647 -> int_from_bytes_le (to_bytes_le 4 x) = x.
Proof.
  intros Hx. unfold int_from_bytes_le. rewrite to_bytes_le_length, from_to_bytes_le.
  change (256 ^ Z.of_nat 4) with 4294967296.
  destruct (Z.ltb_spec (2 * (x mod 4294967296)) 4294967296);
    Z.div_mod_to_equations; lia.
Qed.

(** ** float32 bit patterns *)

Lemma bits_of_binary32_range x : 0 <= bits_of_binary32 x < 2 ^ 32.
Proof.
  assert (Hs : forall s, sign_bit s = 0 \/ sign_bit s = 2 ^ 31)
    by (intros []; [right|left]; reflexivity).
  destruct x as [s|s| |s m e]; cbn [bits_of_binary32];
    try (destruct (Hs s) as [-> | ->]; lia); [lia|].
  destruct (Z.ltb_spec (Z.pos m) (2 ^ 23)).
  - destruct (Hs s) as [-> | ->]; lia.
  - pose proof (Z.mod_pos_bound (e + 150) 256 ltac:(lia)).
    pose proof (Z.mod_pos_bound (Z.pos m - 2 ^ 23) (2 ^ 23) ltac:(lia)).
    destruct (Hs s) as [-> | ->]; nia.
Qed.

Lemma astype_float32_range x : 0 <= astype_float32 x < 2 ^ 32.
Proof. apply bits_of_binary32_range. Qed.

Lemma from_to_bytes_le_float32 x :
  from_bytes_le (to_bytes_le 4 (astype_float32 x)) = astype_float32 x.
Proof.
  rewrite from_to_bytes_le. apply Z.mod_small.
  change (256 ^ Z.of_nat 4) with (2 ^ 32). apply astype_float32_range.
Qed.

(** ** Lists *)

Lemma lookup_map {A B} (f : A -> B) (l : list A) (i : nat) :
  map f l !! i = option_map f (l !! i).
Proof. revert i; induction l as [|a l IH]; intros [|i]; simpl; auto. Qed.

Lemma slice_app_r (l k : bytes) (i j : nat) :
  slice (length l + i) (length l + j) (l ++ k) = slice i j k.
Proof.
  unfold slice. rewrite drop_app_add. f_equal. lia.
Qed.

Lemma slice_app_l (l k : bytes) (i j : nat) :
  (j <= length l)%nat -> slice i j (l ++ k) = slice i j l.
Proof.
  intros Hj. unfold slice.
  destruct (Nat.le_gt_cases i (length l)) as [Hi|Hi].
  - rewrite drop_app_le by lia. apply take_app_le. rewrite length_drop. lia.
  - replace (j - i)%nat with 0%nat by lia. reflexivity.
Qed.

(** ** The payload *)

Lemma payload_bytes_cons r df :
  payload_bytes (r :: df) =
  to_bytes_le 4 (astype_float32 (azimuth r))
    ++ to_bytes_le 4 (astype_float32 (apparent_elevation r)) ++ payload_bytes df.
Proof. reflexivity. Qed.

Lemma payload_bytes_length df : length (payload_bytes df) = (length df * 8)%nat.
Proof.
  induction df as [|r df IH]; [reflexivity|].
  rewrite payload_bytes_cons, !length_app, !to_bytes_le_length, IH. simpl. lia.
Qed.

Lemma payload_bytes_is_byte df : Forall is_byte (payload_bytes df).
Proof.
  induction df as [|r df IH]; [constructor|].
  rewrite payload_bytes_cons. rewrite !Forall_app.
  auto using to_bytes_le_is_byte.
Qed.

Lemma payload_bytes_drop df i :
  drop (i * 8) (payload_bytes df) = payload_bytes (drop i df).
Proof.
  revert df; induction i as [|i IH]; intros df; [reflexivity|].
  destruct df as [|r df]; [reflexivity|].
  rewrite payload_bytes_cons, app_assoc.
  change (S i * 8)%nat with (8 + i * 8)%nat.
  rewrite (drop_app_add' _ _ 8) by (rewrite length_app, !to_bytes_le_length; reflexivity).
  apply IH.
Qed.

Lemma payload_bytes_record df i r :
  df !! i = Some r ->
  slice (i * 8) (i * 8 + 8) (payload_bytes df) =
  to_bytes_le 4 (astype_float32 (azimuth r))
    ++ to_bytes_le 4 (astype_float32 (apparent_elevation r)).
Proof.
  intros Hr. unfold slice. rewrite payload_bytes_drop.
  replace (i * 8 + 8 - i * 8)%nat with 8%nat by lia.
  rewrite (drop_S _ _ _ Hr), payload_bytes_cons, app_assoc.
  apply take_app_length'. rewrite length_app, !to_bytes_le_length. reflexivity.
Qed.

Lemma records_payload_bytes df : records (payload_bytes df) = map sample_bits df.
Proof.
  induction df as [|r df IH]; [reflexivity|].
  rewrite payload_bytes_cons. cbn [to_bytes_le app records map]. rewrite IH.
  f_equal. unfold sample_bits. f_equal.
  - apply (from_to_bytes_le_float32 (azimuth r)).
  - apply (from_to_bytes_le_float32 (apparent_elevation r)).
Qed.

Lemma reencode_records df :
  tobytes (interleave (map fst (map sample_bits df)) (map snd (map sample_bits df)))
  = payload_bytes df.
Proof.
  unfold payload_bytes. rewrite !map_map. reflexivity.
Qed.

(** ** The header *)

Lemma header_bytes_length year : length (header_bytes year) = 16%nat.
Proof. reflexivity. Qed.

Lemma header_bytes_is_byte year : Forall is_byte (header_bytes year).
Proof.
  unfold header_bytes. rewrite !Forall_app. repeat split; try apply to_bytes_le_is_byte.
  unfold MAGIC; cbn. repeat constructor; unfold is_byte; lia.
Qed.

Lemma days_in_year_cases year : days_in_year year = 365 \/ days_in_year year = 366.
Proof. unfold days_in_year. destruct (isleap year); auto. Qed.

Lemma header_fields year :
  -32768 <= year <= 32767 ->
  slice 0 4 (header_bytes year) = bytes_of_string "SLRD" /\
  slice 4 6 (header_bytes year) = to_bytes_le 2 1 /\
  slice 6 8 (header_bytes year) = to_bytes_le 2 year /\
  slice 8 12 (header_bytes year) = to_bytes_le 4 (days_in_year year * 1440) /\
  slice 12 16 (header_bytes year) = [0; 0; 0; 0].
Proof. intros _. repeat split. Qed.

(** ** The writer, run *)

Lemma struct_pack_h_ok x : -32768 <= x <= 32767 -> struct_pack_h x = Ok (to_bytes_le 2 x).
Proof.
  intros Hx. unfold struct_pack_h.
  destruct (Z.leb_spec (-32768) x), (Z.leb_spec x 32767); try lia. reflexivity.
Qed.

Lemma struct_pack_h_error x : x < -32768 \/ 32767 < x -> struct_pack_h x = Raise struct_error.
Proof.
  intros Hx. unfold struct_pack_h.
  destruct (Z.leb_spec (-32768) x), (Z.leb_spec x 32767); try lia; reflexivity.
Qed.

Lemma struct_pack_i_minutes year :
  struct_pack_i (days_in_year year * MINUTES_PER_DAY)
  = Ok (to_bytes_le 4 (days_in_year year * MINUTES_PER_DAY)).
Proof. unfold days_in_year. destruct (isleap year); reflexivity. Qed.

Lemma makedirs_ok d w :
  d <> ""%string ->
  os_makedirs d w = (Ok tt, World (files w) ({[ d ]} ∪ dirs w) (stdout w) (fs_log w)).
Proof.
  intros Hd. unfold os_makedirs.
  destruct (String.eqb_spec d ""); [contradiction|reflexivity].
Qed.

Lemma flush_nonempty B raw (buf : bytes) :
  buf <> [] -> flush (FileObject B raw buf) = FileObject B (raw ++ [buf]) [].
Proof. intros H. unfold flush. cbn [buffer]. destruct buf; [contradiction|reflexivity]. Qed.

Lemma payload_written year (payload : bytes) :
  raw_writes (flush (snd (f_write payload (FileObject DEFAULT_BUFFER_SIZE [] (header_bytes year)))))
  = if Z.of_nat (length payload) <=? DEFAULT_BUFFER_SIZE - 16
    then [header_bytes year ++ payload]
    else [header_bytes year; payload].
Proof.
  unfold f_write. cbn [buffer_size buffer raw_writes]. rewrite header_bytes_length.
  change (Z.of_nat 16) with 16.
  destruct (Z.leb_spec (Z.of_nat (length payload)) (DEFAULT_BUFFER_SIZE - 16)) as [Hfit|Hbig].
  - reflexivity.
  - assert (Hne : payload <> []) by (intros ->; simpl in Hbig; unfold DEFAULT_BUFFER_SIZE in Hbig; lia).
    destruct (Z.ltb_spec DEFAULT_BUFFER_SIZE (Z.of_nat (length payload))); cbn [snd].
    + reflexivity.
    + change (flush (FileObject DEFAULT_BUFFER_SIZE [] (header_bytes year)))
        with (FileObject DEFAULT_BUFFER_SIZE [header_bytes year] []).
      cbn [raw_writes]. rewrite (flush_nonempty _ _ _ Hne). reflexivity.
Qed.

Lemma raw_write_one path content w :
  raw_write path [] [content] w = set_file path content w.
Proof. reflexivity. Qed.

(** The world a successful call of the writer leaves behind. *)
Lemma write_binary_ok df path year w :
  -32768 <= year <= 32767 -> os_path_dirname path <> ""%string ->
  write_binary df path year w =
  (Ok (len df),
   World (<[path := header_bytes year ++ payload_bytes df]> (<[path := []]> (files w)))
         ({[ os_path_dirname path ]} ∪ dirs w)
         (if len df =? days_in_year year * MINUTES_PER_DAY then stdout w
          else stdout w ++ [msg_row_mismatch (days_in_year year * MINUTES_PER_DAY) (len df)])
         (fs_log w ++ write_states path year df (files w))).
Proof.
  intros Hy Hd. unfold write_binary, se_bind at 1.
  rewrite (makedirs_ok _ _ Hd).
  change ((if isleap year then 366 else 365) * MINUTES_PER_DAY)
    with (days_in_year year * MINUTES_PER_DAY).
  unfold se_bind at 1, with_open_wb.
  change (tobytes (interleave (map astype_float32 (map azimuth df))
                         (map astype_float32 (map apparent_elevation df))))
    with (payload_bytes df).
  match goal with |- context [let '(r, f) := ?body ?f0 in _] =>
    assert (Hbody : body f0
              = f_write (payload_bytes df) (FileObject DEFAULT_BUFFER_SIZE [] (header_bytes year)))
  end.
  { unfold se_bind, se_lift.
    rewrite (struct_pack_h_ok year Hy), struct_pack_i_minutes.
    change (struct_pack_h VERSION) with (Ok (to_bytes_le 2 VERSION)).
    change (struct_pack_i 0) with (Ok (to_bytes_le 4 0)).
    reflexivity. }
  rewrite Hbody.
  pose proof (payload_written year (payload_bytes df)) as Hraw.
  destruct (f_write (payload_bytes df) (FileObject DEFAULT_BUFFER_SIZE [] (header_bytes year)))
    as [[[]|x] f] eqn:Hf.
  2:{ unfold f_write in Hf. repeat case_match; discriminate. }
  cbn [snd] in Hraw. rewrite Hraw.
  unfold write_states, set_file, print, se_ret, se_bind; cbn [files dirs stdout fs_log].
  destruct (Z.of_nat (length (payload_bytes df)) <=? DEFAULT_BUFFER_SIZE - 16);
    cbn [raw_write app]; unfold set_file; cbn [files dirs stdout fs_log];
    rewrite ?app_nil_l, ?insert_insert_eq, <- ?app_assoc;
    destruct (len df =? days_in_year year * MINUTES_PER_DAY); cbn [negb]; reflexivity.
Qed.

(** The world a call of the writer leaves behind when the year does not fit
    the int16 field: the file holds the six bytes written before, which the
    closing of the file has flushed. *)
Lemma write_binary_struct_error df path year w :
  year < -32768 \/ 32767 < year -> os_path_dirname path <> ""%string ->
  write_binary df path year w =
  (Raise struct_error,
   World (<[path := MAGIC ++ to_bytes_le 2 VERSION]> (<[path := []]> (files w)))
         ({[ os_path_dirname path ]} ∪ dirs w)
         (stdout w)
         (fs_log w ++ [<[path := []]> (files w);
                       <[path := MAGIC ++ to_bytes_le 2 VERSION]> (files w)])).
Proof.
  intros Hy Hd. unfold write_binary, se_bind at 1.
  rewrite (makedirs_ok _ _ Hd).
  unfold se_bind at 1, with_open_wb.
  match goal with |- context [let '(r, f) := ?body ?f0 in _] =>
    assert (Hbody : body f0
              = (Raise struct_error,
                 FileObject DEFAULT_BUFFER_SIZE [] (MAGIC ++ to_bytes_le 2 VERSION)))
  end.
  { unfold se_bind, se_lift. rewrite (struct_pack_h_error year Hy).
    change (struct_pack_h VERSION) with (Ok (to_bytes_le 2 VERSION)). reflexivity. }
  rewrite Hbody.
  change (flush (FileObject DEFAULT_BUFFER_SIZE [] (MAGIC ++ to_bytes_le 2 VERSION)))
    with (FileObject DEFAULT_BUFFER_SIZE [MAGIC ++ to_bytes_le 2 VERSION] []).
  cbn [raw_writes raw_write]. unfold set_file; cbn [files dirs stdout fs_log].
  rewrite ?app_nil_l, ?insert_insert_eq, <- ?app_assoc. reflexivity.
Qed.

Lemma write_binary_no_directory df path year w :
  os_path_dirname path = ""%string ->
  write_binary df path year w = (Raise FileNotFoundError, w).
Proof.
  intros Hd. unfold write_binary, se_bind at 1, os_makedirs. now rewrite Hd.
Qed.

Lemma payload_bytes_at df i r :
  df !! i = Some r ->
  drop (i * 8) (payload_bytes df) =
  to_bytes_le 4 (astype_float32 (azimuth r))
    ++ to_bytes_le 4 (astype_float32 (apparent_elevation r))
    ++ payload_bytes (drop (S i) df).
Proof.
  intros Hr. now rewrite payload_bytes_drop, (drop_S _ _ _ Hr), payload_bytes_cons.
Qed.

Lemma payload_bytes_fields df i r :
  df !! i = Some r ->
  slice (i * 8) (i * 8 + 4) (payload_bytes df)
    = to_bytes_le 4 (astype_float32 (azimuth r)) /\
  slice (i * 8 + 4) (i * 8 + 8) (payload_bytes df)
    = to_bytes_le 4 (astype_float32 (apparent_elevation r)).
Proof.
  intros Hr. pose proof (payload_bytes_at df i r Hr) as Hd. unfold slice. split.
  - replace (i * 8 + 4 - i * 8)%nat with 4%nat by lia. rewrite Hd.
    apply take_app_length'. now rewrite to_bytes_le_length.
  - replace (i * 8 + 8 - (i * 8 + 4))%nat with 4%nat by lia.
    rewrite <- drop_drop, Hd.
    rewrite (drop_app_length' _ _ 4) by now rewrite to_bytes_le_length.
    apply take_app_length'. now rewrite to_bytes_le_length.
Qed.

(** The file a successful call leaves at [path]. *)
Lemma write_binary_file df path year w :
  -32768 <= year <= 32767 -> os_path_dirname path <> ""%string ->
  fst (write_binary df path year w) = Ok (len df) /\
  files (snd (write_binary df path year w)) !! path
    = Some (header_bytes year ++ payload_bytes df).
Proof.
  intros Hy Hd. rewrite (write_binary_ok df path year w Hy Hd). split; [reflexivity|].
  cbn [snd files]. apply lookup_insert_eq.
Qed.

(** ** The claims about the writer *)

(** C1: for every series and every year that fits the int16 field (every
    4-digit year does), and a path with a directory part, the writer leaves a
    file whose first 16 bytes are the header: bytes 0-3 the ASCII magic
    "SLRD", bytes 4-5 the version 1 as little-endian int16, bytes 6-7 the year
    as little-endian int16, bytes 8-11 the count [days_in_year year * 1440] as
    little-endian int32, bytes 12-15 zero; the payload follows at offset 16. *)
Theorem C1_header_layout (df : DataFrame) (path : string) (year : Z) (w : world) :
  -32768 <= year <= 32767 -> os_path_dirname path <> ""%string ->
  exists file,
    fst (write_binary df path year w) = Ok (len df) /\
    files (snd (write_binary df path year w)) !! path = Some file /\
    Forall is_byte file /\
    slice 0 4 file = bytes_of_string "SLRD" /\
    slice 4 6 file = [1; 0] /\
    length (slice 6 8 file) = 2%nat /\
    int_from_bytes_le (slice 6 8 file) = year /\
    length (slice 8 12 file) = 4%nat /\
    int_from_bytes_le (slice 8 12 file) = days_in_year year * 1440 /\
    slice 12 16 file = [0; 0; 0; 0] /\
    drop 16 file = payload_bytes df.
Proof.
  intros Hy Hd. destruct (write_binary_file df path year w Hy Hd) as [Hr Hf].
  exists (header_bytes year ++ payload_bytes df).
  destruct (header_fields year Hy) as (H0 & H4 & H6 & H8 & H12).
  assert (Hlen : length (header_bytes year) = 16%nat) by reflexivity.
  rewrite !slice_app_l by (rewrite Hlen; lia).
  rewrite H0, H4, H6, H8, H12, !to_bytes_le_length.
  rewrite int_from_to_bytes_le_2 by assumption.
  rewrite int_from_to_bytes_le_4
    by (change MINUTES_PER_DAY with 1440 in *; destruct (days_in_year_cases year) as [-> | ->]; lia).
  repeat split; try assumption; try reflexivity.
  apply Forall_app. split; [apply header_bytes_is_byte|apply payload_bytes_is_byte].
Qed.

Lemma C1_header_layout_witness :
  -32768 <= 2024 <= 32767 /\ os_path_dirname "out/x.bin" <> ""%string /\
  exists file,
    files (snd (write_binary two_rows "out/x.bin" 2024 empty_world)) !! "out/x.bin"%string
      = Some file /\
    int_from_bytes_le (slice 6 8 file) = 2024 /\
    int_from_bytes_le (slice 8 12 file) = 527040.
Proof.
  assert (Hy : -32768 <= 2024 <= 32767) by lia.
  assert (Hd : os_path_dirname "out/x.bin" <> ""%string) by (vm_compute; discriminate).
  split; [exact Hy|]. split; [exact Hd|].
  destruct (C1_header_layout two_rows "out/x.bin" 2024 empty_world Hy Hd)
    as (file & _ & Hf & _ & _ & _ & _ & Hyear & _ & Hcount & _).
  exists file. repeat split; assumption.
Defined.

(** C2: after the 16-byte header the file holds one 8-byte record per row,
    in the order of the rows: record [i] starts at offset [16 + i * 8], its
    first four bytes are the little-endian float32 of the azimuth, its last
    four the little-endian float32 of the elevation; nothing lies between
    the records, and the file is [16 + count * 8] bytes long. *)
Theorem C2_payload_layout (df : DataFrame) (path : string) (year : Z) (w : world) :
  -32768 <= year <= 32767 -> os_path_dirname path <> ""%string ->
  exists file,
    files (snd (write_binary df path year w)) !! path = Some file /\
    length file = (16 + length df * 8)%nat /\
    forall (i : nat) (r : row), df !! i = Some r ->
      slice (16 + i * 8) (16 + i * 8 + 4) file
        = to_bytes_le 4 (astype_float32 (azimuth r)) /\
      slice (16 + i * 8 + 4) (16 + i * 8 + 8) file
        = to_bytes_le 4 (astype_float32 (apparent_elevation r)) /\
      from_bytes_le (slice (16 + i * 8) (16 + i * 8 + 4) file)
        = astype_float32 (azimuth r) /\
      from_bytes_le (slice (16 + i * 8 + 4) (16 + i * 8 + 8) file)
        = astype_float32 (apparent_elevation r).
Proof.
  intros Hy Hd. destruct (write_binary_file df path year w Hy Hd) as [_ Hf].
  exists (header_bytes year ++ payload_bytes df). split; [exact Hf|]. split.
  - now rewrite length_app, payload_bytes_length.
  - intros i r Hr. destruct (payload_bytes_fields df i r Hr) as [Ha He].
    assert (Hlen : length (header_bytes year) = 16%nat) by reflexivity.
    rewrite <- !Hlen, <- !Nat.add_assoc, !slice_app_r, Ha, He.
    rewrite !from_to_bytes_le_float32. auto.
Qed.

Lemma C2_payload_layout_witness :
  -32768 <= 2024 <= 32767 /\ os_path_dirname "out/x.bin" <> ""%string /\
  exists file,
    files (snd (write_binary two_rows "out/x.bin" 2024 empty_world)) !! "out/x.bin"%string
      = Some file /\
    length file = 32%nat /\
    slice 24 28 file = [205; 204; 204; 61] /\
    slice 28 32 file = [0; 0; 180; 66].
Proof.
  assert (Hy : -32768 <= 2024 <= 32767) by lia.
  assert (Hd : os_path_dirname "out/x.bin" <> ""%string) by (vm_compute; discriminate).
  split; [exact Hy|]. split; [exact Hd|].
  destruct (C2_payload_layout two_rows "out/x.bin" 2024 empty_world Hy Hd)
    as (file & Hf & Hlen & Hrec).
  destruct (Hrec 1%nat (Row 1 0.1%float 90%float) eq_refl) as (Ha & He & _).
  exists file. repeat split; assumption.
Defined.

(** C5: when the number of rows differs from [days_in_year year * 1440] the
    writer reports the mismatch on the standard output and still returns
    normally; the file holds the rows it was given, all of them, and the
    count field of the header holds the expected number, not the number of
    records written. *)
Theorem C5_size_mismatch (df : DataFrame) (path : string) (year : Z) (w : world) :
  -32768 <= year <= 32767 -> os_path_dirname path <> ""%string ->
  len df <> days_in_year year * 1440 ->
  fst (write_binary df path year w) = Ok (len df) /\
  stdout (snd (write_binary df path year w))
    = stdout w ++ [msg_row_mismatch (days_in_year year * 1440) (len df)] /\
  exists file,
    files (snd (write_binary df path year w)) !! path = Some file /\
    drop 16 file = payload_bytes df /\
    records (drop 16 file) = map sample_bits df /\
    length file = (16 + length df * 8)%nat /\
    int_from_bytes_le (slice 8 12 file) = days_in_year year * 1440.
Proof.
  intros Hy Hd Hne. rewrite (write_binary_ok df path year w Hy Hd).
  cbn [fst snd stdout files]. change MINUTES_PER_DAY with 1440.
  destruct (Z.eqb_spec (len df) (days_in_year year * 1440)) as [Heq|_]; [contradiction|].
  split; [reflexivity|]. split; [reflexivity|].
  exists (header_bytes year ++ payload_bytes df).
  split; [apply lookup_insert_eq|].
  assert (Hdrop : drop 16 (header_bytes year ++ payload_bytes df) = payload_bytes df)
    by reflexivity.
  rewrite Hdrop. split; [reflexivity|]. split; [apply records_payload_bytes|].
  split; [now rewrite length_app, payload_bytes_length|].
  rewrite slice_app_l by (simpl; lia).
  destruct (header_fields year Hy) as (_ & _ & _ & -> & _).
  apply int_from_to_bytes_le_4. destruct (days_in_year_cases year) as [-> | ->]; lia.
Qed.

Lemma C5_size_mismatch_witness :
  -32768 <= 2024 <= 32767 /\ os_path_dirname "out/x.bin" <> ""%string /\
  len two_rows <> days_in_year 2024 * 1440 /\
  fst (write_binary two_rows "out/x.bin" 2024 empty_world) = Ok 2 /\
  stdout (snd (write_binary two_rows "out/x.bin" 2024 empty_world))
    = [msg_row_mismatch 527040 2].
Proof.
  assert (Hy : -32768 <= 2024 <= 32767) by lia.
  assert (Hd : os_path_dirname "out/x.bin" <> ""%string) by (vm_compute; discriminate).
  assert (Hn : len two_rows <> days_in_year 2024 * 1440) by (vm_compute; discriminate).
  split; [exact Hy|]. split; [exact Hd|]. split; [exact Hn|].
  destruct (C5_size_mismatch two_rows "out/x.bin" 2024 empty_world Hy Hd Hn)
    as (Hr & Hout & _).
  split; [exact Hr|exact Hout].
Defined.

(** C10: the year field is packed as a signed 16-bit integer.  For every
    4-digit year the writer returns normally and the field reads back as the
    year; for a year outside [-32768, 32767] the writer raises the packing
    error of [struct], and what it leaves at the path is the six bytes it
    wrote before, magic and version: no year field, wrapped or not. *)
Theorem C10_year_int16 (df : DataFrame) (path : string) (year : Z) (w : world) :
  os_path_dirname path <> ""%string ->
  (1000 <= year <= 9999 ->
     fst (write_binary df path year w) = Ok (len df) /\
     exists file,
       files (snd (write_binary df path year w)) !! path = Some file /\
       int_from_bytes_le (slice 6 8 file) = year) /\
  (year < -32768 \/ 32767 < year ->
     fst (write_binary df path year w) = Raise struct_error /\
     files (snd (write_binary df path year w)) !! path
       = Some (bytes_of_string "SLRD" ++ [1; 0])).
Proof.
  intros Hd. split.
  - intros Hy. assert (Hy' : -32768 <= year <= 32767) by lia.
    destruct (write_binary_file df path year w Hy' Hd) as [Hr Hf].
    split; [exact Hr|]. exists (header_bytes year ++ payload_bytes df).
    split; [exact Hf|]. rewrite slice_app_l by (simpl; lia).
    destruct (header_fields year Hy') as (_ & _ & -> & _).
    now apply int_from_to_bytes_le_2.
  - intros Hy. rewrite (write_binary_struct_error df path year w Hy Hd).
    split; [reflexivity|]. cbn [snd files]. apply lookup_insert_eq.
Qed.

Lemma C10_year_int16_witness :
  os_path_dirname "out/x.bin" <> ""%string /\
  1000 <= 2024 <= 9999 /\ (40000 < -32768 \/ 32767 < 40000) /\
  fst (write_binary two_rows "out/x.bin" 2024 empty_world) = Ok 2 /\
  fst (write_binary two_rows "out/x.bin" 40000 empty_world) = Raise struct_error /\
  files (snd (write_binary two_rows "out/x.bin" 40000 empty_world)) !! "out/x.bin"%string
    = Some [83; 76; 82; 68; 1; 0].
Proof.
  assert (Hd : os_path_dirname "out/x.bin" <> ""%string) by (vm_compute; discriminate).
  assert (Hy : 1000 <= 2024 <= 9999) by lia.
  assert (Hbig : 40000 < -32768 \/ 32767 < 40000) by (right; lia).
  split; [exact Hd|]. split; [exact Hy|]. split; [exact Hbig|].
  destruct (C10_year_int16 two_rows "out/x.bin" 2024 empty_world Hd) as [Hin _].
  destruct (C10_year_int16 two_rows "out/x.bin" 40000 empty_world Hd) as [_ Hout].
  destruct (Hin Hy) as [Hr _]. destruct (Hout Hbig) as [He Hf].
  split; [exact Hr|]. split; [exact He|exact Hf].
Defined.

(** ** Reading back *)

Lemma read_sample_written year df i r :
  df !! i = Some r ->
  read_sample (header_bytes year ++ payload_bytes df) i = Some (sample_bits r).
Proof.
  intros Hr. unfold read_sample.
  change HEADER_SIZE with (length (header_bytes year)).
  rewrite <- Nat.add_assoc, slice_app_r, (payload_bytes_record df i r Hr).
  cbn [to_bytes_le app]. unfold sample_bits. f_equal. f_equal.
  - apply (from_to_bytes_le_float32 (azimuth r)).
  - apply (from_to_bytes_le_float32 (apparent_elevation r)).
Qed.

Lemma decode_written year df :
  -32768 <= year <= 32767 ->
  len df = days_in_year year * 1440 ->
  decode (header_bytes year ++ payload_bytes df)
  = inr (Header 1 year (days_in_year year * 1440) 0, map sample_bits df).
Proof.
  intros Hy Hn. unfold decode.
  assert (Hdrop : drop HEADER_SIZE (header_bytes year ++ payload_bytes df) = payload_bytes df)
    by reflexivity.
  assert (Hlen : (length (header_bytes year ++ payload_bytes df) <? HEADER_SIZE)%nat = false).
  { apply Nat.ltb_ge. rewrite length_app, header_bytes_length. unfold HEADER_SIZE. lia. }
  rewrite Hdrop, Hlen, payload_bytes_length.
  rewrite !slice_app_l by (simpl; lia).
  destruct (header_fields year Hy) as (H0 & H4 & H6 & H8 & H12).
  rewrite H0, H4, H6, H8, H12.
  rewrite (int_from_to_bytes_le_2 year Hy).
  rewrite int_from_to_bytes_le_4 by (destruct (days_in_year_cases year) as [-> | ->]; lia).
  change (bool_decide (bytes_of_string "SLRD" = MAGIC)) with true.
  change (int_from_bytes_le (to_bytes_le 2 1)) with 1.
  change (int_from_bytes_le [0; 0; 0; 0]) with 0.
  cbn [negb h_version h_totalSampleCount]. change (1 =? VERSION) with true. cbn [negb].
  unfold len in Hn.
  replace (Z.of_nat (length df * 8)) with (days_in_year year * 1440 * 8) by lia.
  rewrite Z.mod_mul by lia. rewrite !Z.eqb_refl. cbn [negb].
  now rewrite records_payload_bytes.
Qed.

(** C9: what the reader finds in the written file are the float32 values of
    the rows, bit for bit.  Record [i], read at offset [16 + i * 8], is the
    pair of float32 values of row [i]; when the series has the length the
    header announces, decoding the whole file returns the header fields and
    exactly these pairs; and packing the decoded pairs again gives back the
    payload byte for byte. *)
Theorem C9_round_trip (df : DataFrame) (path : string) (year : Z) (w : world) :
  -32768 <= year <= 32767 -> os_path_dirname path <> ""%string ->
  exists file,
    files (snd (write_binary df path year w)) !! path = Some file /\
    (forall (i : nat) (r : row), df !! i = Some r ->
       read_sample file i
       = Some (astype_float32 (azimuth r), astype_float32 (apparent_elevation r))) /\
    records (drop HEADER_SIZE file) = map sample_bits df /\
    (len df = days_in_year year * 1440 ->
       decode file
       = inr (Header 1 year (days_in_year year * 1440) 0, map sample_bits df)) /\
    tobytes (interleave (map fst (records (drop HEADER_SIZE file)))
                        (map snd (records (drop HEADER_SIZE file))))
      = drop HEADER_SIZE file.
Proof.
  intros Hy Hd. destruct (write_binary_file df path year w Hy Hd) as [_ Hf].
  exists (header_bytes year ++ payload_bytes df). split; [exact Hf|].
  assert (Hdrop : drop HEADER_SIZE (header_bytes year ++ payload_bytes df) = payload_bytes df)
    by reflexivity.
  rewrite Hdrop, records_payload_bytes. repeat split.
  - intros i r Hr. apply (read_sample_written year df i r Hr).
  - now apply decode_written.
  - apply reencode_records.
Qed.

Lemma C9_round_trip_witness :
  -32768 <= 2024 <= 32767 /\ os_path_dirname "out/x.bin" <> ""%string /\
  exists file,
    files (snd (write_binary two_rows "out/x.bin" 2024 empty_world)) !! "out/x.bin"%string
      = Some file /\
    read_sample file 0 = Some (0x43348000, 0xC0500000) /\
    read_sample file 1 = Some (0x3DCCCCCD, 0x42B40000).
Proof.
  assert (Hy : -32768 <= 2024 <= 32767) by lia.
  assert (Hd : os_path_dirname "out/x.bin" <> ""%string) by (vm_compute; discriminate).
  split; [exact Hy|]. split; [exact Hd|].
  destruct (C9_round_trip two_rows "out/x.bin" 2024 empty_world Hy Hd)
    as (file & Hf & Hrec & _).
  exists file. split; [exact Hf|]. split.
  - exact (Hrec 0%nat _ eq_refl).
  - exact (Hrec 1%nat _ eq_refl).
Defined.

(** ** Calendar *)

Lemma year_end_minus_start year :
  year_end year - year_start year = days_in_year year * 1440 - 1.
Proof.
  unfold year_end, year_start, minutes_of, ymd2ord, days_before_month, days_in_year,
    MINUTES_PER_DAY.
  destruct (isleap year); lia.
Qed.

Lemma sample_index_eq year w : sample_index year w = w - year_start year.
Proof.
  unfold sample_index, dayOfYear, minuteOfDay, year_start, minutes_of, ymd2ord,
    days_before_month, MINUTES_PER_DAY.
  Z.div_mod_to_equations. lia.
Qed.

Lemma days_in_year_2024_2025 :
  days_in_year 2024 * 1440 = 527040 /\ days_in_year 2025 * 1440 = 525600.
Proof. split; reflexivity. Qed.

(** ** Time zones *)

Lemma Timestamp_wall_clock w tz u : Timestamp w tz = Ok u -> wall_clock tz u = w.
Proof.
  unfold Timestamp. intros H.
  assert (Hin : u ∈ instants_of_wall tz w).
  { destruct (instants_of_wall tz w) as [|u' [|u'' l]]; try discriminate.
    injection H as ->. apply list_elem_of_singleton. reflexivity. }
  unfold instants_of_wall in Hin. apply list_elem_of_filter in Hin. tauto.
Qed.

Lemma date_range_length s e : Z.of_nat (length (date_range s e)) = Z.max 0 (e - s + 1).
Proof. unfold date_range. rewrite length_seqZ. lia. Qed.

Lemma date_range_lookup s e i t :
  date_range s e !! i = Some t <-> t = s + Z.of_nat i /\ s + Z.of_nat i <= e.
Proof. unfold date_range. rewrite lookup_seqZ. split; intros []; split; lia. Qed.

Lemma date_range_elem s e t : t ∈ date_range s e <-> s <= t <= e.
Proof. unfold date_range. rewrite elem_of_seqZ. lia. Qed.

(** ** The vectorised call *)

Lemma mapM_Ok_inv {A B} (f : A -> result B) l bs :
  mapM f l = Ok bs ->
  length bs = length l /\
  forall i a, l !! i = Some a -> exists b, f a = Ok b /\ bs !! i = Some b.
Proof.
  revert bs; induction l as [|a l IH]; intros bs H; simpl in H.
  - injection H as <-. split; [reflexivity|]. intros i a0 Hi. destruct i; discriminate.
  - destruct (f a) as [b|e] eqn:Hfa; [|discriminate].
    destruct (mapM f l) as [bs'|e]; [|discriminate].
    injection H as <-. destruct (IH bs' eq_refl) as [Hlen Hall].
    split; [simpl; now rewrite Hlen|].
    intros [|i] a0 Hi; simpl in *.
    + injection Hi as <-. eauto.
    + apply Hall, Hi.
Qed.

Lemma mapM_total {A B} (f : A -> result B) l :
  (forall a, a ∈ l -> is_Ok (f a) = true) -> exists bs, mapM f l = Ok bs.
Proof.
  induction l as [|a l IH]; intros H; simpl; [eauto|].
  pose proof (H a ltac:(left)) as Ha. destruct (f a) as [b|e]; [|discriminate].
  destruct IH as [bs ->]; [intros x Hx; apply H; now right|]. eauto.
Qed.

Lemma mapM_first_error {A B} (f : A -> result B) l1 a l2 e :
  (forall x, x ∈ l1 -> is_Ok (f x) = true) -> f a = Raise e ->
  mapM f (l1 ++ a :: l2) = Raise e.
Proof.
  induction l1 as [|x l1 IH]; intros H Ha; simpl.
  - now rewrite Ha.
  - pose proof (H x ltac:(left)) as Hx. destruct (f x) as [b|e']; [|discriminate].
    rewrite IH; [reflexivity| |exact Ha]. intros y Hy. apply H. now right.
Qed.

Lemma mapM_Raise_inv {A B} (f : A -> result B) l e :
  mapM f l = Raise e -> exists a, a ∈ l /\ f a = Raise e.
Proof.
  induction l as [|a l IH]; intros H; simpl in H; [discriminate|].
  destruct (f a) as [b|e'] eqn:Hfa.
  - destruct (mapM f l) as [bs|e'']; [discriminate|].
    injection H as ->. destruct (IH eq_refl) as (x & Hx & Hfx).
    exists x. split; [now right|exact Hfx].
  - injection H as ->. exists a. split; [left|exact Hfa].
Qed.

Section GeneratorFacts.

Variable sp : Z -> float -> float -> float -> result (float * float).

Lemma get_solarposition_Ok_inv times lat lon alt df :
  get_solarposition sp times lat lon alt = Ok df ->
  map time df = times /\
  forall i r, df !! i = Some r -> sp (time r) lat lon alt = Ok (azimuth r, apparent_elevation r).
Proof.
  unfold get_solarposition. intros H.
  destruct (mapM_Ok_inv _ _ _ H) as [Hlen Hall]. split.
  - apply list_eq. intros i. rewrite lookup_map.
    destruct (times !! i) as [t|] eqn:Ht.
    + destruct (Hall i t Ht) as (b & Hb & ->).
      destruct (sp t lat lon alt) as [[az el]|]; [|discriminate].
      injection Hb as <-. reflexivity.
    + apply lookup_ge_None in Ht. rewrite (proj2 (lookup_ge_None df i)); [reflexivity|lia].
  - intros i r Hr.
    destruct (times !! i) as [t|] eqn:Ht.
    + destruct (Hall i t Ht) as (b & Hb & Hi). rewrite Hr in Hi. injection Hi as <-.
      destruct (sp t lat lon alt) as [[az el]|] eqn:Hsp; [|discriminate].
      injection Hb as <-. exact Hsp.
    + apply lookup_ge_None in Ht. apply lookup_lt_Some in Hr. lia.
Qed.

Lemma get_solarposition_total times lat lon alt :
  (forall t, t ∈ times -> is_Ok (sp t lat lon alt) = true) ->
  exists df, get_solarposition sp times lat lon alt = Ok df.
Proof.
  intros H. apply mapM_total. intros t Ht. specialize (H t Ht).
  destruct (sp t lat lon alt) as [[az el]|]; [reflexivity|discriminate].
Qed.

Lemma get_solarposition_first_error l1 t l2 lat lon alt e :
  (forall x, x ∈ l1 -> is_Ok (sp x lat lon alt) = true) -> sp t lat lon alt = Raise e ->
  get_solarposition sp (l1 ++ t :: l2) lat lon alt = Raise e.
Proof.
  intros H Ht. apply mapM_first_error.
  - intros x Hx. specialize (H x Hx).
    destruct (sp x lat lon alt) as [[az el]|]; [reflexivity|discriminate].
  - now rewrite Ht.
Qed.

Lemma get_solarposition_Raise_inv times lat lon alt e :
  get_solarposition sp times lat lon alt = Raise e ->
  exists t, t ∈ times /\ sp t lat lon alt = Raise e.
Proof.
  intros H. destruct (mapM_Raise_inv _ _ _ H) as (t & Ht & Hf).
  exists t. split; [exact Ht|].
  destruct (sp t lat lon alt) as [[az el]|]; [discriminate|].
  injection Hf as ->. reflexivity.
Qed.

(** The generator, run: the three ways it can end. *)
Lemma compute_solar_positions_run lat lon alt tz year w :
  compute_solar_positions sp lat lon alt tz year w =
  match Timestamp (year_start year) tz with
  | Raise x => (Raise x, w)
  | Ok s =>
      match Timestamp (year_end year) tz with
      | Raise x => (Raise x, w)
      | Ok e =>
          let out := stdout w ++ [msg_computing (Z.of_nat (length (date_range s e)))] in
          match get_solarposition sp (date_range s e) lat lon alt with
          | Raise x => (Raise x, World (files w) (dirs w) out (fs_log w))
          | Ok df => (Ok df, World (files w) (dirs w) (out ++ [msg_done]) (fs_log w))
          end
      end
  end.
Proof.
  unfold compute_solar_positions, se_bind, se_lift, print, se_ret.
  destruct (Timestamp (year_start year) tz) as [s|]; [|reflexivity].
  destruct (Timestamp (year_end year) tz) as [e|]; [|reflexivity].
  cbn [files dirs stdout fs_log].
  destruct (get_solarposition sp (date_range s e) lat lon alt); reflexivity.
Qed.

End GeneratorFacts.

(** ** One job of [main], run *)

Lemma main_job_ok sp dir name info year w s e df :
  Timestamp (year_start year) (timezone info) = Ok s ->
  Timestamp (year_end year) (timezone info) = Ok e ->
  get_solarposition sp (date_range s e) (latitude info) (longitude info) (altitude info)
    = Ok df ->
  -32768 <= year <= 32767 ->
  os_path_dirname (bin_path dir name year) <> ""%string ->
  exists w',
    main_job sp dir name info year w = (Ok tt, w') /\
    files w' = <[bin_path dir name year := header_bytes year ++ payload_bytes df]>
                 (<[bin_path dir name year := []]> (files w)) /\
    fs_log w' = fs_log w ++ write_states (bin_path dir name year) year df (files w).
Proof.
  intros Hs He Hdf Hy Hd. unfold main_job, se_bind at 1.
  rewrite compute_solar_positions_run, Hs, He, Hdf. lazy zeta.
  unfold se_bind at 1. rewrite (write_binary_ok df _ year _ Hy Hd).
  unfold se_bind, print. cbn [files dirs stdout fs_log].
  eexists. split; [reflexivity|]. split; reflexivity.
Qed.

Lemma main_job_position_error sp dir name info year w s e x :
  Timestamp (year_start year) (timezone info) = Ok s ->
  Timestamp (year_end year) (timezone info) = Ok e ->
  get_solarposition sp (date_range s e) (latitude info) (longitude info) (altitude info)
    = Raise x ->
  exists w',
    main_job sp dir name info year w = (Raise x, w') /\
    files w' = files w /\ dirs w' = dirs w /\ fs_log w' = fs_log w.
Proof.
  intros Hs He Hdf. unfold main_job, se_bind at 1.
  rewrite compute_solar_positions_run, Hs, He, Hdf. lazy zeta.
  eexists. split; [reflexivity|]. repeat split.
Qed.

(** The boundaries of 2024 in New York and of 2016 in Istanbul. *)
Lemma New_York_2024_boundaries :
  Timestamp (year_start 2024) America_New_York = Ok (minutes_of 2024 1 1 5 0) /\
  Timestamp (year_end 2024) America_New_York = Ok (minutes_of 2025 1 1 4 59).
Proof. split; vm_compute; reflexivity. Qed.

Lemma Istanbul_2016_boundaries :
  Timestamp (year_start 2016) Europe_Istanbul = Ok (minutes_of 2015 12 31 22 0) /\
  Timestamp (year_end 2016) Europe_Istanbul = Ok (minutes_of 2016 12 31 20 59).
Proof. split; vm_compute; reflexivity. Qed.

(** C8 (as stated, refuted): the writer opens the final path itself.  A job
    that succeeds, here Manhattan 2024 started in a world without files,
    passes through a state of the file store in which the final path holds an
    empty file and through one in which it holds the 16 bytes of the header
    and no record; and a call of the writer that fails, here with a year that
    does not fit the header field, leaves the six bytes written before the
    failure at the final path. *)
Lemma C8_counterexample :
  (exists w',
     main_job (constant_position 180 45) "/SunPath" "Manhattan" Manhattan 2024 empty_world
       = (Ok tt, w') /\
     (exists fs, fs ∈ fs_log w' /\
                 fs !! bin_path "/SunPath" "Manhattan" 2024 = Some []) /\
     (exists fs, fs ∈ fs_log w' /\
                 fs !! bin_path "/SunPath" "Manhattan" 2024 = Some (header_bytes 2024))) /\
  fst (write_binary two_rows "out/x.bin" 40000 empty_world) = Raise struct_error /\
  files (snd (write_binary two_rows "out/x.bin" 40000 empty_world)) !! "out/x.bin"%string
    = Some [83; 76; 82; 68; 1; 0].
Proof.
  split.
  - destruct New_York_2024_boundaries as [Hs He].
    destruct (get_solarposition_total (constant_position 180 45)
                (date_range (minutes_of 2024 1 1 5 0) (minutes_of 2025 1 1 4 59))
                (latitude Manhattan) (longitude Manhattan) (altitude Manhattan))
      as [df Hdf]; [reflexivity|].
    destruct (main_job_ok (constant_position 180 45) "/SunPath" "Manhattan" Manhattan 2024
                empty_world _ _ df Hs He Hdf) as (w' & Hrun & _ & Hlog).
    + lia.
    + vm_compute; discriminate.
    + assert (Hlen : Z.of_nat (length (payload_bytes df)) = 4216320).
      { rewrite payload_bytes_length, Nat2Z.inj_mul.
        destruct (get_solarposition_Ok_inv _ _ _ _ _ _ Hdf) as [Htimes _].
        rewrite <- (length_map time df), Htimes, date_range_length. reflexivity. }
      exists w'. split; [exact Hrun|]. rewrite Hlog. unfold write_states. rewrite Hlen.
      change (4216320 <=? DEFAULT_BUFFER_SIZE - 16) with false. split.
      * exists (<[bin_path "/SunPath" "Manhattan" 2024 := []]> (files empty_world)).
        split; [|apply lookup_insert_eq].
        apply elem_of_app. right. apply elem_of_app. left.
        apply list_elem_of_singleton. reflexivity.
      * exists (<[bin_path "/SunPath" "Manhattan" 2024 := header_bytes 2024]>
                  (files empty_world)).
        split; [|apply lookup_insert_eq].
        apply elem_of_app. right. apply elem_of_app. right. apply elem_of_app. left.
        apply list_elem_of_singleton. reflexivity.
  - assert (Hbig : 40000 < -32768 \/ 32767 < 40000) by (right; lia).
    assert (Hd : os_path_dirname "out/x.bin" <> ""%string) by (vm_compute; discriminate).
    rewrite (write_binary_struct_error two_rows "out/x.bin" 40000 empty_world Hbig Hd).
    split; [reflexivity|]. cbn [snd files]. apply lookup_insert_eq.
Qed.

(** C8 (amended): the writer writes straight to the final path, through a
    buffered file object.  Opening the path creates or truncates the file
    there, so the first state of the file store the call produces has an
    empty file at the final path.  Every later state differs from the file
    store before the call at the final path only, where it holds a leading
    part of the complete file; when the payload is larger than the buffer of
    the file object, as that of every whole year is, one of these states
    holds the 16 bytes of the header and no record.  When the call returns
    normally the last state holds the complete file, header and all records;
    when the year does not fit the header field the call fails and the six
    bytes written before stay at the final path.  No other path is touched:
    there is no temporary file and no renaming. *)
Theorem C8_direct_write (df : DataFrame) (path : string) (year : Z) (w : world) :
  os_path_dirname path <> ""%string ->
  (-32768 <= year <= 32767 ->
     exists w' later,
       write_binary df path year w = (Ok (len df), w') /\
       files w' !! path = Some (header_bytes year ++ payload_bytes df) /\
       (forall q, q <> path -> files w' !! q = files w !! q) /\
       fs_log w' = fs_log w ++ [<[path := []]> (files w)] ++ later /\
       last later = Some (files w') /\
       (forall fs, fs ∈ later ->
          exists k, fs = <[path := take k (header_bytes year ++ payload_bytes df)]> (files w)) /\
       (DEFAULT_BUFFER_SIZE < 8 * len df ->
          <[path := header_bytes year]> (files w) ∈ later)) /\
  (year < -32768 \/ 32767 < year ->
     exists w',
       write_binary df path year w = (Raise struct_error, w') /\
       files w' !! path = Some (MAGIC ++ [1; 0]) /\
       (forall q, q <> path -> files w' !! q = files w !! q) /\
       fs_log w' = fs_log w ++ [<[path := []]> (files w); files w']).
Proof.
  intros Hd. split; intros Hy.
  - rewrite (write_binary_ok df path year w Hy Hd).
    exists (World (<[path := header_bytes year ++ payload_bytes df]> (<[path := []]> (files w)))
                  ({[ os_path_dirname path ]} ∪ dirs w)
                  (if len df =? days_in_year year * MINUTES_PER_DAY then stdout w
                   else stdout w ++ [msg_row_mismatch (days_in_year year * MINUTES_PER_DAY)
                                                      (len df)])
                  (fs_log w ++ write_states path year df (files w))).
    exists ((if Z.of_nat (length (payload_bytes df)) <=? DEFAULT_BUFFER_SIZE - 16 then []
             else [<[path := header_bytes year]> (files w)])
            ++ [<[path := header_bytes year ++ payload_bytes df]> (files w)]).
    cbn [files fs_log]. rewrite insert_insert_eq.
    split; [reflexivity|]. split; [apply lookup_insert_eq|]. split.
    { intros q Hq. now rewrite lookup_insert_ne by congruence. }
    split; [reflexivity|]. split; [apply last_snoc|]. split.
    + intros fs Hfs. apply elem_of_app in Hfs as [Hfs|Hfs].
      * destruct (Z.of_nat (length (payload_bytes df)) <=? DEFAULT_BUFFER_SIZE - 16);
          [now apply elem_of_nil in Hfs|].
        apply list_elem_of_singleton in Hfs as ->. exists 16%nat.
        reflexivity.
      * apply list_elem_of_singleton in Hfs as ->.
        exists (length (header_bytes year ++ payload_bytes df)). f_equal. symmetry.
        apply take_ge. lia.
    + intros Hbig. apply elem_of_app. left.
      assert (Hlen : Z.of_nat (length (payload_bytes df)) = 8 * len df)
        by (rewrite payload_bytes_length; unfold len; lia).
      rewrite Hlen.
      destruct (Z.leb_spec (8 * len df) (DEFAULT_BUFFER_SIZE - 16));
        [unfold DEFAULT_BUFFER_SIZE in *; lia|].
      apply list_elem_of_singleton. reflexivity.
  - rewrite (write_binary_struct_error df path year w Hy Hd). eexists. split; [reflexivity|].
    cbn [files fs_log]. rewrite insert_insert_eq.
    split; [apply lookup_insert_eq|]. split.
    + intros q Hq. now rewrite lookup_insert_ne by congruence.
    + reflexivity.
Qed.

Lemma C8_direct_write_witness :
  os_path_dirname "out/x.bin" <> ""%string /\
  -32768 <= 2024 <= 32767 /\ (40000 < -32768 \/ 32767 < 40000) /\
  (exists w', write_binary two_rows "out/x.bin" 2024 empty_world = (Ok 2, w') /\
     exists later, fs_log w' = [ {[ "out/x.bin"%string := [] ]} ] ++ later /\
                   last later = Some (files w')) /\
  (exists w', write_binary two_rows "out/x.bin" 40000 empty_world = (Raise struct_error, w') /\
     files w' !! "out/x.bin"%string = Some [83; 76; 82; 68; 1; 0]).
Proof.
  assert (Hd : os_path_dirname "out/x.bin" <> ""%string) by (vm_compute; discriminate).
  assert (Hy : -32768 <= 2024 <= 32767) by lia.
  assert (Hbig : 40000 < -32768 \/ 32767 < 40000) by (right; lia).
  split; [exact Hd|]. split; [exact Hy|]. split; [exact Hbig|].
  destruct (C8_direct_write two_rows "out/x.bin" 2024 empty_world Hd) as [Hin _].
  destruct (C8_direct_write two_rows "out/x.bin" 40000 empty_world Hd) as [_ Hout].
  destruct (Hin Hy) as (w1 & later & Hr1 & _ & _ & Hlog & Hlast & _).
  destruct (Hout Hbig) as (w2 & Hr2 & Hf2 & _).
  split.
  - exists w1. split; [exact Hr1|]. exists later. split; [exact Hlog|exact Hlast].
  - exists w2. split; [exact Hr2|exact Hf2].
Defined.

(** ** The claims about the generator *)

Lemma date_range_split s t e :
  s <= t <= e -> date_range s e = date_range s (t - 1) ++ t :: date_range (t + 1) e.
Proof.
  intros H. unfold date_range.
  replace (e - s + 1) with ((t - 1 - s + 1) + (e - t + 1)) by lia.
  rewrite seqZ_app by lia. f_equal.
  replace (s + (t - 1 - s + 1)) with t by lia.
  rewrite (seqZ_cons t) by lia. f_equal. f_equal; lia.
Qed.

Lemma get_solarposition_lookup sp times lat lon alt (df : DataFrame) i t :
  get_solarposition sp times lat lon alt = Ok df -> times !! i = Some t ->
  exists az el, sp t lat lon alt = Ok (az, el) /\ df !! i = Some (Row t az el).
Proof.
  unfold get_solarposition. intros H Ht.
  destruct (mapM_Ok_inv _ _ _ H) as [_ Hall]. destruct (Hall i t Ht) as (b & Hb & Hi).
  destruct (sp t lat lon alt) as [[az el]|]; [|discriminate].
  injection Hb as <-. eauto.
Qed.

Lemma Timestamp_errors w tz x :
  Timestamp w tz = Raise x -> x = NonExistentTimeError \/ x = AmbiguousTimeError.
Proof.
  unfold Timestamp. destruct (instants_of_wall tz w) as [|u [|u' l]]; intros H;
    try discriminate; injection H as <-; auto.
Qed.

Lemma converted_astype_float32 x : converted x (astype_float32 x).
Proof.
  unfold converted, astype_float32. destruct (Prim2SF x); reflexivity.
Qed.

(** C6 (as stated, refuted): the values of the position function are not
    inspected.  With a position function that returns NaN for the azimuth and
    infinity for the elevation at every instant, the job for Manhattan 2024
    ends normally, and the first record of the file it writes holds the
    a float32 NaN and the float32 infinity [0x7F800000]. *)
Lemma C6_counterexample :
  exists w' file a,
    main_job (constant_position nan infinity) "/SunPath" "Manhattan" Manhattan 2024 empty_world
      = (Ok tt, w') /\
    files w' !! bin_path "/SunPath" "Manhattan" 2024 = Some file /\
    read_sample file 0 = Some (a, 0x7F800000) /\
    float32_is_nan a = true.
Proof.
  destruct New_York_2024_boundaries as [Hs He].
  destruct (get_solarposition_total (constant_position nan infinity)
              (date_range (minutes_of 2024 1 1 5 0) (minutes_of 2025 1 1 4 59))
              (latitude Manhattan) (longitude Manhattan) (altitude Manhattan))
    as [df Hdf]; [reflexivity|].
  destruct (main_job_ok (constant_position nan infinity) "/SunPath" "Manhattan" Manhattan 2024
              empty_world _ _ df Hs He Hdf) as (w' & Hrun & Hfiles & _);
    [lia|vm_compute; discriminate|].
  exists w', (header_bytes 2024 ++ payload_bytes df), (astype_float32 nan).
  split; [exact Hrun|]. split.
  - rewrite Hfiles. apply lookup_insert_eq.
  - destruct (get_solarposition_lookup _ _ _ _ _ df 0%nat (minutes_of 2024 1 1 5 0) Hdf)
      as (az & el & Hsp & H0).
    { apply date_range_lookup. split; [lia|]. vm_compute. discriminate. }
    injection Hsp as <- <-.
    rewrite (read_sample_written 2024 df 0 _ H0). split; reflexivity.
Qed.

(** C6 (amended): an exception of the position function ends the job with
    that very exception before the writer is reached, the file store left as
    it was; the values the position function returns are not checked for
    finiteness: when it returns at every instant, the job ends normally and
    record [i] of the file holds what the float32 conversion makes of the
    pair returned for the [i]-th minute, never a substitute: of a number or
    an infinity the rounded float32 value, of a NaN a float32 NaN. *)
Theorem C6_values_written_as_returned
    (sp : Z -> float -> float -> float -> result (float * float))
    (dir name : string) (info : city) (year : Z) (w : world) (s e : Z) :
  supported_year year ->
  Timestamp (year_start year) (timezone info) = Ok s ->
  Timestamp (year_end year) (timezone info) = Ok e ->
  (forall t x, s <= t <= e ->
     (forall t', s <= t' < t ->
        is_Ok (sp t' (latitude info) (longitude info) (altitude info)) = true) ->
     sp t (latitude info) (longitude info) (altitude info) = Raise x ->
     exists w', main_job sp dir name info year w = (Raise x, w') /\
                files w' = files w /\ fs_log w' = fs_log w) /\
  (-32768 <= year <= 32767 -> os_path_dirname (bin_path dir name year) <> ""%string ->
   (forall t, s <= t <= e ->
      is_Ok (sp t (latitude info) (longitude info) (altitude info)) = true) ->
   exists w' file,
     main_job sp dir name info year w = (Ok tt, w') /\
     files w' !! bin_path dir name year = Some file /\
     forall i : nat, s + Z.of_nat i <= e ->
       exists az el a b,
         sp (s + Z.of_nat i) (latitude info) (longitude info) (altitude info) = Ok (az, el) /\
         read_sample file i = Some (a, b) /\
         converted az a /\ converted el b).
Proof.
  intros _ Hs He. split.
  - intros t x Ht Hbefore Hx.
    assert (Hdf : get_solarposition sp (date_range s e)
                    (latitude info) (longitude info) (altitude info) = Raise x).
    { rewrite (date_range_split s t e Ht). apply get_solarposition_first_error; [|exact Hx].
      intros t' Ht'. apply Hbefore. apply date_range_elem in Ht'. lia. }
    destruct (main_job_position_error sp dir name info year w s e x Hs He Hdf)
      as (w' & Hrun & Hf & _ & Hl).
    exists w'. auto.
  - intros Hy Hd Htotal.
    destruct (get_solarposition_total sp (date_range s e)
                (latitude info) (longitude info) (altitude info)) as [df Hdf].
    { intros t Ht. apply Htotal. now apply date_range_elem. }
    destruct (main_job_ok sp dir name info year w s e df Hs He Hdf Hy Hd)
      as (w' & Hrun & Hfiles & _).
    exists w', (header_bytes year ++ payload_bytes df). split; [exact Hrun|]. split.
    + rewrite Hfiles. apply lookup_insert_eq.
    + intros i Hi.
      destruct (get_solarposition_lookup sp _ _ _ _ df i (s + Z.of_nat i) Hdf)
        as (az & el & Hsp & Hrow).
      { apply date_range_lookup. split; [reflexivity|exact Hi]. }
      exists az, el, (astype_float32 az), (astype_float32 el). split; [exact Hsp|].
      split; [apply (read_sample_written year df i _ Hrow)|].
      split; apply converted_astype_float32.
Qed.

Lemma C6_values_written_as_returned_witness :
  supported_year 2024 /\
  Timestamp (year_start 2024) (timezone Manhattan) = Ok (minutes_of 2024 1 1 5 0) /\
  Timestamp (year_end 2024) (timezone Manhattan) = Ok (minutes_of 2025 1 1 4 59) /\
  (exists w',
     main_job (failing_from (minutes_of 2024 6 1 0 0) 7) "/SunPath" "Manhattan" Manhattan 2024
       empty_world = (Raise (LibraryError 7), w') /\
     files w' = ∅) /\
  (exists w' file,
     main_job (constant_position nan infinity) "/SunPath" "Manhattan" Manhattan 2024
       empty_world = (Ok tt, w') /\
     files w' !! bin_path "/SunPath" "Manhattan" 2024 = Some file /\
     exists a, read_sample file 1 = Some (a, 0x7F800000) /\ float32_is_nan a = true).
Proof.
  destruct New_York_2024_boundaries as [Hs He].
  assert (Hyr : supported_year 2024) by (unfold supported_year; lia).
  split; [exact Hyr|]. split; [exact Hs|]. split; [exact He|]. split.
  - destruct (C6_values_written_as_returned
                (failing_from (minutes_of 2024 6 1 0 0) 7) "/SunPath" "Manhattan" Manhattan 2024
                empty_world _ _ Hyr Hs He) as [Hfail _].
    destruct (Hfail (minutes_of 2024 6 1 0 0) (LibraryError 7)) as (w' & Hrun & Hf & _).
    + vm_compute. split; discriminate.
    + intros t' Ht'. unfold failing_from.
      destruct (Z.ltb_spec t' (minutes_of 2024 6 1 0 0)); [reflexivity|lia].
    + reflexivity.
    + exists w'. split; [exact Hrun|exact Hf].
  - destruct (C6_values_written_as_returned
                (constant_position nan infinity) "/SunPath" "Manhattan" Manhattan 2024
                empty_world _ _ Hyr Hs He) as [_ Hok].
    destruct Hok as (w' & file & Hrun & Hf & Hrec);
      [lia|vm_compute; discriminate|reflexivity|].
    exists w', file. split; [exact Hrun|]. split; [exact Hf|].
    destruct (Hrec 1%nat) as (az & el & a & b & Hsp & Hread & Ha & Hb);
      [vm_compute; discriminate|].
    injection Hsp as <- <-. exists a. rewrite Hread. split; [|exact Ha].
    change (b = astype_float32 infinity) in Hb. now rewrite Hb.
Defined.

(** C7 (as stated, refuted): nothing inspects the location.  Called with
    latitude 91, longitude 200 and altitude -1000, the generator returns the
    full series of Manhattan's zone for 2024, 527040 rows, and its first row
    shows that the position function was called with that latitude and that
    altitude ([echo_position] returns them). *)
Lemma C7_counterexample :
  exists (df : DataFrame) w',
    compute_solar_positions echo_position 91 200 (-1000) America_New_York 2024 empty_world
      = (Ok df, w') /\
    len df = 527040 /\
    df !! 0%nat = Some (Row (minutes_of 2024 1 1 5 0) 91 (-1000)).
Proof.
  destruct New_York_2024_boundaries as [Hs He].
  destruct (get_solarposition_total echo_position
              (date_range (minutes_of 2024 1 1 5 0) (minutes_of 2025 1 1 4 59))
              91 200 (-1000)) as [df Hdf]; [reflexivity|].
  exists df. eexists. split.
  - rewrite compute_solar_positions_run, Hs, He, Hdf. reflexivity.
  - split.
    + destruct (get_solarposition_Ok_inv _ _ _ _ _ _ Hdf) as [Htimes _].
      unfold len. rewrite <- (length_map time df), Htimes, date_range_length. reflexivity.
    + destruct (get_solarposition_lookup _ _ _ _ _ df 0%nat (minutes_of 2024 1 1 5 0) Hdf)
        as (az & el & Hsp & H0).
      { apply date_range_lookup. split; [lia|]. vm_compute. discriminate. }
      injection Hsp as <- <-. exact H0.
Qed.

(** C7 (amended): the generator performs no check of latitude, longitude or
    altitude.  Whatever their values, a run either fails at a boundary
    timestamp that the zone skips or repeats, or fails with an exception that
    the position function itself raised when called with these very values,
    or returns rows each of which is the value of the position function at
    these values; and it does return whenever both boundaries resolve and the
    position function returns at every instant between them. *)
Theorem C7_no_location_check
    (sp : Z -> float -> float -> float -> result (float * float))
    (lat lon alt : float) (tz : tzinfo) (year : Z) (w : world) :
  supported_year year ->
  match fst (compute_solar_positions sp lat lon alt tz year w) with
  | Ok df =>
      forall (i : nat) (r : row), df !! i = Some r ->
        sp (time r) lat lon alt = Ok (azimuth r, apparent_elevation r)
  | Raise x =>
      x = NonExistentTimeError \/ x = AmbiguousTimeError \/
      exists t, sp t lat lon alt = Raise x
  end /\
  (forall s e,
     Timestamp (year_start year) tz = Ok s -> Timestamp (year_end year) tz = Ok e ->
     (forall t, s <= t <= e -> is_Ok (sp t lat lon alt) = true) ->
     is_Ok (fst (compute_solar_positions sp lat lon alt tz year w)) = true).
Proof.
  intros _. rewrite compute_solar_positions_run. split.
  - destruct (Timestamp (year_start year) tz) as [s|x] eqn:Hs.
    2:{ cbn [fst]. destruct (Timestamp_errors _ _ _ Hs); auto. }
    destruct (Timestamp (year_end year) tz) as [e|x] eqn:He.
    2:{ cbn [fst]. destruct (Timestamp_errors _ _ _ He); auto. }
    lazy zeta.
    destruct (get_solarposition sp (date_range s e) lat lon alt) as [df|x] eqn:Hdf; cbn [fst].
    + apply (get_solarposition_Ok_inv sp _ _ _ _ _ Hdf).
    + destruct (get_solarposition_Raise_inv sp _ _ _ _ _ Hdf) as (t & _ & Ht). eauto.
  - intros s e Hs He Htotal. rewrite Hs, He. lazy zeta.
    destruct (get_solarposition_total sp (date_range s e) lat lon alt) as [df ->].
    + intros t Ht. apply Htotal. now apply date_range_elem.
    + reflexivity.
Qed.

Lemma C7_no_location_check_witness :
  supported_year 2024 /\
  Timestamp (year_start 2024) America_New_York = Ok (minutes_of 2024 1 1 5 0) /\
  Timestamp (year_end 2024) America_New_York = Ok (minutes_of 2025 1 1 4 59) /\
  is_Ok (fst (compute_solar_positions echo_position 91 200 (-1000)
                America_New_York 2024 empty_world)) = true.
Proof.
  destruct New_York_2024_boundaries as [Hs He].
  assert (Hyr : supported_year 2024) by (unfold supported_year; lia).
  split; [exact Hyr|]. split; [exact Hs|]. split; [exact He|].
  destruct (C7_no_location_check echo_position 91 200 (-1000) America_New_York 2024 empty_world
              Hyr) as [_ Hrun].
  apply (Hrun _ _ Hs He). intros t _. reflexivity.
Defined.

(** What a run of the generator that returns has computed. *)
Lemma compute_solar_positions_Ok_inv sp lat lon alt tz year w (df : DataFrame) w' :
  compute_solar_positions sp lat lon alt tz year w = (Ok df, w') ->
  exists s e,
    Timestamp (year_start year) tz = Ok s /\ Timestamp (year_end year) tz = Ok e /\
    map time df = date_range s e.
Proof.
  rewrite compute_solar_positions_run.
  destruct (Timestamp (year_start year) tz) as [s|]; [|discriminate].
  destruct (Timestamp (year_end year) tz) as [e|]; [|discriminate]. lazy zeta.
  destruct (get_solarposition sp (date_range s e) lat lon alt) as [df0|] eqn:Hdf;
    [|discriminate].
  intros H. injection H as <- _. exists s, e. repeat split.
  apply (get_solarposition_Ok_inv sp _ _ _ _ _ Hdf).
Qed.

Lemma frame_time_lookup (df : DataFrame) s e i r :
  map time df = date_range s e -> df !! i = Some r ->
  time r = s + Z.of_nat i /\ s + Z.of_nat i <= e.
Proof.
  intros Ht Hr. apply date_range_lookup. rewrite <- Ht, lookup_map, Hr. reflexivity.
Qed.

(** C3 (as stated, refuted).  For Manhattan's zone in 2024 the rows at the
    positions 442080 and 442140 are the instants 05:00 and 06:00 UTC of 3
    November, which both read 01:00 on the local clock: two rows with the same
    index [(dayOfYear - 1) * 1440 + minuteOfDay].  For Istanbul in 2016, whose
    offset is UTC+2 on 1 January and UTC+3 on 31 December, the series has
    526980 rows, not 366 * 1440 = 527040. *)
Lemma C3_counterexample :
  (exists (df : DataFrame) w',
     compute_solar_positions (constant_position 180 45) 40.7826 (-73.9656) 33
       America_New_York 2024 empty_world = (Ok df, w') /\
     df !! Z.to_nat 442080 = Some (Row (minutes_of 2024 11 3 5 0) 180 45) /\
     df !! Z.to_nat 442140 = Some (Row (minutes_of 2024 11 3 6 0) 180 45) /\
     sample_index 2024 (wall_clock America_New_York (minutes_of 2024 11 3 5 0)) = 442140 /\
     sample_index 2024 (wall_clock America_New_York (minutes_of 2024 11 3 6 0)) = 442140) /\
  (exists (df : DataFrame) w',
     compute_solar_positions (constant_position 180 45) 41.0082 28.9784 40
       Europe_Istanbul 2016 empty_world = (Ok df, w') /\
     len df = 526980 /\ days_in_year 2016 * 1440 = 527040).
Proof.
  split.
  - destruct New_York_2024_boundaries as [Hs He].
    destruct (get_solarposition_total (constant_position 180 45)
                (date_range (minutes_of 2024 1 1 5 0) (minutes_of 2025 1 1 4 59))
                40.7826 (-73.9656) 33) as [df Hdf]; [reflexivity|].
    exists df. eexists. split.
    { rewrite compute_solar_positions_run, Hs, He, Hdf. reflexivity. }
    assert (Hrow : forall k t, 0 <= k -> t = minutes_of 2024 1 1 5 0 + k ->
                     t <= minutes_of 2025 1 1 4 59 ->
                     df !! Z.to_nat k = Some (Row t 180 45)).
    { intros k t Hk Ht Hle.
      destruct (get_solarposition_lookup _ _ _ _ _ df (Z.to_nat k) t Hdf)
        as (az & el & Hsp & Hr).
      - apply date_range_lookup. rewrite Z2Nat.id by exact Hk. subst t. auto.
      - injection Hsp as <- <-. exact Hr. }
    split; [apply Hrow; [lia|reflexivity|vm_compute; discriminate]|].
    split; [apply Hrow; [lia|reflexivity|vm_compute; discriminate]|].
    split; reflexivity.
  - destruct Istanbul_2016_boundaries as [Hs He].
    destruct (get_solarposition_total (constant_position 180 45)
                (date_range (minutes_of 2015 12 31 22 0) (minutes_of 2016 12 31 20 59))
                41.0082 28.9784 40) as [df Hdf]; [reflexivity|].
    exists df. eexists. split.
    { rewrite compute_solar_positions_run, Hs, He, Hdf. reflexivity. }
    split; [|reflexivity].
    destruct (get_solarposition_Ok_inv _ _ _ _ _ _ Hdf) as [Htimes _].
    unfold len. rewrite <- (length_map time df), Htimes, date_range_length. reflexivity.
Qed.

(** C3 (amended).  In a supported year and a zone whose UTC offsets are
    whole numbers of minutes (a zone on local mean time, whose offset has
    seconds, is not covered), when both boundary timestamps resolve and the
    position function returns at every instant, the series holds one row per
    minute of absolute time from local midnight of 1 January to local 23:59
    of 31 December, in increasing order of time: its length is
    [days_in_year year * 1440] plus the UTC offset at the start minus the UTC
    offset at the end, hence exactly [days_in_year year * 1440] when the two
    offsets are equal (527040 for 2024, 525600 for 2025); row [i] is the
    instant [i] minutes after the start, and its wall-clock index
    [(dayOfYear - 1) * 1440 + minuteOfDay] is [i] plus the difference between
    its UTC offset and the offset at the start, hence [i] itself as long as
    the offset is the one of 1 January. *)
Theorem C3_series_by_absolute_minute
    (sp : Z -> float -> float -> float -> result (float * float))
    (lat lon alt : float) (tz : tzinfo) (year : Z) (w : world) (s e : Z) :
  supported_year year ->
  Timestamp (year_start year) tz = Ok s -> Timestamp (year_end year) tz = Ok e ->
  (forall t, s <= t <= e -> is_Ok (sp t lat lon alt) = true) ->
  exists (df : DataFrame) w',
    compute_solar_positions sp lat lon alt tz year w = (Ok df, w') /\
    len df = Z.max 0 (days_in_year year * 1440 + utcoffset tz s - utcoffset tz e) /\
    (utcoffset tz s = utcoffset tz e -> len df = days_in_year year * 1440) /\
    (forall (i : nat) (r : row), df !! i = Some r ->
       time r = s + Z.of_nat i /\
       sample_index year (wall_clock tz (time r))
         = Z.of_nat i + (utcoffset tz (time r) - utcoffset tz s)) /\
    days_in_year 2024 * 1440 = 527040 /\ days_in_year 2025 * 1440 = 525600.
Proof.
  intros _ Hs He Htotal.
  destruct (get_solarposition_total sp (date_range s e) lat lon alt) as [df Hdf].
  { intros t Ht. apply Htotal. now apply date_range_elem. }
  destruct (get_solarposition_Ok_inv sp _ _ _ _ _ Hdf) as [Htimes _].
  pose proof (Timestamp_wall_clock _ _ _ Hs) as Hws.
  pose proof (Timestamp_wall_clock _ _ _ He) as Hwe.
  pose proof (year_end_minus_start year) as Hyear.
  unfold wall_clock in Hws, Hwe.
  assert (Hlen : len df = Z.max 0 (days_in_year year * 1440 + utcoffset tz s - utcoffset tz e)).
  { unfold len. rewrite <- (length_map time df), Htimes, date_range_length. f_equal. lia. }
  exists df. eexists. split.
  { rewrite compute_solar_positions_run, Hs, He, Hdf. reflexivity. }
  split; [exact Hlen|]. split.
  { intros Heq. rewrite Hlen, Heq. destruct (days_in_year_cases year) as [-> | ->]; lia. }
  split; [|exact days_in_year_2024_2025].
  intros i r Hr. destruct (frame_time_lookup df s e i r Htimes Hr) as [Ht _].
  split; [exact Ht|]. rewrite sample_index_eq. unfold wall_clock. lia.
Qed.

Lemma C3_series_by_absolute_minute_witness :
  supported_year 2024 /\
  Timestamp (year_start 2024) America_New_York = Ok (minutes_of 2024 1 1 5 0) /\
  Timestamp (year_end 2024) America_New_York = Ok (minutes_of 2025 1 1 4 59) /\
  exists (df : DataFrame) w',
    compute_solar_positions (constant_position 180 45) 40.7826 (-73.9656) 33
      America_New_York 2024 empty_world = (Ok df, w') /\
    len df = 527040.
Proof.
  destruct New_York_2024_boundaries as [Hs He].
  assert (Hyr : supported_year 2024) by (unfold supported_year; lia).
  split; [exact Hyr|]. split; [exact Hs|]. split; [exact He|].
  destruct (C3_series_by_absolute_minute (constant_position 180 45) 40.7826 (-73.9656) 33
              America_New_York 2024 empty_world _ _ Hyr Hs He)
    as (df & w' & Hrun & _ & Hlen & _).
  - intros t _. reflexivity.
  - exists df, w'. split; [exact Hrun|]. apply Hlen. reflexivity.
Defined.

(** ** Counting the samples of a local day *)

Lemma filter_none {A} (P : A -> Prop) `{!forall x, Decision (P x)} (l : list A) :
  (forall x, x ∈ l -> ~ P x) -> filter P l = [].
Proof.
  induction l as [|a l IH]; intros Hall; [reflexivity|].
  rewrite filter_cons_False by (apply Hall; left).
  apply IH. intros x Hx. apply Hall. now right.
Qed.

Lemma filter_all {A} (P : A -> Prop) `{!forall x, Decision (P x)} (l : list A) :
  (forall x, x ∈ l -> P x) -> filter P l = l.
Proof.
  induction l as [|a l IH]; intros Hall; [reflexivity|].
  rewrite filter_cons_True by (apply Hall; left).
  f_equal. apply IH. intros x Hx. apply Hall. now right.
Qed.

(** A predicate that holds exactly on a window of a range of integers
    selects that window. *)
Lemma filter_seqZ_window (P : Z -> Prop) `{!forall x, Decision (P x)} s n a m :
  s <= a -> 0 <= m -> a + m <= s + n ->
  (forall u, s <= u < s + n -> (P u <-> a <= u < a + m)) ->
  filter P (seqZ s n) = seqZ a m.
Proof.
  intros Hsa Hm Hle HP.
  replace n with ((a - s) + (m + (s + n - (a + m)))) by lia.
  rewrite seqZ_app by lia. replace (s + (a - s)) with a by lia.
  rewrite seqZ_app by lia. rewrite !filter_app.
  rewrite (filter_none P (seqZ s (a - s))), (filter_all P (seqZ a m)),
    (filter_none P (seqZ (a + m) _)).
  - now rewrite app_nil_r.
  - intros u Hu. apply elem_of_seqZ in Hu. rewrite HP; lia.
  - intros u Hu. apply elem_of_seqZ in Hu. apply HP; lia.
  - intros u Hu. apply elem_of_seqZ in Hu. rewrite HP; lia.
Qed.

Lemma utcoffset_New_York u :
  utcoffset America_New_York u
  = if u <? 28500900 then -300 else if u <? 28843560 then -240 else -300.
Proof. reflexivity. Qed.

Lemma dayOfYear_2024 w : dayOfYear 2024 w = w / 1440 - 19722.
Proof.
  unfold dayOfYear. change MINUTES_PER_DAY with 1440.
  change (EPOCH_ORD) with 719163. change (days_before_year 2024) with 738885. lia.
Qed.

Lemma New_York_2024_range :
  date_range (minutes_of 2024 1 1 5 0) (minutes_of 2025 1 1 4 59) = seqZ 28401420 527040.
Proof. reflexivity. Qed.

(** The days of 2024 on the clock of New York: 1440 instants, except the day
    the clock is put forward, 10 March, and the day it is put back,
    3 November. *)
Lemma New_York_2024_day_count d :
  1 <= d <= 366 ->
  Z.of_nat (length (filter (fun u => dayOfYear 2024 (wall_clock America_New_York u) = d)
                           (seqZ 28401420 527040)))
  = if d =? 70 then 1380 else if d =? 308 then 1500 else 1440.
Proof.
  intros Hd.
  rewrite (filter_seqZ_window _ 28401420 527040
             (28401120 + (d - 1) * 1440
              + (if d <=? 70 then 300 else if d <=? 308 then 240 else 300))
             (if d =? 70 then 1380 else if d =? 308 then 1500 else 1440)).
  - rewrite length_seqZ.
    destruct (Z.eqb_spec d 70), (Z.eqb_spec d 308); lia.
  - destruct (Z.leb_spec d 70), (Z.leb_spec d 308); lia.
  - destruct (Z.eqb_spec d 70), (Z.eqb_spec d 308); lia.
  - destruct (Z.leb_spec d 70), (Z.leb_spec d 308),
      (Z.eqb_spec d 70), (Z.eqb_spec d 308); lia.
  - intros u Hu. unfold wall_clock. rewrite utcoffset_New_York, dayOfYear_2024.
    destruct (Z.ltb_spec u 28500900), (Z.ltb_spec u 28843560),
      (Z.leb_spec d 70), (Z.leb_spec d 308), (Z.eqb_spec d 70), (Z.eqb_spec d 308);
      try lia; Z.div_mod_to_equations; lia.
Qed.

(** 02:30 on 10 March 2024 is on no instant of the year in New York; 01:30 on
    3 November is on two, 05:30 and 06:30 UTC. *)
Lemma New_York_2024_skipped_minute :
  filter (fun u => wall_clock America_New_York u = minutes_of 2024 3 10 2 30)
         (seqZ 28401420 527040) = [].
Proof.
  apply filter_none. intros u _. unfold wall_clock. rewrite utcoffset_New_York.
  change (minutes_of 2024 3 10 2 30) with 28500630.
  destruct (Z.ltb_spec u 28500900), (Z.ltb_spec u 28843560); lia.
Qed.

Lemma New_York_2024_repeated_minute :
  filter (fun u => wall_clock America_New_York u = minutes_of 2024 11 3 1 30)
         (seqZ 28401420 527040)
  = [minutes_of 2024 11 3 5 30; minutes_of 2024 11 3 6 30].
Proof.
  set (P := fun u => wall_clock America_New_York u = minutes_of 2024 11 3 1 30).
  assert (HP : forall u, P u <->
            u + (if u <? 28500900 then -300 else if u <? 28843560 then -240 else -300)
            = 28843290).
  { intros u. unfold P, wall_clock. rewrite utcoffset_New_York. reflexivity. }
  assert (H1 : filter P (seqZ 28401420 442140) = seqZ 28843530 1).
  { apply filter_seqZ_window; try lia. intros u Hu. rewrite HP.
    destruct (Z.ltb_spec u 28500900), (Z.ltb_spec u 28843560); lia. }
  assert (H2 : filter P (seqZ 28843560 84900) = seqZ 28843590 1).
  { apply filter_seqZ_window; try lia. intros u Hu. rewrite HP.
    destruct (Z.ltb_spec u 28500900), (Z.ltb_spec u 28843560); lia. }
  pose proof (seqZ_app 28401420 442140 84900 ltac:(lia) ltac:(lia)) as Hsplit.
  assert (Hn : 442140 + 84900 = 527040) by reflexivity.
  assert (Hm : 28401420 + 442140 = 28843560) by reflexivity.
  rewrite Hn, Hm in Hsplit. rewrite Hsplit, filter_app, H1, H2.
  rewrite (seqZ_cons 28843530 1), (seqZ_cons 28843590 1) by lia.
  rewrite !seqZ_nil by lia. reflexivity.
Qed.

Lemma New_York_2024_times sp lat lon alt w (df : DataFrame) w' :
  compute_solar_positions sp lat lon alt America_New_York 2024 w = (Ok df, w') ->
  map time df = seqZ 28401420 527040.
Proof.
  intros H. destruct (compute_solar_positions_Ok_inv _ _ _ _ _ _ _ _ _ H)
    as (s & e & Hs & He & Htimes).
  destruct New_York_2024_boundaries as [Hs' He'].
  rewrite Hs' in Hs. rewrite He' in He. injection Hs as <-. injection He as <-.
  rewrite Htimes. apply New_York_2024_range.
Qed.

(** C4 (as stated, refuted).  In the series of Manhattan's zone for 2024, the
    70th day of the year, 10 March, on which the clock is put forward, has
    1380 samples and not 1440, and the skipped wall-clock time 02:30 of that
    day has no sample: nothing is shifted forward to stand for it. *)
Lemma C4_counterexample :
  exists (df : DataFrame) w',
    compute_solar_positions (constant_position 180 45) 40.7826 (-73.9656) 33
      America_New_York 2024 empty_world = (Ok df, w') /\
    dayOfYear 2024 (minutes_of 2024 3 10 0 0) = 70 /\
    Z.of_nat (length (samples_on_day America_New_York 2024 70 df)) = 1380 /\
    samples_at_wall America_New_York (minutes_of 2024 3 10 2 30) df = [].
Proof.
  destruct New_York_2024_boundaries as [Hs He].
  destruct (get_solarposition_total (constant_position 180 45)
              (date_range (minutes_of 2024 1 1 5 0) (minutes_of 2025 1 1 4 59))
              40.7826 (-73.9656) 33) as [df Hdf]; [reflexivity|].
  assert (Hrun : compute_solar_positions (constant_position 180 45) 40.7826 (-73.9656) 33
                   America_New_York 2024 empty_world
                 = (Ok df, World ∅ ∅ ([msg_computing
                        (Z.of_nat (length (date_range (minutes_of 2024 1 1 5 0)
                                                      (minutes_of 2025 1 1 4 59))))]
                                      ++ [msg_done]) [])).
  { rewrite compute_solar_positions_run, Hs, He, Hdf. reflexivity. }
  exists df. eexists. split; [exact Hrun|].
  pose proof (New_York_2024_times _ _ _ _ _ _ _ Hrun) as Htimes.
  split; [reflexivity|]. unfold samples_on_day, samples_at_wall. rewrite Htimes. split.
  - apply (New_York_2024_day_count 70). lia.
  - apply New_York_2024_skipped_minute.
Qed.

Lemma offset_from_elem ts o u : offset_from ts o u ∈ o :: map snd ts.
Proof.
  revert o. induction ts as [|[t o'] ts IH]; intros o; cbn [offset_from map snd].
  - left.
  - destruct (u <? t); [left|right; apply IH].
Qed.

(** The instants that [Timestamp] weighs are all the instants that read the
    wall-clock time, each once. *)
Lemma instants_of_wall_elem tz w u : u ∈ instants_of_wall tz w <-> wall_clock tz u = w.
Proof.
  unfold instants_of_wall. rewrite list_elem_of_filter. split; [tauto|].
  intros H. split; [exact H|].
  apply list_elem_of_fmap. exists (utcoffset tz u). split; [unfold wall_clock in H; lia|].
  apply elem_of_remove_dups, offset_from_elem.
Qed.

Lemma instants_of_wall_NoDup tz w : NoDup (instants_of_wall tz w).
Proof.
  unfold instants_of_wall. apply NoDup_filter, NoDup_fmap_2, NoDup_remove_dups.
  intros o1 o2 H. lia.
Qed.

Lemma StronglySorted_filter {A} (R : relation A) (P : A -> Prop)
    `{!forall x, Decision (P x)} (l : list A) :
  StronglySorted R l -> StronglySorted R (filter P l).
Proof.
  induction 1 as [|x l Hs IH Hall]; [constructor|].
  rewrite filter_cons. destruct (decide (P x)); [|exact IH].
  constructor; [exact IH|].
  rewrite Forall_forall in Hall. apply Forall_forall. intros y Hy. apply Hall.
  apply list_elem_of_filter in Hy as [_ Hy]. exact Hy.
Qed.

Lemma date_range_sorted s e : StronglySorted Z.lt (date_range s e).
Proof.
  unfold date_range. generalize (e - s + 1). intros n.
  destruct (Z.le_gt_cases n 0) as [Hn|Hn]; [rewrite seqZ_nil by lia; constructor|].
  rewrite <- (Z2Nat.id n) by lia. generalize (Z.to_nat n). clear. intros k.
  revert s. induction k as [|k IH]; intros s; [constructor|].
  rewrite seqZ_cons by lia. constructor.
  - replace (Z.pred (Z.of_nat (S k))) with (Z.of_nat k) by lia. apply IH.
  - apply Forall_forall. intros x Hx. apply elem_of_seqZ in Hx. lia.
Qed.

(** C4 (amended).  The series has one sample per minute of absolute time
    between the two boundaries, in every zone: consecutive samples are one
    minute apart, so that from one sample to the next the wall clock advances
    by one minute plus the change of the UTC offset between them.  No
    wall-clock minute is resolved: the samples that read a given wall-clock
    minute are the instants between the boundaries that read it, in order of
    time.  Hence a minute that pandas rejects as nonexistent, the zone
    skipping it, has no sample, nothing being shifted forward; a minute that
    pandas rejects as ambiguous is read by two instants at least, and every
    instant between the boundaries that reads it is a sample, the earlier
    before the later.  Likewise the samples of a local day are the instants
    between the boundaries whose wall-clock time falls on that day, as many
    as the day has minutes of absolute time.  In the series of
    America/New_York for 2024 every day has 1440 samples except 10 March,
    which has 1380, and 3 November, which has 1500; 02:30 of 10 March has no
    sample and 01:30 of 3 November has the two samples of 05:30 UTC, at the
    offset of -240 minutes, and 06:30 UTC, at the offset of -300. *)
Theorem C4_transition_days
    (sp : Z -> float -> float -> float -> result (float * float))
    (lat lon alt : float) (w : world) :
  (forall (tz : tzinfo) (year : Z) (df : DataFrame) (w' : world),
     supported_year year ->
     compute_solar_positions sp lat lon alt tz year w = (Ok df, w') ->
     (forall (i : nat) (r r' : row), df !! i = Some r -> df !! S i = Some r' ->
        time r' = time r + 1 /\
        wall_clock tz (time r')
          = wall_clock tz (time r) + 1 + (utcoffset tz (time r') - utcoffset tz (time r))) /\
     exists s e,
       Timestamp (year_start year) tz = Ok s /\ Timestamp (year_end year) tz = Ok e /\
       (forall wm u, u ∈ samples_at_wall tz wm df <-> s <= u <= e /\ wall_clock tz u = wm) /\
       (forall wm, StronglySorted Z.lt (samples_at_wall tz wm df)) /\
       (forall wm, Timestamp wm tz = Raise NonExistentTimeError ->
          samples_at_wall tz wm df = []) /\
       (forall wm, Timestamp wm tz = Raise AmbiguousTimeError ->
          exists u1 u2, u1 < u2 /\ wall_clock tz u1 = wm /\ wall_clock tz u2 = wm) /\
       (forall d u, u ∈ samples_on_day tz year d df
                    <-> s <= u <= e /\ dayOfYear year (wall_clock tz u) = d) /\
       (forall d, StronglySorted Z.lt (samples_on_day tz year d df))) /\
  (forall (df : DataFrame) (w' : world),
     compute_solar_positions sp lat lon alt America_New_York 2024 w = (Ok df, w') ->
     (forall d, 1 <= d <= 366 ->
        Z.of_nat (length (samples_on_day America_New_York 2024 d df))
        = if d =? 70 then 1380 else if d =? 308 then 1500 else 1440) /\
     samples_at_wall America_New_York (minutes_of 2024 3 10 2 30) df = [] /\
     samples_at_wall America_New_York (minutes_of 2024 11 3 1 30) df
       = [minutes_of 2024 11 3 5 30; minutes_of 2024 11 3 6 30] /\
     utcoffset America_New_York (minutes_of 2024 11 3 5 30) = -240 /\
     utcoffset America_New_York (minutes_of 2024 11 3 6 30) = -300).
Proof.
  split.
  - intros tz year df w' _ Hrun.
    destruct (compute_solar_positions_Ok_inv _ _ _ _ _ _ _ _ _ Hrun)
      as (s & e & Hs & He & Htimes).
    split.
    { intros i r r' Hr Hr'.
      destruct (frame_time_lookup df s e i r Htimes Hr) as [Ht _].
      destruct (frame_time_lookup df s e (S i) r' Htimes Hr') as [Ht' _].
      unfold wall_clock. lia. }
    exists s, e. split; [exact Hs|]. split; [exact He|].
    unfold samples_at_wall, samples_on_day. rewrite Htimes.
    split; [|split; [|split; [|split; [|split]]]].
    + intros wm u. rewrite list_elem_of_filter, date_range_elem. tauto.
    + intros wm. apply StronglySorted_filter, date_range_sorted.
    + intros wm Hwm. apply filter_none. intros u _ Hu.
      apply instants_of_wall_elem in Hu. unfold Timestamp in Hwm.
      destruct (instants_of_wall tz wm) as [|u0 [|u1 l]]; try discriminate.
      now apply elem_of_nil in Hu.
    + intros wm Hwm. unfold Timestamp in Hwm.
      pose proof (instants_of_wall_NoDup tz wm) as Hnd.
      pose proof (instants_of_wall_elem tz wm) as Hel.
      destruct (instants_of_wall tz wm) as [|u0 [|u1 l]]; try discriminate.
      assert (H0 : wall_clock tz u0 = wm) by (apply Hel; left).
      assert (H1 : wall_clock tz u1 = wm) by (apply Hel; right; left).
      assert (Hne : u0 <> u1).
      { apply NoDup_cons in Hnd as [Hnot _]. intros ->. apply Hnot. left. }
      destruct (Z.lt_trichotomy u0 u1) as [Hlt|[Heq|Hgt]]; [|contradiction|].
      * exists u0, u1. auto.
      * exists u1, u0. auto.
    + intros d u. rewrite list_elem_of_filter, date_range_elem. tauto.
    + intros d. apply StronglySorted_filter, date_range_sorted.
  - intros df w' Hrun. pose proof (New_York_2024_times _ _ _ _ _ _ _ Hrun) as Htimes.
    unfold samples_on_day, samples_at_wall. rewrite Htimes.
    split; [exact New_York_2024_day_count|].
    split; [exact New_York_2024_skipped_minute|].
    split; [exact New_York_2024_repeated_minute|]. split; reflexivity.
Qed.

Lemma C4_transition_days_witness :
  supported_year 2024 /\
  exists (df : DataFrame) w',
    compute_solar_positions (constant_position 180 45) 40.7826 (-73.9656) 33
      America_New_York 2024 empty_world = (Ok df, w') /\
    Z.of_nat (length (samples_on_day America_New_York 2024 308 df)) = 1500 /\
    Z.of_nat (length (samples_on_day America_New_York 2024 309 df)) = 1440 /\
    wall_clock America_New_York (minutes_of 2024 3 10 7 0)
      = wall_clock America_New_York (minutes_of 2024 3 10 6 59) + 1 + (-240 - -300).
Proof.
  assert (Hyr : supported_year 2024) by (unfold supported_year; lia).
  split; [exact Hyr|].
  destruct New_York_2024_boundaries as [Hs He].
  destruct (get_solarposition_total (constant_position 180 45)
              (date_range (minutes_of 2024 1 1 5 0) (minutes_of 2025 1 1 4 59))
              40.7826 (-73.9656) 33) as [df Hdf]; [reflexivity|].
  assert (Hrun : compute_solar_positions (constant_position 180 45) 40.7826 (-73.9656) 33
                   America_New_York 2024 empty_world
                 = (Ok df, World ∅ ∅ ([msg_computing
                        (Z.of_nat (length (date_range (minutes_of 2024 1 1 5 0)
                                                      (minutes_of 2025 1 1 4 59))))]
                                      ++ [msg_done]) [])).
  { rewrite compute_solar_positions_run, Hs, He, Hdf. reflexivity. }
  exists df. eexists. split; [exact Hrun|].
  destruct (C4_transition_days (constant_position 180 45) 40.7826 (-73.9656) 33 empty_world)
    as [Hstep Hny].
  destruct (Hny df _ Hrun) as (Hdays & _).
  split; [apply (Hdays 308); lia|]. split; [apply (Hdays 309); lia|].
  assert (Hrow : forall k t, 0 <= k -> t = minutes_of 2024 1 1 5 0 + k ->
                   t <= minutes_of 2025 1 1 4 59 ->
                   df !! Z.to_nat k = Some (Row t 180 45)).
  { intros k t Hk Ht Hle.
    destruct (get_solarposition_lookup _ _ _ _ _ df (Z.to_nat k) t Hdf)
      as (az & el & Hsp & Hr).
    - apply date_range_lookup. rewrite Z2Nat.id by exact Hk. subst t. auto.
    - injection Hsp as <- <-. exact Hr. }
  assert (Hsucc : Z.to_nat 99480 = S (Z.to_nat 99479))
    by (change 99480 with (Z.succ 99479); apply Z2Nat.inj_succ; lia).
  pose proof (Hrow 99479 (minutes_of 2024 3 10 6 59) ltac:(lia) eq_refl
                ltac:(vm_compute; discriminate)) as Hr.
  pose proof (Hrow 99480 (minutes_of 2024 3 10 7 0) ltac:(lia) eq_refl
                ltac:(vm_compute; discriminate)) as Hr'.
  rewrite Hsucc in Hr'.
  destruct (Hstep America_New_York 2024 df _ Hyr Hrun) as [Hnext _].
  destruct (Hnext _ _ _ Hr Hr') as [_ Hwall].
  exact Hwall.
Defined.

(* ===================================================================== *)
(** * Further properties of the writer *)
(* ===================================================================== *)

(** X1: the three ways a call of the writer can end when the last
    component of the path can name a file (a path that ends in a slash, in
    [.] or in [..] names a directory, which [open] refuses).  A path without
    a directory part fails in [os.makedirs] before the file is opened and
    leaves the world as it was; otherwise the call fails with the packing
    error exactly when the year is outside the int16 range, and returns the
    number of rows in every other case. *)
Theorem write_binary_outcome (df : DataFrame) (path : string) (year : Z) (w : world) :
  names_file path ->
  if String.eqb (os_path_dirname path) ""
  then write_binary df path year w = (Raise FileNotFoundError, w)
  else fst (write_binary df path year w)
       = if (-32768 <=? year) && (year <=? 32767) then Ok (len df) else Raise struct_error.
Proof.
  intros _. destruct (String.eqb_spec (os_path_dirname path) "") as [Hd|Hd].
  - now apply write_binary_no_directory.
  - destruct (Z.leb_spec (-32768) year), (Z.leb_spec year 32767); cbn [andb].
    + now rewrite write_binary_ok by (assumption || lia).
    + now rewrite write_binary_struct_error by (assumption || lia).
    + now rewrite write_binary_struct_error by (assumption || lia).
    + now rewrite write_binary_struct_error by (assumption || lia).
Qed.

Lemma write_binary_outcome_witness :
  names_file "out/x.bin" /\
  fst (write_binary two_rows "out/x.bin" 40000 empty_world) = Raise struct_error.
Proof.
  assert (Hn : names_file "out/x.bin") by (repeat split; vm_compute; discriminate).
  split; [exact Hn|].
  exact (write_binary_outcome two_rows "out/x.bin" 40000 empty_world Hn).
Defined.

Lemma write_binary_files df path year w :
  os_path_dirname path <> ""%string ->
  exists content,
    files (snd (write_binary df path year w)) = <[path := content]> (files w) /\
    (-32768 <= year <= 32767 -> content = header_bytes year ++ payload_bytes df).
Proof.
  intros Hd.
  destruct (Z.leb_spec (-32768) year), (Z.leb_spec year 32767).
  1: { rewrite write_binary_ok by (assumption || lia). cbn [snd files].
       rewrite insert_insert_eq. eauto. }
  all: rewrite write_binary_struct_error by (assumption || lia); cbn [snd files];
    rewrite insert_insert_eq; eexists; split; [reflexivity|lia].
Qed.

(** X2: regeneration replaces the file wholesale.  What a successful call
    leaves at the path is the header and the payload of its own arguments,
    whatever was there before, and the rest of the file store is as before:
    a call after an earlier call on the same path, successful or not, leaves
    the same files as the later call alone. *)
Theorem write_binary_overwrites (df0 df : DataFrame) (path : string) (year0 year : Z)
    (w : world) :
  -32768 <= year <= 32767 -> os_path_dirname path <> ""%string ->
  files (snd (write_binary df path year w))
    = <[path := header_bytes year ++ payload_bytes df]> (files w) /\
  files (snd (write_binary df path year (snd (write_binary df0 path year0 w))))
    = files (snd (write_binary df path year w)).
Proof.
  intros Hy Hd.
  destruct (write_binary_files df path year w Hd) as (c & Hc & Hcy).
  destruct (write_binary_files df path year (snd (write_binary df0 path year0 w)) Hd)
    as (c' & Hc' & Hcy').
  destruct (write_binary_files df0 path year0 w Hd) as (c0 & Hc0 & _).
  rewrite Hc, Hc', Hc0, (Hcy Hy), (Hcy' Hy). split; [reflexivity|].
  apply insert_insert_eq.
Qed.

Lemma write_binary_overwrites_witness :
  -32768 <= 2024 <= 32767 /\ os_path_dirname "out/x.bin" <> ""%string /\
  files (snd (write_binary two_rows "out/x.bin" 2024
                (snd (write_binary two_rows_nearby "out/x.bin" 40000 empty_world))))
  = files (snd (write_binary two_rows "out/x.bin" 2024 empty_world)).
Proof.
  assert (Hy : -32768 <= 2024 <= 32767) by lia.
  assert (Hd : os_path_dirname "out/x.bin" <> ""%string) by (vm_compute; discriminate).
  split; [exact Hy|]. split; [exact Hd|].
  exact (proj2 (write_binary_overwrites two_rows_nearby two_rows "out/x.bin" 40000 2024
                  empty_world Hy Hd)).
Defined.

(** X3: when the writer warns about the frame of the generator.  Written
    with the year it was generated for, the frame that the generator returns
    makes the writer print the warning about the number of rows exactly when
    the UTC offset of the zone at the end of the year differs from the offset
    at its start; the warning then sets the [days_in_year year * 1440] rows
    expected against the rows of the frame, which are as many plus the offset
    at the start minus the offset at the end.  The writer prints nothing
    else. *)
Theorem writer_warns_iff_offset_changes
    (sp : Z -> float -> float -> float -> result (float * float))
    (lat lon alt : float) (tz : tzinfo) (year : Z) (path : string)
    (w w1 : world) (df : DataFrame) (s e : Z) :
  supported_year year -> os_path_dirname path <> ""%string ->
  compute_solar_positions sp lat lon alt tz year w = (Ok df, w1) ->
  Timestamp (year_start year) tz = Ok s -> Timestamp (year_end year) tz = Ok e ->
  stdout (snd (write_binary df path year w1))
  = stdout w1
    ++ (if utcoffset tz s =? utcoffset tz e then []
        else [msg_row_mismatch (days_in_year year * 1440)
                (Z.max 0 (days_in_year year * 1440 + utcoffset tz s - utcoffset tz e))]).
Proof.
  intros Hyr Hd Hrun Hs He.
  assert (Hy : -32768 <= year <= 32767) by (unfold supported_year in Hyr; lia).
  destruct (compute_solar_positions_Ok_inv _ _ _ _ _ _ _ _ _ Hrun)
    as (s' & e' & Hs' & He' & Htimes).
  rewrite Hs in Hs'. rewrite He in He'. injection Hs' as <-. injection He' as <-.
  pose proof (Timestamp_wall_clock _ _ _ Hs) as Hws.
  pose proof (Timestamp_wall_clock _ _ _ He) as Hwe.
  pose proof (year_end_minus_start year) as Hyear.
  unfold wall_clock in Hws, Hwe.
  assert (Hlen : len df = Z.max 0 (days_in_year year * 1440 + utcoffset tz s - utcoffset tz e)).
  { unfold len. rewrite <- (length_map time df), Htimes, date_range_length. f_equal. lia. }
  rewrite (write_binary_ok df path year w1 Hy Hd). cbn [snd stdout].
  change MINUTES_PER_DAY with 1440. rewrite Hlen.
  assert (Hdays : 0 < days_in_year year * 1440)
    by (destruct (days_in_year_cases year) as [-> | ->]; lia).
  destruct (Z.eqb_spec (utcoffset tz s) (utcoffset tz e)) as [Heq|Hne].
  - rewrite Heq, app_nil_r.
    replace (days_in_year year * 1440 + utcoffset tz e - utcoffset tz e)
      with (days_in_year year * 1440) by lia.
    rewrite Z.max_r by lia. now rewrite Z.eqb_refl.
  - destruct (Z.eqb_spec (Z.max 0 (days_in_year year * 1440 + utcoffset tz s - utcoffset tz e))
                (days_in_year year * 1440)) as [Habs|_]; [lia|reflexivity].
Qed.

Lemma writer_warns_iff_offset_changes_witness :
  supported_year 2016 /\ os_path_dirname "out/x.bin" <> ""%string /\
  Timestamp (year_start 2016) Europe_Istanbul = Ok (minutes_of 2015 12 31 22 0) /\
  Timestamp (year_end 2016) Europe_Istanbul = Ok (minutes_of 2016 12 31 20 59) /\
  exists (df : DataFrame) w1,
    compute_solar_positions (constant_position 180 45) 41.0082 28.9784 40
      Europe_Istanbul 2016 empty_world = (Ok df, w1) /\
    stdout (snd (write_binary df "out/x.bin" 2016 w1))
    = stdout w1 ++ [msg_row_mismatch 527040 526980].
Proof.
  assert (Hyr : supported_year 2016) by (unfold supported_year; lia).
  assert (Hd : os_path_dirname "out/x.bin" <> ""%string) by (vm_compute; discriminate).
  destruct Istanbul_2016_boundaries as [Hs He].
  split; [exact Hyr|]. split; [exact Hd|]. split; [exact Hs|]. split; [exact He|].
  destruct (get_solarposition_total (constant_position 180 45)
              (date_range (minutes_of 2015 12 31 22 0) (minutes_of 2016 12 31 20 59))
              41.0082 28.9784 40) as [df Hdf]; [reflexivity|].
  assert (Hrun : compute_solar_positions (constant_position 180 45) 41.0082 28.9784 40
                   Europe_Istanbul 2016 empty_world
                 = (Ok df, World ∅ ∅ ([msg_computing
                        (Z.of_nat (length (date_range (minutes_of 2015 12 31 22 0)
                                                      (minutes_of 2016 12 31 20 59))))]
                                      ++ [msg_done]) [])).
  { rewrite compute_solar_positions_run, Hs, He, Hdf. reflexivity. }
  exists df. eexists. split; [exact Hrun|].
  exact (writer_warns_iff_offset_changes (constant_position 180 45) 41.0082 28.9784 40
           Europe_Istanbul 2016 "out/x.bin" empty_world _ df _ _ Hyr Hd Hrun Hs He).
Defined.

(** X4: the written file determines the year and every float32 sample.  If
    two successful calls leave the same bytes, their years are equal and
    their frames have the same float32 values row by row (the frames may
    differ in their instants and in float64 digits that float32 drops). *)
Theorem written_file_determines_content
    (df1 df2 : DataFrame) (p1 p2 : string) (y1 y2 : Z) (w1 w2 : world) (file : bytes) :
  -32768 <= y1 <= 32767 -> -32768 <= y2 <= 32767 ->
  os_path_dirname p1 <> ""%string -> os_path_dirname p2 <> ""%string ->
  files (snd (write_binary df1 p1 y1 w1)) !! p1 = Some file ->
  files (snd (write_binary df2 p2 y2 w2)) !! p2 = Some file ->
  y1 = y2 /\ map sample_bits df1 = map sample_bits df2.
Proof.
  intros Hy1 Hy2 Hd1 Hd2 H1 H2.
  destruct (write_binary_file df1 p1 y1 w1 Hy1 Hd1) as [_ Hf1].
  destruct (write_binary_file df2 p2 y2 w2 Hy2 Hd2) as [_ Hf2].
  pose proof (eq_trans (eq_sym Hf1) H1) as E1. pose proof (eq_trans (eq_sym Hf2) H2) as E2.
  pose proof (eq_trans E1 (eq_sym E2)) as Heq. apply (inj Some) in Heq.
  apply app_inj_1 in Heq; [|reflexivity]. destruct Heq as [Hh Hp]. split.
  - apply (f_equal (slice 6 8)) in Hh.
    destruct (header_fields y1 Hy1) as (_ & _ & H61 & _).
    destruct (header_fields y2 Hy2) as (_ & _ & H62 & _).
    rewrite H61, H62 in Hh. apply (f_equal int_from_bytes_le) in Hh.
    now rewrite !int_from_to_bytes_le_2 in Hh by assumption.
  - apply (f_equal records) in Hp. now rewrite !records_payload_bytes in Hp.
Qed.

Lemma written_file_determines_content_witness :
  exists file,
    files (snd (write_binary two_rows "out/x.bin" 2024 empty_world)) !! "out/x.bin"%string
      = Some file /\
    files (snd (write_binary two_rows_nearby "b/y.bin" 2024 empty_world)) !! "b/y.bin"%string
      = Some file /\
    map sample_bits two_rows = map sample_bits two_rows_nearby.
Proof.
  assert (Hy : -32768 <= 2024 <= 32767) by lia.
  assert (Hd1 : os_path_dirname "out/x.bin" <> ""%string) by (vm_compute; discriminate).
  assert (Hd2 : os_path_dirname "b/y.bin" <> ""%string) by (vm_compute; discriminate).
  destruct (write_binary_file two_rows "out/x.bin" 2024 empty_world Hy Hd1) as [_ Hf1].
  destruct (write_binary_file two_rows_nearby "b/y.bin" 2024 empty_world Hy Hd2) as [_ Hf2].
  exists (header_bytes 2024 ++ payload_bytes two_rows).
  assert (Hsame : header_bytes 2024 ++ payload_bytes two_rows_nearby
                  = header_bytes 2024 ++ payload_bytes two_rows) by (vm_compute; reflexivity).
  rewrite Hsame in Hf2. split; [exact Hf1|]. split; [exact Hf2|].
  exact (proj2 (written_file_determines_content two_rows two_rows_nearby
                  "out/x.bin" "b/y.bin" 2024 2024 empty_world empty_world _
                  Hy Hy Hd1 Hd2 Hf1 Hf2)).
Defined.

(* ===================================================================== *)
(** * Further properties of the generator *)
(* ===================================================================== *)

Lemma get_solarposition_length sp times lat lon alt (df : DataFrame) :
  get_solarposition sp times lat lon alt = Ok df -> length df = length times.
Proof.
  intros H. destruct (get_solarposition_Ok_inv sp _ _ _ _ _ H) as [Ht _].
  now rewrite <- Ht, length_map.
Qed.

(** X5: how the generator ends and what it has printed by then, in every
    supported year.  When a boundary of the year does not resolve, it ends
    with the exception of pandas and the world is as before: nothing is
    printed.  When both resolve and the position function raises at an
    instant after returning at all earlier ones, it ends with that exception
    and has printed the announcement of the number of instants and nothing
    else.  When the position function returns at every instant, it returns
    one row per instant and has printed the announcement and the closing
    line.  Files, directories and the history of the file store are as
    before in every case. *)
Theorem compute_solar_positions_effects
    (sp : Z -> float -> float -> float -> result (float * float))
    (lat lon alt : float) (tz : tzinfo) (year : Z) (w : world) :
  supported_year year ->
  (forall x, Timestamp (year_start year) tz = Raise x ->
     compute_solar_positions sp lat lon alt tz year w = (Raise x, w)) /\
  (forall s x, Timestamp (year_start year) tz = Ok s ->
     Timestamp (year_end year) tz = Raise x ->
     compute_solar_positions sp lat lon alt tz year w = (Raise x, w)) /\
  (forall s e, Timestamp (year_start year) tz = Ok s ->
     Timestamp (year_end year) tz = Ok e ->
     (forall t x, s <= t <= e ->
        (forall t', s <= t' < t -> is_Ok (sp t' lat lon alt) = true) ->
        sp t lat lon alt = Raise x ->
        compute_solar_positions sp lat lon alt tz year w
        = (Raise x, World (files w) (dirs w)
                          (stdout w ++ [msg_computing (e - s + 1)]) (fs_log w))) /\
     ((forall t, s <= t <= e -> is_Ok (sp t lat lon alt) = true) ->
      exists df : DataFrame,
        len df = Z.max 0 (e - s + 1) /\
        compute_solar_positions sp lat lon alt tz year w
        = (Ok df, World (files w) (dirs w)
                        (stdout w ++ [msg_computing (len df); msg_done]) (fs_log w)))).
Proof.
  intros _. split; [|split].
  - intros x Hs. now rewrite compute_solar_positions_run, Hs.
  - intros s x Hs He. now rewrite compute_solar_positions_run, Hs, He.
  - intros s e Hs He. split.
    + intros t x Ht Hbefore Hx.
      assert (Hdf : get_solarposition sp (date_range s e) lat lon alt = Raise x).
      { rewrite (date_range_split s t e Ht). apply get_solarposition_first_error; [|exact Hx].
        intros t' Ht'. apply Hbefore. apply date_range_elem in Ht'. lia. }
      rewrite compute_solar_positions_run, Hs, He, Hdf. lazy zeta.
      rewrite date_range_length, Z.max_r by lia. reflexivity.
    + intros Htotal.
      destruct (get_solarposition_total sp (date_range s e) lat lon alt) as [df Hdf].
      { intros t Ht. apply Htotal. now apply date_range_elem. }
      exists df.
      assert (Hlen : len df = Z.of_nat (length (date_range s e)))
        by (unfold len; now rewrite (get_solarposition_length _ _ _ _ _ _ Hdf)).
      split; [rewrite Hlen; apply date_range_length|].
      rewrite compute_solar_positions_run, Hs, He, Hdf. lazy zeta.
      rewrite Hlen, <- app_assoc. reflexivity.
Qed.

Lemma compute_solar_positions_effects_witness :
  supported_year 2024 /\
  compute_solar_positions (failing_from (minutes_of 2024 7 1 0 0) 7)
    (latitude Manhattan) (longitude Manhattan) (altitude Manhattan)
    America_New_York 2024 empty_world
  = (Raise (LibraryError 7), World ∅ ∅ [msg_computing 527040] []).
Proof.
  assert (Hyr : supported_year 2024) by (unfold supported_year; lia).
  split; [exact Hyr|].
  destruct New_York_2024_boundaries as [Hs He].
  destruct (compute_solar_positions_effects (failing_from (minutes_of 2024 7 1 0 0) 7)
              (latitude Manhattan) (longitude Manhattan) (altitude Manhattan)
              America_New_York 2024 empty_world Hyr) as (_ & _ & Hboth).
  destruct (Hboth _ _ Hs He) as [Hfail _].
  apply (Hfail (minutes_of 2024 7 1 0 0) (LibraryError 7)).
  - vm_compute. split; discriminate.
  - intros t' Ht'. unfold failing_from.
    destruct (Z.ltb_spec t' (minutes_of 2024 7 1 0 0)); [reflexivity|lia].
  - reflexivity.
Defined.

Lemma Timestamp_fixed_offset w o : Timestamp w (TzInfo o []) = Ok (w - o).
Proof.
  unfold Timestamp, instants_of_wall, wall_clock, utcoffset.
  cbn [tz_first tz_transitions map offset_from].
  change (remove_dups [o]) with [o]. cbn [map].
  rewrite filter_cons_True by lia. reflexivity.
Qed.

(** X6: in a zone without transitions the index law of the format holds
    exactly.  For every supported year and a position function that returns
    at every instant, the boundaries resolve, the series has
    [days_in_year year * 1440] rows, and row [i] is the wall-clock minute
    whose index [(dayOfYear - 1) * 1440 + minuteOfDay] is [i], with the day in
    [1, days_in_year year] and the minute in [0, 1440). *)
Theorem fixed_offset_index_law
    (sp : Z -> float -> float -> float -> result (float * float))
    (lat lon alt : float) (o : Z) (year : Z) (w : world) :
  supported_year year ->
  (forall t, is_Ok (sp t lat lon alt) = true) ->
  exists (df : DataFrame) w',
    compute_solar_positions sp lat lon alt (TzInfo o []) year w = (Ok df, w') /\
    len df = days_in_year year * 1440 /\
    forall (i : nat) (r : row), df !! i = Some r ->
      let wall := wall_clock (TzInfo o []) (time r) in
      Z.of_nat i = (dayOfYear year wall - 1) * 1440 + minuteOfDay wall /\
      1 <= dayOfYear year wall <= days_in_year year /\
      0 <= minuteOfDay wall < 1440.
Proof.
  intros _ Htotal.
  pose proof (Timestamp_fixed_offset (year_start year) o) as Hs.
  pose proof (Timestamp_fixed_offset (year_end year) o) as He.
  destruct (get_solarposition_total sp (date_range (year_start year - o) (year_end year - o))
              lat lon alt) as [df Hdf]; [intros t _; apply Htotal|].
  destruct (get_solarposition_Ok_inv sp _ _ _ _ _ Hdf) as [Htimes _].
  pose proof (year_end_minus_start year) as Hyear.
  assert (Hlen : len df = days_in_year year * 1440).
  { unfold len. rewrite <- (length_map time df), Htimes, date_range_length.
    destruct (days_in_year_cases year) as [Hd | Hd]; rewrite Hd in *; lia. }
  exists df. eexists. split.
  { rewrite compute_solar_positions_run, Hs, He, Hdf. reflexivity. }
  split; [exact Hlen|].
  intros i r Hr. destruct (frame_time_lookup df _ _ i r Htimes Hr) as [Ht Hle].
  lazy zeta. unfold wall_clock, utcoffset. cbn [tz_first tz_transitions offset_from].
  replace (time r + o) with (year_start year + Z.of_nat i) by lia.
  assert (Hi : 0 <= Z.of_nat i < days_in_year year * 1440) by lia.
  unfold dayOfYear, minuteOfDay, year_start, minutes_of, ymd2ord, days_before_month,
    MINUTES_PER_DAY.
  destruct (days_in_year_cases year) as [Hd | Hd]; rewrite Hd in *;
    Z.div_mod_to_equations; lia.
Qed.

Lemma fixed_offset_index_law_witness :
  supported_year 2025 /\
  exists (df : DataFrame) w',
    compute_solar_positions (constant_position 180 45) 28.6139 77.209 216
      Asia_Kolkata 2025 empty_world = (Ok df, w') /\
    len df = 525600.
Proof.
  assert (Hyr : supported_year 2025) by (unfold supported_year; lia).
  split; [exact Hyr|].
  destruct (fixed_offset_index_law (constant_position 180 45) 28.6139 77.209 216
              330 2025 empty_world Hyr) as (df & w' & Hrun & Hlen & _).
  - intros t. reflexivity.
  - exists df, w'. split; [exact Hrun|exact Hlen].
Defined.

(* ===================================================================== *)
(** * Paths *)
(* ===================================================================== *)

Lemma list_ascii_of_string_app a b :
  list_ascii_of_string (a +:+ b) = list_ascii_of_string a ++ list_ascii_of_string b.
Proof. induction a as [|c a IH]; simpl; [reflexivity|now rewrite IH]. Qed.

Lemma list_ascii_of_string_nil a : list_ascii_of_string a = [] -> a = ""%string.
Proof. destruct a; [reflexivity|discriminate]. Qed.

Lemma string_of_list_ascii_nil l : string_of_list_ascii l = ""%string <-> l = [].
Proof. destruct l; simpl; split; intros H; try reflexivity; discriminate. Qed.

Lemma drop_while_nil {A} (p : A -> bool) l : drop_while p l = [] <-> forallb p l = true.
Proof.
  induction l as [|a l IH]; simpl; [tauto|].
  destruct (p a); simpl; [exact IH|]. split; discriminate.
Qed.

Lemma forallb_rev {A} (p : A -> bool) l : forallb p (rev l) = forallb p l.
Proof.
  induction l as [|a l IH]; [reflexivity|].
  simpl. rewrite forallb_app, IH. simpl. rewrite andb_true_r. apply andb_comm.
Qed.

Lemma forallb_not_slash l :
  forallb (fun c => negb (is_slash c)) l = negb (existsb is_slash l).
Proof.
  induction l as [|a l IH]; [reflexivity|]. simpl. rewrite IH.
  now destruct (is_slash a).
Qed.

Lemma rev_nil_iff {A} (l : list A) : rev l = [] <-> l = [].
Proof.
  split; intros H; [|now rewrite H].
  destruct l as [|a l]; [reflexivity|].
  simpl in H. destruct (rev l); discriminate.
Qed.

(** A path lacks a directory part exactly when it contains no slash. *)
Lemma os_path_dirname_empty_iff p :
  os_path_dirname p = ""%string <-> has_slash p = false.
Proof.
  unfold os_path_dirname, has_slash.
  set (l := list_ascii_of_string p).
  set (head := drop_while (fun c => negb (is_slash c)) (rev l)).
  lazy zeta.
  rewrite string_of_list_ascii_nil, rev_nil_iff.
  assert (Hhead : head = [] <-> existsb is_slash l = false).
  { unfold head. rewrite drop_while_nil, forallb_rev, forallb_not_slash.
    destruct (existsb is_slash l); simpl; split; congruence. }
  rewrite <- Hhead.
  destruct (forallb is_slash head) eqn:Hall; [tauto|].
  split; intros H.
  - apply drop_while_nil in H. congruence.
  - rewrite H in Hall. discriminate.
Qed.

Lemma has_slash_app a b : has_slash (a +:+ b) = has_slash a || has_slash b.
Proof. unfold has_slash. now rewrite list_ascii_of_string_app, existsb_app. Qed.

Lemma has_slash_nonempty p : has_slash p = true -> p <> ""%string.
Proof. intros H ->. discriminate. Qed.

Lemma os_path_join_cases a b :
  (os_path_join a b = b /\ (a = ""%string \/ has_slash b = true)) \/
  (a <> ""%string /\ (os_path_join a b = a +:+ b /\ has_slash a = true \/
                      os_path_join a b = a +:+ "/" +:+ b)).
Proof.
  unfold os_path_join.
  set (tail := match rev (list_ascii_of_string a) with
               | [] => b
               | d :: _ => if is_slash d then a +:+ b else a +:+ "/" +:+ b
               end).
  assert (Hrev : (tail = b /\ (a = ""%string \/ has_slash b = true)) \/
                 (a <> ""%string /\ (tail = a +:+ b /\ has_slash a = true \/
                                     tail = a +:+ "/" +:+ b))).
  { subst tail. destruct (rev (list_ascii_of_string a)) as [|d ra] eqn:Ha.
    - left. split; [reflexivity|]. left.
      apply list_ascii_of_string_nil, rev_nil_iff, Ha.
    - right. assert (Hne : a <> ""%string) by (intros ->; discriminate).
      split; [exact Hne|].
      destruct (is_slash d) eqn:Hd; [left|now right].
      split; [reflexivity|].
      unfold has_slash. apply existsb_exists. exists d. split; [|exact Hd].
      apply in_rev. rewrite Ha. now left. }
  destruct (list_ascii_of_string b) as [|c lb] eqn:Hb; [exact Hrev|].
  destruct (is_slash c) eqn:Hc; [|exact Hrev].
  left. split; [reflexivity|]. right. unfold has_slash. rewrite Hb. simpl. now rewrite Hc.
Qed.

Lemma os_path_join_has_slash a b :
  a <> ""%string -> has_slash (os_path_join a b) = true.
Proof.
  intros Ha.
  destruct (os_path_join_cases a b) as [[-> [-> | H]] | [_ [[-> H] | ->]]].
  - contradiction.
  - exact H.
  - rewrite has_slash_app, H. reflexivity.
  - rewrite !has_slash_app. change (has_slash "/") with true. now rewrite orb_true_r.
Qed.

Lemma os_path_join_nonempty a b : b <> ""%string -> os_path_join a b <> ""%string.
Proof.
  intros Hb.
  destruct (os_path_join_cases a b) as [[-> _] | [Ha [[-> _] | ->]]]; [exact Hb| |];
    destruct a; try contradiction; discriminate.
Qed.

Lemma bin_path_has_slash dir name year : has_slash (bin_path dir name year) = true.
Proof.
  unfold bin_path, STREAMING_DIR.
  do 3 (apply os_path_join_has_slash, has_slash_nonempty).
  apply os_path_join_has_slash, os_path_join_nonempty. discriminate.
Qed.

Lemma bin_path_dirname dir name year : os_path_dirname (bin_path dir name year) <> ""%string.
Proof.
  intros H. apply os_path_dirname_empty_iff in H. rewrite bin_path_has_slash in H. discriminate.
Qed.

Lemma string_app_inv_tail (a b s : string) : a +:+ s = b +:+ s -> a = b.
Proof.
  intros H. apply (f_equal list_ascii_of_string) in H.
  rewrite !list_ascii_of_string_app in H. apply app_inv_tail in H.
  rewrite <- (string_of_list_ascii_of_string a), <- (string_of_list_ascii_of_string b).
  now rewrite H.
Qed.

Lemma string_app_inv_head (s a b : string) : s +:+ a = s +:+ b -> a = b.
Proof. induction s as [|c s IH]; simpl; intros H; [exact H|]. injection H as H. auto. Qed.

Lemma string_app_assoc (a b c : string) : a +:+ b +:+ c = (a +:+ b) +:+ c.
Proof.
  induction a as [|x a IH]; [reflexivity|].
  change (String x (a +:+ b +:+ c) = String x ((a +:+ b) +:+ c)). now rewrite IH.
Qed.

Lemma os_path_join_file a : 
  exists P, forall b c lb, list_ascii_of_string b = c :: lb -> is_slash c = false ->
    os_path_join a b = P +:+ b.
Proof.
  unfold os_path_join.
  destruct (rev (list_ascii_of_string a)) as [|d ra].
  - exists ""%string. intros b c lb -> ->. reflexivity.
  - destruct (is_slash d).
    + exists a. intros b c lb -> ->. reflexivity.
    + exists (a +:+ "/")%string. intros b c lb -> ->.
      apply string_app_assoc.
Qed.

Lemma bin_path_year_inj dir name y1 y2 :
  bin_path dir name y1 = bin_path dir name y2 -> y1 = y2.
Proof.
  unfold bin_path.
  destruct (os_path_join_file (os_path_join (STREAMING_DIR dir) name)) as [P HP].
  rewrite (HP _ "s"%char (list_ascii_of_string ("un_pos_" +:+ pretty y1 +:+ ".bin")))
    by reflexivity.
  rewrite (HP _ "s"%char (list_ascii_of_string ("un_pos_" +:+ pretty y2 +:+ ".bin")))
    by reflexivity.
  intros H. apply string_app_inv_head in H.
  apply (string_app_inv_head "sun_pos_") in H.
  apply string_app_inv_tail in H.
  now apply (inj pretty) in H.
Qed.

(** X7: the writer refuses a bare file name.  It ends with
    [FileNotFoundError], raised by [os.makedirs] on the empty directory part,
    exactly when the path contains no slash; whether the year fits the header
    and what the frame holds play no part. *)
Theorem write_binary_bare_file_name (df : DataFrame) (path : string) (year : Z) (w : world) :
  fst (write_binary df path year w) = Raise FileNotFoundError <-> has_slash path = false.
Proof.
  rewrite <- os_path_dirname_empty_iff. split.
  - intros H. destruct (String.eqb_spec (os_path_dirname path) "") as [E|Hd]; [exact E|].
    exfalso. destruct (Z.leb_spec (-32768) year), (Z.leb_spec year 32767).
    1: rewrite write_binary_ok in H by (assumption || lia); discriminate.
    all: rewrite write_binary_struct_error in H by (assumption || lia); discriminate.
  - intros Hd. now rewrite (write_binary_no_directory df path year w Hd).
Qed.

Lemma write_binary_bare_file_name_witness :
  has_slash "sun_pos_2024.bin" = false /\
  fst (write_binary two_rows "sun_pos_2024.bin" 2024 empty_world) = Raise FileNotFoundError.
Proof.
  assert (Hs : has_slash "sun_pos_2024.bin" = false) by reflexivity.
  split; [exact Hs|].
  exact (proj2 (write_binary_bare_file_name two_rows "sun_pos_2024.bin" 2024 empty_world) Hs).
Defined.

(* ===================================================================== *)
(** * One job of the main loop *)
(* ===================================================================== *)

(** X8: what a job reports.  In a supported year, when both boundaries of the
    year resolve and the position function returns at every instant between
    them, the job succeeds whatever the script directory and the city name
    are.  With [n] the number of instants, it prints the announcement and
    the closing line of the generator, then the warning of the writer exactly
    when [n] differs from [days_in_year year * 1440], then the line of the
    binary file with [n] entries and the size [16 + 8 * n]; the directory of
    the file exists afterwards. *)
Theorem main_job_report
    (sp : Z -> float -> float -> float -> result (float * float))
    (dir name : string) (info : city) (year : Z) (w : world) (s e : Z) :
  supported_year year ->
  Timestamp (year_start year) (timezone info) = Ok s ->
  Timestamp (year_end year) (timezone info) = Ok e ->
  (forall t, s <= t <= e ->
     is_Ok (sp t (latitude info) (longitude info) (altitude info)) = true) ->
  exists w',
    main_job sp dir name info year w = (Ok tt, w') /\
    stdout w' =
      stdout w
      ++ [msg_computing (Z.max 0 (e - s + 1)); msg_done]
      ++ (if Z.max 0 (e - s + 1) =? days_in_year year * 1440 then []
          else [msg_row_mismatch (days_in_year year * 1440) (Z.max 0 (e - s + 1))])
      ++ [msg_binary (Z.max 0 (e - s + 1)) (bin_path dir name year)
                     (16 + 8 * Z.max 0 (e - s + 1))] /\
    os_path_dirname (bin_path dir name year) ∈ dirs w'.
Proof.
  intros Hyr Hs He Htot.
  assert (Hy : -32768 <= year <= 32767) by (unfold supported_year in Hyr; lia).
  destruct (get_solarposition_total sp (date_range s e)
              (latitude info) (longitude info) (altitude info)) as [df Hdf].
  { intros t Ht. apply Htot, date_range_elem, Ht. }
  assert (Hlen : len df = Z.max 0 (e - s + 1)).
  { unfold len. rewrite (get_solarposition_length _ _ _ _ _ _ Hdf). apply date_range_length. }
  unfold main_job, se_bind at 1.
  rewrite compute_solar_positions_run, Hs, He, Hdf. lazy zeta.
  unfold se_bind at 1.
  rewrite (write_binary_ok df _ year _ Hy (bin_path_dirname dir name year)).
  unfold se_bind, print, os_path_getsize. cbn [files dirs stdout fs_log].
  rewrite lookup_insert_eq, length_app, header_bytes_length, payload_bytes_length.
  change MINUTES_PER_DAY with 1440.
  replace (Z.of_nat (16 + length df * 8)) with (16 + 8 * len df) by (unfold len; lia).
  rewrite Hlen, date_range_length.
  eexists. split; [reflexivity|]. cbn [stdout dirs]. split.
  - destruct (Z.max 0 (e - s + 1) =? days_in_year year * 1440);
      rewrite <- ?app_assoc; reflexivity.
  - apply elem_of_union_l, elem_of_singleton. reflexivity.
Qed.

Lemma main_job_report_witness :
  supported_year 2016 /\
  exists w',
    main_job (constant_position 180 45) "/srv/SunPath" "Istanbul"
      (City 41.0082 28.9784 40 Europe_Istanbul) 2016 empty_world = (Ok tt, w') /\
    stdout w' =
      [msg_computing 526980; msg_done; msg_row_mismatch 527040 526980;
       msg_binary 526980 (bin_path "/srv/SunPath" "Istanbul" 2016) 4215856].
Proof.
  assert (Hyr : supported_year 2016) by (unfold supported_year; lia).
  split; [exact Hyr|].
  destruct Istanbul_2016_boundaries as [Hs He].
  destruct (main_job_report (constant_position 180 45) "/srv/SunPath" "Istanbul"
              (City 41.0082 28.9784 40 Europe_Istanbul) 2016 empty_world _ _ Hyr Hs He)
    as (w' & Hrun & Hout & _).
  - intros t _. reflexivity.
  - exists w'. split; [exact Hrun|]. rewrite Hout. reflexivity.
Defined.

(** X9: a job leaves the files of the other years alone.  Whatever the
    position function does and however the job for [y2] ends, the file of the
    same city for another year [y1] is afterwards what it was before. *)
Theorem main_job_other_years_untouched
    (sp : Z -> float -> float -> float -> result (float * float))
    (dir name : string) (info : city) (y1 y2 : Z) (w : world) :
  supported_year y2 -> y1 <> y2 ->
  files (snd (main_job sp dir name info y2 w)) !! bin_path dir name y1
  = files w !! bin_path dir name y1.
Proof.
  intros _ Hne.
  assert (Hp : bin_path dir name y2 <> bin_path dir name y1).
  { intros H. apply bin_path_year_inj in H. congruence. }
  unfold main_job, se_bind at 1. rewrite compute_solar_positions_run.
  destruct (Timestamp (year_start y2) (timezone info)) as [s|x]; [|reflexivity].
  destruct (Timestamp (year_end y2) (timezone info)) as [e|x]; [|reflexivity].
  lazy zeta.
  destruct (get_solarposition sp (date_range s e) (latitude info) (longitude info)
              (altitude info)) as [df|x]; [|reflexivity].
  unfold se_bind at 1.
  match goal with |- context [write_binary df ?p y2 ?w0] =>
    destruct (write_binary_files df p y2 w0 (bin_path_dirname dir name y2))
      as (content & Hfiles & _);
    destruct (write_binary df p y2 w0) as [[n|x] w1] end;
    cbn [snd] in Hfiles; unfold se_bind, print; cbn [snd files];
    rewrite Hfiles; cbn [files]; apply lookup_insert_ne; exact Hp.
Qed.

Lemma main_job_other_years_untouched_witness :
  supported_year 2025 /\ 2024 <> 2025 /\
  files (snd (main_job (constant_position 180 45) "/srv/SunPath" "Manhattan" Manhattan 2025
                (World {[ bin_path "/srv/SunPath" "Manhattan" 2024 := header_bytes 2024 ]}
                       ∅ [] [])))
    !! bin_path "/srv/SunPath" "Manhattan" 2024 = Some (header_bytes 2024).
Proof.
  assert (Hyr : supported_year 2025) by (unfold supported_year; lia).
  assert (Hne : 2024 <> 2025) by lia.
  split; [exact Hyr|]. split; [exact Hne|].
  exact (eq_trans
           (main_job_other_years_untouched (constant_position 180 45) "/srv/SunPath"
              "Manhattan" Manhattan 2024 2025
              (World {[ bin_path "/srv/SunPath" "Manhattan" 2024 := header_bytes 2024 ]}
                     ∅ [] []) Hyr Hne)
           (lookup_singleton_eq (bin_path "/srv/SunPath" "Manhattan" 2024)
              (header_bytes 2024))).
Defined.

(* ===================================================================== *)
(** * The command line *)
(* ===================================================================== *)

Lemma cli_bind_Return {A B} (m : CLI A) (k : A -> CLI B) s a s' :
  m s = (Return a, s') -> cli_bind m k s = k a s'.
Proof. intros H. unfold cli_bind. now rewrite H. Qed.

Lemma cli_bind_Uncaught {A B} (m : CLI A) (k : A -> CLI B) s x s' :
  m s = (Uncaught x, s') -> cli_bind m k s = (Uncaught x, s').
Proof. intros H. unfold cli_bind. now rewrite H. Qed.

Lemma for_each_app {A B} (l1 l2 : list A) (body : B -> A -> CLI B) acc s :
  for_each (l1 ++ l2) body acc s =
  cli_bind (for_each l1 body acc) (fun acc' => for_each l2 body acc') s.
Proof.
  revert acc s. induction l1 as [|a l1 IH]; intros acc s; [reflexivity|].
  simpl. unfold cli_bind.
  destruct (body acc a s) as [[acc'|code|x] s']; [|reflexivity|reflexivity].
  rewrite IH. reflexivity.
Qed.

Lemma dict_set_spec {V} (k : string) (v : V) (d table : list (string * V)) :
  NoDup (map fst table) -> In (k, v) table ->
  (forall kv, In kv d -> In kv table) -> NoDup (map fst d) ->
  NoDup (map fst (dict_set k v d)) /\
  (forall kv, In kv (dict_set k v d) <-> In kv d \/ kv = (k, v)).
Proof.
  intros Htable Hkv. induction d as [|[k' v'] d IH]; intros Hsub Hd.
  - simpl. split; [repeat constructor; intros []%elem_of_nil|]. intros kv. intuition.
  - simpl. destruct (String.eqb_spec k' k) as [->|Hne].
    + assert (v' = v) as ->.
      { specialize (Hsub (k, v') (or_introl eq_refl)).
        clear -Htable Hkv Hsub. induction table as [|[k0 v0] t IH]; [destruct Hkv|].
        simpl in Htable. apply NoDup_cons in Htable as [Hnot Ht].
        destruct Hkv as [E1|H1], Hsub as [E2|H2].
        - congruence.
        - injection E1 as -> ->. exfalso. apply Hnot, list_elem_of_In.
          apply (in_map fst) in H2. exact H2.
        - injection E2 as -> ->. exfalso. apply Hnot, list_elem_of_In.
          apply (in_map fst) in H1. exact H1.
        - auto. }
      split; [exact Hd|]. intros kv. simpl. intuition.
    + simpl in Hd. apply NoDup_cons in Hd as [Hnot Hd].
      destruct IH as [IHn IHi]; [intros kv H; apply Hsub; now right|exact Hd|].
      split.
      * simpl. apply NoDup_cons. split; [|exact IHn].
        intros H. apply list_elem_of_In, in_map_iff in H as ([k0 v0] & E & H).
        simpl in E. subst k0. apply IHi in H as [H|H].
        -- apply Hnot, list_elem_of_In. apply (in_map fst) in H. exact H.
        -- congruence.
      * intros kv. simpl. rewrite IHi. tauto.
Qed.

Lemma dict_update_spec {V} (m d table : list (string * V)) :
  NoDup (map fst table) -> (forall kv, In kv m -> In kv table) ->
  (forall kv, In kv d -> In kv table) -> NoDup (map fst d) ->
  NoDup (map fst (dict_update d m)) /\
  (forall kv, In kv (dict_update d m) <-> In kv d \/ In kv m).
Proof.
  intros Htable. unfold dict_update. revert d.
  induction m as [|[k v] m IH]; intros d Hm Hsub Hd.
  - simpl. split; [exact Hd|]. intros kv. tauto.
  - simpl.
    destruct (dict_set_spec k v d table Htable (Hm _ (or_introl eq_refl)) Hsub Hd)
      as [Hn Hi].
    destruct (IH (dict_set k v d)) as [IHn IHi].
    + intros kv H. apply Hm. now right.
    + intros kv H. apply Hi in H as [H| ->]; [auto|]. apply Hm. now left.
    + exact Hn.
    + split; [exact IHn|]. intros kv. rewrite IHi, Hi. simpl. intuition.
Qed.




Lemma matched_spec lower (Cities : list (string * city)) name kv :
  In kv (List.filter (fun kv => String.eqb (lower (fst kv)) (lower name)) Cities)
  <-> In kv Cities /\ lower (fst kv) = lower name.
Proof. rewrite filter_In. now rewrite String.eqb_eq. Qed.

Lemma resolve_loop lower Cities requested : forall acc s,
  NoDup (map fst Cities) ->
  (forall name, In name requested -> known lower Cities name) ->
  (forall kv, In kv acc -> In kv Cities) -> NoDup (map fst acc) ->
  exists selected,
    for_each requested
      (fun selected name =>
         let matched :=
           List.filter (fun kv => String.eqb (lower (fst kv)) (lower name)) Cities in
         match matched with
         | [] => (echo (line_unknown_city name (map fst Cities)) ;;; sys_exit 1)%cli
         | _ :: _ => cli_ret (dict_update selected matched)
         end) acc s = (Return selected, s) /\
    NoDup (map fst selected) /\
    (forall kv, In kv selected -> In kv Cities) /\
    (forall kv, In kv selected <->
       In kv acc \/ (In kv Cities /\ exists name, In name requested /\ lower (fst kv) = lower name)).
Proof.
  induction requested as [|name requested IH]; intros acc s Htable Hknown Hsub Hacc.
  - exists acc. split; [reflexivity|]. split; [exact Hacc|]. split; [exact Hsub|].
    intros kv. split; [auto|]. intros [H|(_ & name & [] & _)]. exact H.
  - cbn [for_each]. unfold cli_bind at 1. lazy zeta.
    set (matched := List.filter (fun kv => String.eqb (lower (fst kv)) (lower name)) Cities).
    assert (Hm : forall kv, In kv matched <-> In kv Cities /\ lower (fst kv) = lower name)
      by (intros kv; apply matched_spec).
    destruct (dict_update_spec matched acc Cities Htable) as [Hn Hi];
      [intros kv H; now apply Hm in H|exact Hsub|exact Hacc|].
    destruct matched as [|kv0 rest] eqn:E.
    + exfalso. destruct (Hknown name (or_introl eq_refl)) as (kv & H1 & H2).
      apply (proj2 (Hm kv)). now split.
    + unfold cli_ret at 1.
      destruct (IH (dict_update acc (kv0 :: rest)) s Htable) as (sel & Hrun & Hnd & Hs & Hin).
      * intros n Hn'. apply Hknown. now right.
      * intros kv H. apply Hi in H as [H|H]; [auto|]. now apply Hm in H.
      * exact Hn.
      * exists sel. split; [exact Hrun|]. split; [exact Hnd|]. split; [exact Hs|].
        intros kv. rewrite Hin, Hi, Hm. split.
        -- intros [[H|[H1 H2]]|(H1 & n & H2 & H3)]; [now left| |].
           ++ right. split; [exact H1|]. exists name. split; [now left|exact H2].
           ++ right. split; [exact H1|]. exists n. split; [now right|exact H3].
        -- intros [H|(H1 & n & [<-|H2] & H3)]; [now left; left| |].
           ++ left. right. now split.
           ++ right. split; [exact H1|]. exists n. now split.
Qed.



Lemma existsb_all_false (l : list string) :
  ~ In "all"%string l -> existsb (String.eqb "all") l = false.
Proof.
  intros H. destruct (existsb (String.eqb "all") l) eqn:E; [|reflexivity].
  apply existsb_exists in E as (x & Hx & Heq). apply String.eqb_eq in Heq. now subst x.
Qed.

(** X10: the selection of cities.  When the table has no key twice, no
    requested name is ["all"] in any letter case, and every requested name
    equals a key of the table up to letter case, [resolve_cities] returns
    without printing; the selection has no key twice, however often a city
    was requested, and holds exactly the entries of the table whose key
    equals a requested name up to letter case. *)
Theorem resolve_cities_selects (lower : string -> string) (Cities : list (string * city))
    (requested : list string) (s : session) :
  NoDup (map fst Cities) ->
  ~ In "all"%string (map lower requested) ->
  (forall name, In name requested -> known lower Cities name) ->
  exists selected,
    resolve_cities lower Cities requested s = (Return selected, s) /\
    NoDup (map fst selected) /\
    forall kv, In kv selected <->
      In kv Cities /\ exists name, In name requested /\ lower (fst kv) = lower name.
Proof.
  intros Htable Hall Hknown. unfold resolve_cities. rewrite (existsb_all_false _ Hall).
  destruct (resolve_loop lower Cities requested [] s Htable Hknown) as (sel & Hrun & Hn & _ & Hin).
  - intros kv [].
  - constructor.
  - exists sel. split; [exact Hrun|]. split; [exact Hn|].
    intros kv. rewrite Hin. simpl. tauto.
Qed.

Lemma resolve_cities_selects_witness :
  NoDup (map fst script_Cities) /\
  ~ In "all"%string (map lower_ascii ["MANHATTAN"; "manhattan"]%string) /\
  exists selected,
    resolve_cities lower_ascii script_Cities ["MANHATTAN"; "manhattan"]%string empty_session
      = (Return selected, empty_session) /\
    NoDup (map fst selected).
Proof.
  assert (Ht : NoDup (map fst script_Cities)).
  { repeat constructor. intros H%elem_of_nil. exact H. }
  assert (Ha : ~ In "all"%string (map lower_ascii ["MANHATTAN"; "manhattan"]%string)).
  { intros [H|[H|[]]]; discriminate. }
  split; [exact Ht|]. split; [exact Ha|].
  destruct (resolve_cities_selects lower_ascii script_Cities
              ["MANHATTAN"; "manhattan"]%string empty_session Ht Ha)
    as (sel & Hrun & Hn & _).
  - intros name [<-|[<-|[]]]; exists ("Manhattan"%string, Manhattan);
      (split; [now left|reflexivity]).
  - exists sel. split; [exact Hrun|exact Hn].
Defined.

Lemma resolve_loop_returns lower Cities requested : forall acc s,
  (forall name, In name requested -> known lower Cities name) ->
  exists selected,
    for_each requested
      (fun selected name =>
         let matched :=
           List.filter (fun kv => String.eqb (lower (fst kv)) (lower name)) Cities in
         match matched with
         | [] => (echo (line_unknown_city name (map fst Cities)) ;;; sys_exit 1)%cli
         | _ :: _ => cli_ret (dict_update selected matched)
         end) acc s = (Return selected, s).
Proof.
  induction requested as [|name requested IH]; intros acc s Hknown.
  - exists acc. reflexivity.
  - cbn [for_each]. unfold cli_bind at 1. lazy zeta.
    destruct (List.filter (fun kv => String.eqb (lower (fst kv)) (lower name)) Cities)
      as [|kv0 rest] eqn:E.
    + exfalso. destruct (Hknown name (or_introl eq_refl)) as (kv & H1 & H2).
      assert (H : In kv []); [|destruct H].
      rewrite <- E. apply filter_In. split; [exact H1|]. now apply String.eqb_eq.
    + unfold cli_ret at 1. apply IH. intros n Hn. apply Hknown. now right.
Qed.

(** X11: an unknown city ends the run before anything is generated.  When no
    requested name is ["all"] in any letter case, the names before [name] are
    known and [name] equals no key of the table up to letter case,
    [resolve_cities] prints the line that names [name] and the keys of the
    table and exits with status 1, whatever follows [name]; and so does
    [main], whose files, directories and other lines are left as they
    were. *)
Theorem resolve_cities_unknown (lower : string -> string) (Cities : list (string * city))
    (before : list string) (name : string) (after : list string) (s : session) :
  ~ In "all"%string (map lower (before ++ name :: after)) ->
  (forall n, In n before -> known lower Cities n) ->
  ~ known lower Cities name ->
  let s' := Session (s_files s) (s_dirs s)
              (terminal s ++ [line_unknown_city name (map fst Cities)]) (s_log s) in
  resolve_cities lower Cities (before ++ name :: after) s = (SystemExit 1, s') /\
  forall sp to_csv dir years csv,
    main lower Cities sp to_csv dir (Args (before ++ name :: after) years csv) s
    = (SystemExit 1, s').
Proof.
  intros Hall Hknown Hunknown s'.
  assert (Hres : resolve_cities lower Cities (before ++ name :: after) s = (SystemExit 1, s')).
  { unfold resolve_cities. rewrite (existsb_all_false _ Hall), for_each_app.
    destruct (resolve_loop_returns lower Cities before [] s Hknown) as (sel & Hsel).
    rewrite (cli_bind_Return _ _ _ _ _ Hsel).
    cbn [for_each]. unfold cli_bind at 1. lazy zeta.
    destruct (List.filter (fun kv => String.eqb (lower (fst kv)) (lower name)) Cities)
      as [|kv0 rest] eqn:E.
    - reflexivity.
    - exfalso. apply Hunknown. exists kv0.
      assert (H : In kv0 (kv0 :: rest)) by now left.
      rewrite <- E in H. apply filter_In in H as [H1 H2]. split; [exact H1|].
      now apply String.eqb_eq. }
  split; [exact Hres|].
  intros sp to_csv dir years csv. unfold main, cli_bind at 1. cbn [args_cities].
  rewrite Hres. reflexivity.
Qed.

Lemma resolve_cities_unknown_witness :
  ~ In "all"%string (map lower_ascii (["manhattan"%string] ++ "Atlantis"%string :: ["Manhattan"%string])) /\
  ~ known lower_ascii script_Cities "Atlantis" /\
  main lower_ascii script_Cities (constant_position 180 45) (fun _ => []) "/srv/SunPath"
    (Args (["manhattan"%string] ++ "Atlantis"%string :: ["Manhattan"%string]) [2024] true) empty_session
  = (SystemExit 1, Session ∅ ∅ [line_unknown_city "Atlantis" ["Manhattan"%string]] []).
Proof.
  assert (Ha : ~ In "all"%string
                 (map lower_ascii (["manhattan"%string] ++ "Atlantis"%string :: ["Manhattan"%string]))).
  { intros [H|[H|[H|[]]]]; discriminate. }
  assert (Hu : ~ known lower_ascii script_Cities "Atlantis").
  { intros (kv & [<-|[]] & H). discriminate. }
  split; [exact Ha|]. split; [exact Hu|].
  destruct (resolve_cities_unknown lower_ascii script_Cities ["manhattan"%string] "Atlantis"
              ["Manhattan"%string] empty_session Ha) as [_ Hmain].
  - intros n [<-|[]]. exists ("Manhattan"%string, Manhattan). split; [now left|reflexivity].
  - exact Hu.
  - apply Hmain.
Defined.

Lemma dict_set_subset {V} (k : string) (v : V) (d : list (string * V)) kv :
  In kv (dict_set k v d) -> In kv d \/ kv = (k, v).
Proof.
  induction d as [|[k' v'] d IH]; simpl.
  - intros [<-|[]]. now right.
  - destruct (String.eqb_spec k' k) as [->|Hne]; simpl.
    + intros [<-|H]; [now right|now left; right].
    + intros [<-|H]; [now left; left|]. destruct (IH H) as [H'|H']; [now left; right|now right].
Qed.

Lemma dict_update_subset {V} (m d : list (string * V)) kv :
  In kv (dict_update d m) -> In kv d \/ In kv m.
Proof.
  unfold dict_update. revert d. induction m as [|[k v] m IH]; intros d; simpl.
  - now left.
  - intros H. destruct (IH _ H) as [H'|H']; [|now right; right].
    destruct (dict_set_subset _ _ _ _ H') as [H''|H'']; [now left|right; now left].
Qed.

Lemma resolve_loop_outcome lower Cities requested : forall acc s,
  (forall kv, In kv acc -> In kv Cities) ->
  match for_each requested
      (fun selected name =>
         let matched :=
           List.filter (fun kv => String.eqb (lower (fst kv)) (lower name)) Cities in
         match matched with
         | [] => (echo (line_unknown_city name (map fst Cities)) ;;; sys_exit 1)%cli
         | _ :: _ => cli_ret (dict_update selected matched)
         end) acc s with
  | (Return selected, s') =>
      s' = s /\ (forall kv, In kv selected -> In kv Cities) /\
      (forall name, In name requested -> known lower Cities name)
  | (SystemExit code, s') =>
      code = 1 /\
      exists name, In name requested /\ ~ known lower Cities name /\
        s' = Session (s_files s) (s_dirs s)
               (terminal s ++ [line_unknown_city name (map fst Cities)]) (s_log s)
  | (Uncaught _, _) => False
  end.
Proof.
  induction requested as [|name requested IH]; intros acc s Hsub.
  - simpl. split; [reflexivity|]. split; [exact Hsub|]. intros n [].
  - cbn [for_each]. unfold cli_bind at 1. lazy zeta.
    destruct (List.filter (fun kv => String.eqb (lower (fst kv)) (lower name)) Cities)
      as [|kv0 rest] eqn:E.
    + unfold cli_bind, echo, sys_exit. split; [reflexivity|].
      exists name. split; [now left|]. split; [|reflexivity].
      intros (kv & H1 & H2). assert (H : In kv []); [|destruct H].
      rewrite <- E. apply filter_In. split; [exact H1|]. now apply String.eqb_eq.
    + unfold cli_ret at 1.
      assert (Hk : known lower Cities name).
      { exists kv0. assert (H : In kv0 (kv0 :: rest)) by now left.
        rewrite <- E in H. apply filter_In in H as [H1 H2]. split; [exact H1|].
        now apply String.eqb_eq. }
      specialize (IH (dict_update acc (kv0 :: rest)) s).
      destruct (for_each requested _ (dict_update acc (kv0 :: rest)) s) as [[sel|code|x] s'].
      * destruct IH as (-> & Hs & Hkn).
        { intros kv H. apply dict_update_subset in H as [H|H]; [auto|].
          rewrite <- E in H. now apply filter_In in H. }
        split; [reflexivity|]. split; [exact Hs|]. intros n [<-|H]; auto.
      * destruct IH as (-> & n & Hn & Hu & ->).
        { intros kv H. apply dict_update_subset in H as [H|H]; [auto|].
          rewrite <- E in H. now apply filter_In in H. }
        split; [reflexivity|]. exists n. split; [now right|]. split; [exact Hu|reflexivity].
      * apply IH. intros kv H. apply dict_update_subset in H as [H|H]; [auto|].
        rewrite <- E in H. now apply filter_In in H.
Qed.

Lemma existsb_all_true (l : list string) :
  existsb (String.eqb "all") l = true <-> In "all"%string l.
Proof.
  rewrite existsb_exists. split.
  - intros (x & Hx & Heq). apply String.eqb_eq in Heq. now subst x.
  - intros H. exists "all"%string. split; [exact H|reflexivity].
Qed.

(** X12: the three ways [resolve_cities] can end.  It never raises.  When it
    returns, nothing was printed, every selected entry is an entry of the
    table, the selection is the whole table if a requested name is ["all"] in
    any letter case (whatever the other names are), and otherwise every
    requested name is known.  When it exits, the status is 1, no requested
    name is ["all"], and the one line printed names a requested city that
    equals no key of the table. *)
Theorem resolve_cities_outcome (lower : string -> string) (Cities : list (string * city))
    (requested : list string) (s : session) :
  match resolve_cities lower Cities requested s with
  | (Return selected, s') =>
      s' = s /\ (forall kv, In kv selected -> In kv Cities) /\
      (In "all"%string (map lower requested) -> selected = Cities) /\
      (~ In "all"%string (map lower requested) ->
       forall name, In name requested -> known lower Cities name)
  | (SystemExit code, s') =>
      code = 1 /\ ~ In "all"%string (map lower requested) /\
      exists name, In name requested /\ ~ known lower Cities name /\
        s' = Session (s_files s) (s_dirs s)
               (terminal s ++ [line_unknown_city name (map fst Cities)]) (s_log s)
  | (Uncaught _, _) => False
  end.
Proof.
  unfold resolve_cities.
  destruct (existsb (String.eqb "all") (map lower requested)) eqn:Eall.
  - apply existsb_all_true in Eall. unfold cli_ret. repeat split; auto.
    intros H. contradiction.
  - assert (Hall : ~ In "all"%string (map lower requested)).
    { intros H. apply existsb_all_true in H. congruence. }
    pose proof (resolve_loop_outcome lower Cities requested [] s) as H.
    destruct (for_each requested _ [] s) as [[sel|code|x] s'].
    + destruct H as (-> & Hs & Hk); [intros kv []|]. repeat split; auto.
      intros H. contradiction.
    + destruct H as (-> & H); [intros kv []|]. auto.
    + apply H. intros kv [].
Qed.

Lemma resolve_cities_outcome_witness :
  In "all"%string (map lower_ascii ["Atlantis"%string; "ALL"%string]) /\
  fst (resolve_cities lower_ascii script_Cities ["Atlantis"%string; "ALL"%string]
         empty_session) = Return script_Cities.
Proof.
  assert (Hall : In "all"%string (map lower_ascii ["Atlantis"%string; "ALL"%string]))
    by (right; left; reflexivity).
  split; [exact Hall|].
  pose proof (resolve_cities_outcome lower_ascii script_Cities
                ["Atlantis"%string; "ALL"%string] empty_session) as H.
  destruct (resolve_cities lower_ascii script_Cities ["Atlantis"%string; "ALL"%string]
              empty_session) as [[sel|code|x] s'].
  - destruct H as (_ & _ & Hsel & _). cbn [fst]. f_equal. exact (Hsel Hall).
  - destruct H as (_ & Hno & _). destruct (Hno Hall).
  - destruct H.
Defined.

Lemma grows_refl s : grows s s.
Proof. intros p H. exact H. Qed.

Lemma grows_trans s1 s2 s3 : grows s1 s2 -> grows s2 s3 -> grows s1 s3.
Proof. intros H1 H2 p H. auto. Qed.

Lemma for_each_counts {A} (l : list A) (body : Z -> A -> CLI Z) (k : Z)
    (done : A -> session -> Prop) :
  (forall a s s', done a s -> grows s s' -> done a s') ->
  (forall a acc s, In a l ->
     exists s', body acc a s = (Return (acc + k), s') /\ grows s s' /\ done a s') ->
  forall acc s,
    exists s', for_each l body acc s = (Return (acc + k * Z.of_nat (length l)), s') /\
               grows s s' /\ forall a, In a l -> done a s'.
Proof.
  intros Hstable. induction l as [|a l IH]; intros Hbody acc s.
  - exists s. split; [simpl; unfold cli_ret; do 2 f_equal; lia|].
    split; [apply grows_refl|]. intros a [].
  - destruct (Hbody a acc s (or_introl eq_refl)) as (s1 & Hrun & Hg & Hd).
    destruct (IH (fun a' acc' s' H => Hbody a' acc' s' (or_intror H)) (acc + k) s1)
      as (s2 & Hrun2 & Hg2 & Hd2).
    exists s2. split.
    + cbn [for_each]. unfold cli_bind. rewrite Hrun, Hrun2. do 2 f_equal.
      cbn [length]. lia.
    + split; [exact (grows_trans _ _ _ Hg Hg2)|].
      intros a' [<-|H]; [exact (Hstable _ _ _ Hd Hg2)|exact (Hd2 _ H)].
Qed.


Lemma csv_path_dirname dir name year : os_path_dirname (csv_path dir name year) <> ""%string.
Proof.
  intros H. apply os_path_dirname_empty_iff in H.
  assert (Hs : has_slash (csv_path dir name year) = true).
  { unfold csv_path, RESOURCES_DIR.
    do 3 (apply os_path_join_has_slash, has_slash_nonempty).
    apply os_path_join_has_slash, os_path_join_nonempty. discriminate. }
  rewrite Hs in H. discriminate.
Qed.

Lemma raw_write_files path content chunks w :
  files w !! path = Some content ->
  files (raw_write path content chunks w) = <[path := content ++ concat chunks]> (files w).
Proof.
  revert content w. induction chunks as [|c chunks IH]; intros content w Hc.
  - cbn [raw_write concat]. rewrite app_nil_r. symmetry. now apply insert_id.
  - cbn [raw_write concat]. rewrite IH by (unfold set_file; cbn [files]; apply lookup_insert_eq).
    unfold set_file; cbn [files]. now rewrite insert_insert_eq, app_assoc.
Qed.

Lemma f_write_written bs f :
  fst (f_write bs f) = Ok tt /\
  concat (raw_writes (flush (snd (f_write bs f)))) = concat (raw_writes (flush f)) ++ bs.
Proof.
  assert (Hflush : forall g, concat (raw_writes (flush g)) = concat (raw_writes g) ++ buffer g).
  { intros g. unfold flush. destruct (buffer g) eqn:E; [now rewrite app_nil_r|].
    cbn [raw_writes]. rewrite concat_app. cbn [concat]. now rewrite app_nil_r. }
  unfold f_write.
  destruct (Z.of_nat (length bs) <=? buffer_size f - Z.of_nat (length (buffer f))).
  - split; [reflexivity|]. cbn [snd]. rewrite !Hflush. cbn [raw_writes buffer].
    now rewrite app_assoc.
  - destruct (buffer_size f <? Z.of_nat (length bs)); (split; [reflexivity|]); cbn [snd];
      rewrite !Hflush; cbn [raw_writes buffer]; rewrite ?concat_app, ?Hflush;
      cbn [concat]; now rewrite ?app_nil_r.
Qed.

Lemma write_csv_ok to_csv df path w :
  os_path_dirname path <> ""%string ->
  exists w', write_csv to_csv df path w = (Ok tt, w') /\
             files w' = <[path := to_csv df]> (files w).
Proof.
  intros Hd. unfold write_csv, se_bind. rewrite (makedirs_ok _ _ Hd).
  unfold with_open_wb.
  destruct (f_write_written (to_csv df) (FileObject DEFAULT_BUFFER_SIZE [] [])) as [Hr Hc].
  destruct (f_write (to_csv df) (FileObject DEFAULT_BUFFER_SIZE [] [])) as [r f].
  cbn [fst snd] in Hr, Hc. subst r. eexists. split; [reflexivity|].
  rewrite raw_write_files by (unfold set_file; cbn [files]; apply lookup_insert_eq).
  unfold set_file; cbn [files]. rewrite insert_insert_eq, Hc. reflexivity.
Qed.

Lemma job_ok sp to_csv dir csv city_name info year (total_files : Z) s :
  job_ready sp info year ->
  exists s',
    (echo (line_job city_name year) ;;;
     df <- call (compute_solar_positions sp
                   (latitude info) (longitude info) (altitude info)
                   (timezone info) year) ;;
     let p := bin_path dir city_name year in
     n <- call (write_binary df p year) ;;
     size <- call (fun w => (Ok (os_path_getsize p w), w)) ;;
     echo (line_of (msg_binary n p size)) ;;;
     (if csv : bool then
        let c := csv_path dir city_name year in
        call (write_csv to_csv df c) ;;;
        csv_size <- call (fun w => (Ok (os_path_getsize c w), w)) ;;
        echo (line_csv c csv_size)
      else cli_ret tt) ;;;
     cli_ret (total_files + 1))%cli s = (Return (total_files + 1), s') /\
    grows s s' /\ is_Some (s_files s' !! bin_path dir city_name year).
Proof.
  intros (Hyr & st & e & Hs & He & Htot).
  assert (Hy : -32768 <= year <= 32767) by (unfold supported_year in Hyr; lia).
  destruct (get_solarposition_total sp (date_range st e)
              (latitude info) (longitude info) (altitude info)) as [df Hdf].
  { intros t Ht. apply Htot, date_range_elem, Ht. }
  unfold cli_bind at 1, echo at 1. cbn [s_files s_dirs terminal s_log].
  unfold cli_bind at 1, call at 1. cbn [s_files s_dirs terminal s_log].
  rewrite compute_solar_positions_run, Hs, He, Hdf. lazy zeta.
  unfold cli_bind at 1, call at 1. cbn [s_files s_dirs terminal s_log files dirs fs_log stdout].
  rewrite (write_binary_ok df _ year _ Hy (bin_path_dirname dir city_name year)).
  unfold cli_bind at 1, call at 1. cbn [s_files s_dirs terminal s_log files dirs fs_log stdout].
  unfold cli_bind at 1, echo at 1. cbn [s_files s_dirs terminal s_log].
  destruct csv.
  - lazy zeta. unfold cli_bind at 1. unfold cli_bind at 1, call at 1.
    cbn [s_files s_dirs terminal s_log].
    match goal with |- context [write_csv to_csv df ?c ?w0] =>
      destruct (write_csv_ok to_csv df c w0 (csv_path_dirname dir city_name year))
        as (w1 & -> & Hfiles) end.
    unfold cli_bind, call, echo, cli_ret. cbn [s_files s_dirs terminal s_log].
    eexists. split; [reflexivity|]. unfold grows. cbn [s_files]. rewrite Hfiles. cbn [files].
    split.
    + intros p Hp. rewrite !lookup_insert_is_Some'. auto.
    + rewrite !lookup_insert_is_Some'. right. right. left. reflexivity.
  - unfold cli_bind, cli_ret. eexists. split; [reflexivity|]. unfold grows. cbn [s_files].
    split.
    + intros p Hp. rewrite !lookup_insert_is_Some'. auto.
    + rewrite lookup_insert_eq. eauto.
Qed.

(** X13: a run in which every job can be done.  When [resolve_cities]
    returns the selection [cities] and, for every selected city and every
    requested year, the year is supported, its boundaries resolve and the
    position function returns at every instant between them, [main] ends
    normally, with or without the CSV export; its last line reports
    [length cities * length years] binary files, one for every pass of the
    inner loop, so a year given twice is counted twice; and the binary file
    of every selected city and requested year exists. *)
Theorem main_completes (lower : string -> string) (Cities : list (string * city))
    (sp : Z -> float -> float -> float -> result (float * float))
    (to_csv : DataFrame -> bytes) (dir : string) (args : Namespace)
    (s s0 : session) (cities : list (string * city)) :
  resolve_cities lower Cities (args_cities args) s = (Return cities, s0) ->
  (forall name info year,
     In (name, info) cities -> In year (args_years args) -> job_ready sp info year) ->
  exists s',
    main lower Cities sp to_csv dir args s = (Return tt, s') /\
    last (terminal s')
      = Some (line_done (Z.of_nat (length cities) * Z.of_nat (length (args_years args)))) /\
    forall name info year,
      In (name, info) cities -> In year (args_years args) ->
      is_Some (s_files s' !! bin_path dir name year).
Proof.
  intros Hres Hready. unfold main. unfold cli_bind at 1. rewrite Hres. lazy zeta.
  do 3 (unfold cli_bind at 1, echo at 1; cbn [s_files s_dirs terminal s_log]).
  unfold cli_bind at 1.
  match goal with |- context [(if args_csv args then ?a else ?b) ?s1] =>
    assert (Hcsv : exists s2, (if args_csv args then a else b) s1 = (Return tt, s2))
      by (destruct (args_csv args); eexists; reflexivity) end.
  destruct Hcsv as (s2 & ->).
  unfold cli_bind at 1, echo at 1.
  unfold cli_bind at 1.
  match goal with |- context [for_each cities ?body 0 ?s3] =>
    destruct (for_each_counts cities body (Z.of_nat (length (args_years args)))
                (fun c s' => forall year, In year (args_years args) ->
                   is_Some (s_files s' !! bin_path dir (fst c) year))) with (acc := 0) (s := s3)
      as (s4 & Hrun & _ & Hdone) end.
  - intros c sa sb Hd Hg year Hy. apply Hg, Hd, Hy.
  - intros [name info] acc sa Hin.
    match goal with |- context [for_each (args_years args) ?body acc sa] =>
      destruct (for_each_counts (args_years args) body 1
                  (fun year s' => is_Some (s_files s' !! bin_path dir name year)))
        with (acc := acc) (s := sa) as (sb & Hrun & Hg & Hdone) end.
    + intros year s1 s1' Hd Hg. apply Hg, Hd.
    + intros year acc' s1 Hy.
      apply (job_ok sp to_csv dir (args_csv args) name info year acc' s1).
      apply (Hready name info year Hin Hy).
    + exists sb. split; [|split; [exact Hg|exact Hdone]].
      rewrite Hrun. do 2 f_equal. lia.
  - rewrite Hrun. unfold echo. eexists. split; [reflexivity|]. cbn [terminal s_files].
    split.
    + rewrite last_snoc. do 2 f_equal. lia.
    + intros name info year Hin Hy. apply (Hdone (name, info) Hin year Hy).
Qed.

Lemma main_completes_witness :
  resolve_cities lower_ascii script_Cities ["manhattan"%string] empty_session
    = (Return script_Cities, empty_session) /\
  exists s',
    main lower_ascii script_Cities (constant_position 180 45) (fun _ => []) "/srv/SunPath"
      (Args ["manhattan"%string] [2024; 2024] false) empty_session = (Return tt, s') /\
    last (terminal s') = Some (line_done 2).
Proof.
  assert (Hres : resolve_cities lower_ascii script_Cities
                   (args_cities (Args ["manhattan"%string] [2024; 2024] false)) empty_session
                 = (Return script_Cities, empty_session)) by reflexivity.
  split; [exact Hres|].
  destruct (main_completes lower_ascii script_Cities (constant_position 180 45)
              (fun _ => []) "/srv/SunPath" _ _ _ _ Hres) as (s' & Hrun & Hlast & _).
  - intros name info year [E|[]] [<-|[<-|[]]]; injection E as <- <-;
      (split; [unfold supported_year; lia|]);
      destruct New_York_2024_boundaries as [Hs He];
      exists (minutes_of 2024 1 1 5 0), (minutes_of 2025 1 1 4 59);
      (split; [exact Hs|]); (split; [exact He|]); intros t _; reflexivity.
  - exists s'. split; [exact Hrun|exact Hlast].
Defined.

(** X14: an exception of the position library ends the whole run.  Let the
    first selected city be [name] and the years be [done ++ year :: rest];
    if the jobs of [done] can be done and, in [year], the boundaries resolve
    and the position function raises [x] at an instant [t] of the year after
    returning at all earlier ones, then [main] ends with [x] uncaught.  The
    last line printed is the announcement of the [e - st + 1] instants of
    [year]: no later year, no other city and no closing line follows; the
    binary files of the years of [done] are there. *)
Theorem main_stops_at_first_error (lower : string -> string) (Cities : list (string * city))
    (sp : Z -> float -> float -> float -> result (float * float))
    (to_csv : DataFrame -> bytes) (dir : string) (args : Namespace) (s s0 : session)
    (name : string) (info : city) (cities : list (string * city))
    (done : list Z) (year : Z) (rest : list Z) (st e t : Z) (x : exn) :
  resolve_cities lower Cities (args_cities args) s = (Return ((name, info) :: cities), s0) ->
  args_years args = done ++ year :: rest ->
  (forall y, In y done -> job_ready sp info y) ->
  supported_year year ->
  Timestamp (year_start year) (timezone info) = Ok st ->
  Timestamp (year_end year) (timezone info) = Ok e ->
  st <= t <= e ->
  (forall t', st <= t' < t ->
     is_Ok (sp t' (latitude info) (longitude info) (altitude info)) = true) ->
  sp t (latitude info) (longitude info) (altitude info) = Raise x ->
  exists s',
    main lower Cities sp to_csv dir args s = (Uncaught x, s') /\
    last (terminal s') = Some (line_of (msg_computing (e - st + 1))) /\
    forall y, In y done -> is_Some (s_files s' !! bin_path dir name y).
Proof.
  intros Hres Hyears Hready _ Hs He Ht Hbefore Hx.
  assert (Hdf : get_solarposition sp (date_range st e)
                  (latitude info) (longitude info) (altitude info) = Raise x).
  { rewrite (date_range_split st t e Ht). apply get_solarposition_first_error; [|exact Hx].
    intros t' Ht'. apply date_range_elem in Ht'. apply Hbefore. lia. }
  unfold main. rewrite (cli_bind_Return _ _ _ _ _ Hres). lazy zeta.
  do 3 (unfold cli_bind at 1, echo at 1; cbn [s_files s_dirs terminal s_log]).
  unfold cli_bind at 1.
  match goal with |- context [(if args_csv args then ?a else ?b) ?s1] =>
    assert (Hcsv : exists s2, (if args_csv args then a else b) s1 = (Return tt, s2))
      by (destruct (args_csv args); eexists; reflexivity) end.
  destruct Hcsv as (s2 & ->).
  unfold cli_bind at 1, echo at 1.
  rewrite Hyears.
  match goal with |- context [cli_bind ?m ?k ?s3] =>
    assert (Hloop : exists s', m s3 = (Uncaught x, s') /\
              last (terminal s') = Some (line_of (msg_computing (e - st + 1))) /\
              forall y, In y done -> is_Some (s_files s' !! bin_path dir name y));
    [|destruct Hloop as (s' & Hrun & Hlast & Hfiles);
      exists s'; split; [apply cli_bind_Uncaught, Hrun|split; assumption]] end.
  cbn [for_each].
  match goal with |- context [cli_bind ?m ?k ?s3] =>
    assert (Hloop : exists s', m s3 = (Uncaught x, s') /\
              last (terminal s') = Some (line_of (msg_computing (e - st + 1))) /\
              forall y, In y done -> is_Some (s_files s' !! bin_path dir name y));
    [|destruct Hloop as (s' & Hrun & Hlast & Hfiles);
      exists s'; split; [apply cli_bind_Uncaught, Hrun|split; assumption]] end.
  rewrite for_each_app.
  match goal with |- context [cli_bind (for_each done ?body 0) _ ?s3] =>
    destruct (for_each_counts done body 1
                (fun y s' => is_Some (s_files s' !! bin_path dir name y)))
      with (acc := 0) (s := s3) as (s4 & Hrun & _ & Hdone) end.
  - intros y s1 s1' Hd Hg. apply Hg, Hd.
  - intros y acc s1 Hy.
    apply (job_ok sp to_csv dir (args_csv args) name info y acc s1), Hready, Hy.
  - rewrite (cli_bind_Return _ _ _ _ _ Hrun). cbn [for_each].
    eexists. split.
    + apply cli_bind_Uncaught. unfold cli_bind at 1, echo at 1.
      apply cli_bind_Uncaught. unfold call. cbn [s_files s_dirs terminal s_log].
      rewrite compute_solar_positions_run, Hs, He, Hdf. lazy zeta. reflexivity.
    + cbn [terminal s_files files stdout]. split.
      * rewrite app_nil_l. cbn [map]. rewrite last_snoc, date_range_length.
        do 3 f_equal. lia.
      * exact Hdone.
Qed.

Lemma main_stops_at_first_error_witness :
  supported_year 2025 /\
  year_start 2025 - 330 <= minutes_of 2025 3 1 0 0 <= year_end 2025 - 330 /\
  exists s',
    main lower_ascii [("Delhi"%string, City 28.6139 77.209 216 Asia_Kolkata)]
      (failing_from (minutes_of 2025 3 1 0 0) 7) (fun _ => []) "/srv/SunPath"
      (Args ["delhi"%string] [2024; 2025; 2026] false) empty_session
    = (Uncaught (LibraryError 7), s') /\
    is_Some (s_files s' !! bin_path "/srv/SunPath" "Delhi" 2024).
Proof.
  assert (Hyr : supported_year 2025) by (unfold supported_year; lia).
  assert (Ht : year_start 2025 - 330 <= minutes_of 2025 3 1 0 0 <= year_end 2025 - 330)
    by (split; vm_compute; discriminate).
  split; [exact Hyr|]. split; [exact Ht|].
  destruct (main_stops_at_first_error lower_ascii
              [("Delhi"%string, City 28.6139 77.209 216 Asia_Kolkata)]
              (failing_from (minutes_of 2025 3 1 0 0) 7) (fun _ => []) "/srv/SunPath"
              (Args ["delhi"%string] [2024; 2025; 2026] false) empty_session empty_session
              "Delhi" (City 28.6139 77.209 216 Asia_Kolkata) [] [2024] 2025 [2026]
              (year_start 2025 - 330) (year_end 2025 - 330) (minutes_of 2025 3 1 0 0)
              (LibraryError 7))
    as (s' & Hrun & _ & Hfiles).
  - reflexivity.
  - reflexivity.
  - intros y [<-|[]]. split; [unfold supported_year; lia|].
    exists (year_start 2024 - 330), (year_end 2024 - 330).
    split; [apply Timestamp_fixed_offset|]. split; [apply Timestamp_fixed_offset|].
    intros t [_ Hle]. unfold failing_from.
    assert (Hlt : year_end 2024 - 330 < minutes_of 2025 3 1 0 0) by (vm_compute; reflexivity).
    destruct (Z.ltb_spec t (minutes_of 2025 3 1 0 0)); [reflexivity|lia].
  - exact Hyr.
  - apply Timestamp_fixed_offset.
  - apply Timestamp_fixed_offset.
  - exact Ht.
  - intros t' [_ Hlt]. unfold failing_from.
    destruct (Z.ltb_spec t' (minutes_of 2025 3 1 0 0)); [reflexivity|lia].
  - unfold failing_from. rewrite Z.ltb_irrefl. reflexivity.
  - exists s'. split; [exact Hrun|]. apply Hfiles. now left.
Defined.
